(** * Training recommendation agent: tools, geocoding endpoint, question table

    A shallow embedding of

      - [training_recommend/tools/gear.py]     (module [Gear]),
      - [training_recommend/tools/venues.py]   (modules [Venues] and
        [Distance]),
      - [training_recommend/tools/weather.py]  (module [Weather]),
      - the reverse geocoding endpoint of [app/main.py] (module [App]),
      - [training_recommend/collection_order.py] (module
        [CollectionOrder]),

    followed by the properties proved about them.

    Conventions of the embedding.

    - A Python [str] is a [string] holding its UTF-8 encoding.  UTF-8 is
      self-synchronising, so the substring test on the encodings decides
      the substring test on the code points.
    - [str.lower] belongs to the Python runtime and is not part of the
      sources.  Every function that calls it takes it as the section
      variable [lower]; general theorems hold for every such function,
      and concrete evaluations use [Py.str_lower], which lowers the ASCII
      letters and leaves every other byte alone (that is [str.lower] on
      the ASCII and caseless inputs those evaluations use).
    - A number (Python [int] or [float]) is carried as its exact value
      in [Q].  Comparisons, [max], [min], negation and [round] are exact
      in Python and are so here; [round] is [Py.round], rounding half to
      even.  The sums, products and quotients of the sources are those
      of binary64 floating point: [Py.add], [Py.mul], [Py.truediv] and
      [Py.sum] round each result to the nearest binary64 number.  The
      haversine distance and the rendering of a float with one decimal
      are not computed: the functions that use them take them as
      section variables.
    - A decoded JSON payload is a [Py.json] tree; an operation that Python
      refuses on a value ([d[k]] on a missing key, [x.get] on a non-dict,
      [round] of a string, ...) returns [Raise].  Exceptions are told
      apart as far as the handlers of the sources do: an HTTP error, or
      any other exception.
    - A [dict] whose iteration order matters is an association list in
      insertion order; a dict that is only looked up is a [gmap]. *)

From Stdlib Require Import ZArith QArith Qround Qabs Qpower String Ascii List Bool Lia.
From Stdlib Require Import DecimalString.
From Stdlib Require Import Permutation Sorted Lqa.
From stdpp Require Import gmap strings.
Import ListNotations.

Open Scope string_scope.

(* ================================================================== *)
(** * Python runtime                                                    *)
(* ================================================================== *)

Module Py.

(** ** Strings *)

(** [needle in hay] for two [str]: true when [needle] occurs in [hay] as
    a contiguous substring; the empty string occurs in every string. *)
Fixpoint str_in (needle hay : string) : bool :=
  String.prefix needle hay
  || match hay with
     | EmptyString => false
     | String _ hay' => str_in needle hay'
     end.

Definition lower_char (c : ascii) : ascii :=
  let n := nat_of_ascii c in
  if Nat.leb 65 n && Nat.leb n 90 then ascii_of_nat (n + 32) else c.

(** [str.lower] on ASCII letters; every other byte is unchanged. *)
Fixpoint str_lower (s : string) : string :=
  match s with
  | EmptyString => EmptyString
  | String c s' => String (lower_char c) (str_lower s')
  end.

(** ** Dictionaries in insertion order *)

Section Dict.
Context {V : Type}.

(** [d.get(k)] *)
Fixpoint dict_get (d : list (string * V)) (k : string) : option V :=
  match d with
  | [] => None
  | (k', v) :: d' => if String.eqb k k' then Some v else dict_get d' k
  end.

(** [k in d] *)
Definition dict_mem (d : list (string * V)) (k : string) : bool :=
  match dict_get d k with Some _ => true | None => false end.

(** [d[k] = v]: an existing key keeps its position, a new key goes last. *)
Fixpoint dict_set (d : list (string * V)) (k : string) (v : V) : list (string * V) :=
  match d with
  | [] => [(k, v)]
  | (k', v') :: d' =>
      if String.eqb k k' then (k', v) :: d' else (k', v') :: dict_set d' k v
  end.

(** [{**a, **b}] *)
Definition dict_merge (a b : list (string * V)) : list (string * V) :=
  fold_left (fun acc kv => dict_set acc (fst kv) (snd kv)) b a.

End Dict.

(** ** Exceptions and results *)

(** The handlers of the sources tell a [requests.exceptions.HTTPError]
    from every other [Exception] and nothing more; neither does the
    embedding. *)
Inductive exn : Type :=
| HTTPError
| OtherException.

Inductive result (A : Type) : Type :=
| Ok (a : A)
| Raise (e : exn).

Arguments Ok {A} a.
Arguments Raise {A} e.

Definition bind {A B : Type} (c : result A) (k : A -> result B) : result B :=
  match c with
  | Ok a => k a
  | Raise e => Raise e
  end.

Notation "'let!' x ':=' c 'in' k" := (bind c (fun x => k))
  (at level 10, x name, c at level 200, k at level 200).

(** [[f(x) for x in l]], stopping at the first exception. *)
Fixpoint mapM {A B : Type} (f : A -> result B) (l : list A) : result (list B) :=
  match l with
  | [] => Ok []
  | x :: l' => let! y := f x in let! ys := mapM f l' in Ok (y :: ys)
  end.

(** ** Decoded JSON values *)

#[local] Unset Elimination Schemes.
Inductive json : Type :=
| JNull
| JBool (b : bool)
| JNum (q : Q)
| JStr (s : string)
| JArr (items : list json)
| JObj (fields : list (string * json)).
#[local] Set Elimination Schemes.

(** Truth value of an object in a condition. *)
Definition truthy (v : json) : bool :=
  match v with
  | JNull => false
  | JBool b => b
  | JNum q => negb (Qeq_bool q 0)
  | JStr s => negb (String.eqb s "")
  | JArr items => match items with [] => false | _ :: _ => true end
  | JObj fields => match fields with [] => false | _ :: _ => true end
  end.

(** The number an [int], [float] or [bool] stands for in arithmetic. *)
Definition number (v : json) : option Q :=
  match v with
  | JNum q => Some q
  | JBool b => Some (if b then 1 else 0)%Q
  | _ => None
  end.

Definition as_number (v : json) : result Q :=
  match number v with
  | Some q => Ok q
  | None => Raise OtherException
  end.

(** [d.get(k, default)]: only a dict has the method. *)
Definition get (d : json) (k : string) (default : json) : result json :=
  match d with
  | JObj fields =>
      Ok (match dict_get fields k with Some v => v | None => default end)
  | _ => Raise OtherException
  end.

(** [d[k]] with a string key. *)
Definition getitem (d : json) (k : string) : result json :=
  match d with
  | JObj fields =>
      match dict_get fields k with Some v => Ok v | None => Raise OtherException end
  | _ => Raise OtherException
  end.

(** [v[i]] with a non-negative integer index.  Indexing a string gives a
    one-character string; the keys of a decoded JSON object are strings,
    so an integer is never one of them. *)
Definition getitem_int (v : json) (i : nat) : result json :=
  match v with
  | JArr items =>
      match nth_error items i with Some x => Ok x | None => Raise OtherException end
  | JStr s =>
      match String.get i s with Some c => Ok (JStr (String c EmptyString)) | None => Raise OtherException end
  | JObj _ => Raise OtherException
  | _ => Raise OtherException
  end.

(** [len(v)].  For a string this is the length of the encoding; the
    tools take the length of a string only on a path that raises at
    its first use of an element. *)
Definition len (v : json) : result nat :=
  match v with
  | JArr items => Ok (List.length items)
  | JStr s => Ok (String.length s)
  | JObj fields => Ok (List.length fields)
  | _ => Raise OtherException
  end.

(** The items [for x in v] goes through: the elements of a list, the
    keys of a dict, the characters of a string (here one item per byte;
    every use of such an item by the tools raises). *)
Definition iter (v : json) : result (list json) :=
  match v with
  | JArr items => Ok items
  | JObj fields => Ok (map (fun kv => JStr (fst kv)) fields)
  | JStr s => Ok (map (fun c => JStr (String c EmptyString)) (list_ascii_of_string s))
  | _ => Raise OtherException
  end.

(** [a == b] on hashable values, as a dict or a set compares its keys:
    numbers and booleans by value, strings by content. *)
Definition key_eqb (a b : json) : bool :=
  match number a, number b with
  | Some x, Some y => Qeq_bool x y
  | _, _ =>
      match a, b with
      | JNull, JNull => true
      | JStr s, JStr t => String.eqb s t
      | _, _ => false
      end
  end.

Definition hashable (v : json) : bool :=
  match v with
  | JArr _ | JObj _ => false
  | _ => true
  end.

(** [k in v] for a string [k]. *)
Definition contains (v : json) (k : string) : result bool :=
  match v with
  | JObj fields => Ok (dict_mem fields k)
  | JArr items => Ok (existsb (key_eqb (JStr k)) items)
  | JStr s => Ok (str_in k s)
  | _ => Raise OtherException
  end.

(** ** Rounding *)

(** [round(x)]: the nearest integer, a tie going to the even one. *)
Definition round (x : Q) : Z :=
  let f := Qfloor x in
  match Qcompare (x - inject_Z f) (1 # 2) with
  | Lt => f
  | Gt => (f + 1)%Z
  | Eq => if Z.even f then f else (f + 1)%Z
  end.

(** [round(v)] on a decoded value. *)
Definition round_value (v : json) : result Z :=
  let! x := as_number v in Ok (round x).

(** ** Floating point

    A [float] is a binary64 number: a multiple of a power of two with a
    significand of at most 53 bits.  A number is carried as its exact
    value; [+], [*] and [/] give the binary64 number nearest to the exact
    result, a tie going to the even significand.  An [int] below [2^53]
    in absolute value is a binary64 number, and the operations on such
    integers are these as long as the results stay below [2^53].  The
    results are supposed to stay within the binary64 range (below
    [2^1024] in absolute value). *)

(** [floor(log2(x))] for a positive [x]. *)
Definition ilog2 (x : Q) : Z :=
  let k := (Z.log2 (Qnum x) - Z.log2 (Zpos (Qden x)))%Z in
  if Qle_bool (2 ^ k)%Q x then k else (k - 1)%Z.

(** The exponent of the last bit of the significand of the binary64
    numbers around [x]; -1074 is that of the subnormal numbers. *)
Definition exponent (x : Q) : Z := Z.max (ilog2 (Qabs x) - 52) (-1074).

(** The binary64 number nearest to [x]. *)
Definition fl (x : Q) : Q :=
  let e := exponent x in Qred (inject_Z (round (x / 2 ^ e)) * 2 ^ e)%Q.

(** [x + y], [x * y] and [x / y] on numbers. *)
Definition add (x y : Q) : Q := fl (x + y).
Definition mul (x y : Q) : Q := fl (x * y).
Definition truediv (x y : Q) : result Q :=
  if Qeq_bool y 0 then Raise OtherException else Ok (fl (x / y)).

(** [sum(l)]: the items are added to 0 one by one, from left to right
    (CPython up to 3.11; later versions add floats with a correction
    term). *)
Definition sum (l : list Q) : Q := fold_left add l 0%Q.

(** ** Process environment *)

(** Truth value of an optional string ([None] and [""] are false). *)
Definition str_truthy (s : option string) : bool :=
  match s with
  | Some s => negb (String.eqb s "")
  | None => false
  end.

(** [a or b] where [a] may be [None]. *)
Definition str_or (a : option string) (b : string) : string :=
  match a with
  | Some s => if String.eqb s "" then b else s
  | None => b
  end.

End Py.

Notation "'let!' x ':=' c 'in' k" := (Py.bind c (fun x => k))
  (at level 10, x name, c at level 200, k at level 200).
Abbreviation Ok := Py.Ok.
Abbreviation Raise := Py.Raise.

(* ================================================================== *)
(** * google.adk.tools                                                  *)
(* ================================================================== *)

Module Adk.

(** [ToolContext]: the tools read [tool_context.state] at the key
    ["maps_api_key"] and nothing else. *)
Record ToolContext := { state : gmap string string }.

End Adk.

(* ================================================================== *)
(** * gear.py                                                           *)
(* ================================================================== *)

Module Gear.

Record gear_set := {
  shoes : list string;
  clothing : list string;
  accessories : list string
}.

Definition running_gear : gear_set :=
  {| shoes := ["跑步鞋"; "运动鞋"];
     clothing := ["速干T恤"; "运动短裤"; "运动袜"];
     accessories := ["运动手表"; "水壶"; "毛巾"] |}.

Definition swimming_gear : gear_set :=
  {| shoes := [];
     clothing := ["泳衣"; "泳帽"; "泳镜"; "浴巾"];
     accessories := ["防水袋"; "拖鞋"; "洗护用品"] |}.

Definition strength_gear : gear_set :=
  {| shoes := ["训练鞋"];
     clothing := ["运动背心"; "运动长裤"; "运动手套"];
     accessories := ["水壶"; "毛巾"; "护腕"] |}.

Definition yoga_gear : gear_set :=
  {| shoes := [];
     clothing := ["瑜伽服"; "瑜伽裤"; "运动内衣"];
     accessories := ["瑜伽垫"; "瑜伽砖"; "瑜伽带"] |}.

Definition cycling_gear : gear_set :=
  {| shoes := ["骑行鞋"];
     clothing := ["骑行服"; "骑行裤"; "头盔"];
     accessories := ["水壶"; "手套"; "护目镜"] |}.

Definition basketball_gear : gear_set :=
  {| shoes := ["篮球鞋"];
     clothing := ["运动背心"; "运动短裤"];
     accessories := ["护膝"; "护腕"; "水壶"] |}.

Definition badminton_gear : gear_set :=
  {| shoes := ["羽毛球鞋"];
     clothing := ["运动T恤"; "运动短裤"];
     accessories := ["羽毛球拍"; "羽毛球"; "护腕"] |}.

Definition hiking_gear : gear_set :=
  {| shoes := ["登山鞋"];
     clothing := ["速干衣"; "冲锋衣"; "运动长裤"];
     accessories := ["登山杖"; "背包"; "水壶"] |}.

(** The table, in declaration order (the order [GEAR_MAP.items()] yields). *)
Definition GEAR_MAP : list (string * gear_set) :=
  [ ("长跑", running_gear);
    ("跑步", running_gear);
    ("running", running_gear);
    ("游泳", swimming_gear);
    ("swimming", swimming_gear);
    ("力量训练", strength_gear);
    ("健身", strength_gear);
    ("gym", strength_gear);
    ("瑜伽", yoga_gear);
    ("yoga", yoga_gear);
    ("骑行", cycling_gear);
    ("自行车", cycling_gear);
    ("cycling", cycling_gear);
    ("篮球", basketball_gear);
    ("羽毛球", badminton_gear);
    ("爬山", hiking_gear) ].

(** The gear used when nothing matches. *)
Definition default_gear : gear_set :=
  {| shoes := ["运动鞋"];
     clothing := ["运动服"; "运动裤"];
     accessories := ["水壶"; "毛巾"] |}.

Record gear_result := {
  status : string;
  sport_type : string;
  recommended_gear : gear_set
}.

Section WithLower.
Variable lower : string -> string.

(** The [for key, value in GEAR_MAP.items()] loop with its [break]: the
    value of the first key that contains the lowered label or is
    contained in it. *)
Fixpoint keyword_match (items : list (string * gear_set)) (sport_type_lower : string)
  : option gear_set :=
  match items with
  | [] => None
  | (key, value) :: rest =>
      if Py.str_in (lower key) sport_type_lower || Py.str_in sport_type_lower (lower key)
      then Some value
      else keyword_match rest sport_type_lower
  end.

(** Every value of the table is a dict with three keys, hence truthy:
    [not gear] holds exactly when the lookup gave [None]. *)
Definition get_recommended_gear (sport_type : string) : gear_result :=
  let sport_type_lower := lower sport_type in
  let gear :=
    match Py.dict_get GEAR_MAP sport_type with
    | Some g => Some g
    | None => Py.dict_get GEAR_MAP sport_type_lower
    end in
  let gear :=
    match gear with
    | Some g => Some g
    | None => keyword_match GEAR_MAP sport_type_lower
    end in
  let gear :=
    match gear with
    | Some g => g
    | None => default_gear
    end in
  {| status := "success"; sport_type := sport_type; recommended_gear := gear |}.

End WithLower.

End Gear.


(* ================================================================== *)
(** * venues.py                                                         *)
(* ================================================================== *)

Module Venues.

(** The table of [_map_sport_to_place_types], in declaration order. *)
Definition sport_mapping : list (string * list string) :=
  [ ("长跑", ["park"; "route"]);
    ("跑步", ["park"; "route"]);
    ("running", ["park"; "route"]);
    ("游泳", ["swimming_pool"; "gym"]);
    ("swimming", ["swimming_pool"; "gym"]);
    ("力量训练", ["gym"; "health"]);
    ("健身", ["gym"; "health"]);
    ("gym", ["gym"; "health"]);
    ("瑜伽", ["gym"; "yoga"]);
    ("yoga", ["gym"; "yoga"]);
    ("骑行", ["park"; "route"; "bicycle_store"]);
    ("自行车", ["park"; "route"; "bicycle_store"]);
    ("cycling", ["park"; "route"; "bicycle_store"]);
    ("篮球", ["basketball_court"; "gym"]);
    ("羽毛球", ["gym"; "sports_complex"]);
    ("爬山", ["park"; "natural_feature"]) ].

(** The [googlemaps] client library: building a client for a key, and
    one nearby search (key, centre, radius, place type). *)
Record googlemaps := {
  Client : string -> Py.result unit;
  places_nearby : string -> Q * Q -> Z -> string -> Py.result Py.json
}.

Record venue_info := {
  name : Py.json;
  address : Py.json;
  distance : string;
  distance_meters : Z;
  rating : Py.json;
  place_id : Py.json;
  types : Py.json;
  location : Py.json * Py.json
}.

(** An error message: a literal of the source, or [str(e)] for the
    exception caught. *)
Inductive message : Type :=
| Literal (s : string)
| StrOf (e : Py.exn).

(** The result dict; [search_location] is its ["location"] entry, which
    like ["sport_type"] is present on success only. *)
Record venues_result := {
  status : string;
  venues : list venue_info;
  error_message : option message;
  sport_type : option string;
  search_location : option (Q * Q)
}.

(** [all_venues] and [seen_place_ids], the two objects the search loops
    update in place. *)
Record search_state := {
  all_venues : list venue_info;
  seen_place_ids : list Py.json
}.

(** [place_id in seen_place_ids]: hashing a list or a dict raises. *)
Definition seen (place_id : Py.json) (ids : list Py.json) : Py.result bool :=
  if Py.hashable place_id then Ok (existsb (Py.key_eqb place_id) ids)
  else Raise Py.OtherException.

(** The key [(x["distance_meters"], -x["rating"])] of the sort. *)
Definition sort_key (x : venue_info) : Py.result (Z * Q) :=
  let! r := Py.as_number (rating x) in Ok (distance_meters x, (- r)%Q).

(** [a < b] on two keys: tuples compare item by item. *)
Definition key_ltb (a b : Z * Q) : bool :=
  if Z.eqb (fst a) (fst b)
  then match Qcompare (snd a) (snd b) with Lt => true | _ => false end
  else Z.ltb (fst a) (fst b).

(** [list.sort] is stable and compares with [<] alone.  On the keys
    computed beforehand it is this insertion sort: an item goes behind
    the later items of strictly smaller key and in front of all others,
    so items of equal key keep their order. *)
Fixpoint insert_by_key (x : (Z * Q) * venue_info) (l : list ((Z * Q) * venue_info))
  : list ((Z * Q) * venue_info) :=
  match l with
  | [] => [x]
  | y :: l' => if key_ltb (fst y) (fst x) then y :: insert_by_key x l' else x :: y :: l'
  end.

Definition sort_keyed (l : list ((Z * Q) * venue_info)) : list ((Z * Q) * venue_info) :=
  fold_right insert_by_key [] l.

(** [all_venues.sort(key=...)]: the keys of all items are computed before
    any comparison, so one bad rating fails the whole sort. *)
Definition sort_venues (l : list venue_info) : Py.result (list venue_info) :=
  let! keyed := Py.mapM (fun x => let! k := sort_key x in Ok (k, x)) l in
  Ok (map snd (sort_keyed keyed)).

(** [l[:n]]: a negative [n] counts from the end. *)
Definition slice_to {A : Type} (l : list A) (n : Z) : list A :=
  if Z.leb 0 n then firstn (Z.to_nat n) l
  else firstn (List.length l - Z.to_nat (- n)) l.

Section Search.
Variable lower : string -> string.
(** [_calculate_distance]: the haversine formula in binary floating
    point through [math.sin], [math.cos], [math.sqrt] and [math.atan2];
    [math.sqrt] raises on a negative argument.  Its value is not computed
    here. *)
Variable _calculate_distance : Q -> Q -> Q -> Q -> Py.result Q.
(** [_format_distance]: the f-string rendering of a distance. *)
Variable _format_distance : Q -> string.
Variable gmaps_lib : googlemaps.

(** The loop over [sport_mapping.items()]. *)
Fixpoint fuzzy_match (items : list (string * list string)) (sport_lower : string)
  : option (list string) :=
  match items with
  | [] => None
  | (key, value) :: rest =>
      if Py.str_in (lower key) sport_lower || Py.str_in sport_lower (lower key)
      then Some value
      else fuzzy_match rest sport_lower
  end.

Definition _map_sport_to_place_types (sport_type : string) : list string :=
  let sport_lower := lower sport_type in
  match Py.dict_get sport_mapping sport_type with
  | Some value => value
  | None =>
      match fuzzy_match sport_mapping sport_lower with
      | Some value => value
      | None => ["gym"; "park"]
      end
  end.

(** The body of [if place_id and place_id not in seen_place_ids] once the
    identifier is recorded: everything that can still raise. *)
Definition make_venue (latitude longitude : Q) (place place_id : Py.json)
  : Py.result venue_info :=
  let! geometry := Py.getitem place "geometry" in
  let! loc := Py.getitem geometry "location" in
  let! place_lat := Py.getitem loc "lat" in
  let! geometry' := Py.getitem place "geometry" in
  let! loc' := Py.getitem geometry' "location" in
  let! place_lng := Py.getitem loc' "lng" in
  let! lat2 := Py.as_number place_lat in
  let! lon2 := Py.as_number place_lng in
  let! dist := _calculate_distance latitude longitude lat2 lon2 in
  let! name_ := Py.get place "name" (Py.JStr "未知地点") in
  let! formatted := Py.get place "formatted_address" (Py.JStr "") in
  let! address_ := Py.get place "vicinity" formatted in
  let! rating_ := Py.get place "rating" (Py.JNum 0) in
  let! types_ := Py.get place "types" (Py.JArr []) in
  Ok {| name := name_;
        address := address_;
        distance := _format_distance dist;
        distance_meters := Py.round dist;
        rating := rating_;
        place_id := place_id;
        types := types_;
        location := (place_lat, place_lng) |}.

(** One turn of [for place in ...]: the state it leaves, and the
    exception it raised if any.  The identifier is added to
    [seen_place_ids] before the coordinates are read, so it stays
    recorded when they are missing. *)
Definition visit_place (latitude longitude : Q) (st : search_state) (place : Py.json)
  : search_state * Py.result unit :=
  match Py.get place "place_id" Py.JNull with
  | Raise e => (st, Raise e)
  | Ok pid =>
      if negb (Py.truthy pid) then (st, Ok tt)
      else
        match seen pid (seen_place_ids st) with
        | Raise e => (st, Raise e)
        | Ok true => (st, Ok tt)
        | Ok false =>
            let st' := {| all_venues := all_venues st;
                          seen_place_ids := pid :: seen_place_ids st |} in
            match make_venue latitude longitude place pid with
            | Raise e => (st', Raise e)
            | Ok v => ({| all_venues := all_venues st' ++ [v];
                          seen_place_ids := seen_place_ids st' |}, Ok tt)
            end
        end
  end.

Fixpoint visit_places (latitude longitude : Q) (st : search_state) (places : list Py.json)
  : search_state * Py.result unit :=
  match places with
  | [] => (st, Ok tt)
  | place :: rest =>
      match visit_place latitude longitude st place with
      | (st', Ok _) => visit_places latitude longitude st' rest
      | (st', Raise e) => (st', Raise e)
      end
  end.

(** One turn of [for place_type in place_types], with its
    [except Exception: continue]: what was appended before an exception
    stays. *)
Definition search_type (key : string) (latitude longitude : Q) (radius : Z)
    (st : search_state) (place_type : string) : search_state :=
  match places_nearby gmaps_lib key (latitude, longitude) radius place_type with
  | Raise _ => st
  | Ok places_result =>
      match (let! results := Py.get places_result "results" (Py.JArr []) in Py.iter results) with
      | Raise _ => st
      | Ok places => fst (visit_places latitude longitude st places)
      end
  end.

Definition search_nearby_venues
    (environ : gmap string string)
    (latitude longitude : Q) (sport_type : string) (radius max_results : Z)
    (tool_context : option Adk.ToolContext) : venues_result :=
  let maps_api_key : option string :=
    match tool_context with
    | Some tc => Some (default "" (Adk.state tc !! "maps_api_key"))
    | None => None
    end in
  let maps_api_key : option string :=
    if negb (Py.str_truthy maps_api_key)
    then Some (Py.str_or (environ !! "GOOGLE_MAPS_API_KEY")
                         (default "" (environ !! "MAPS_API_KEY")))
    else maps_api_key in
  if negb (Py.str_truthy maps_api_key) then
    {| status := "error"; venues := [];
       error_message := Some (Literal "Google Maps API key not configured");
       sport_type := None; search_location := None |}
  else
    let key := default "" maps_api_key in
    let attempt : Py.result (list venue_info) :=
      let! _ := Client gmaps_lib key in
      let place_types := _map_sport_to_place_types sport_type in
      let st := fold_left (search_type key latitude longitude radius) place_types
                  {| all_venues := []; seen_place_ids := [] |} in
      let! sorted := sort_venues (all_venues st) in
      Ok (slice_to sorted max_results) in
    match attempt with
    | Ok vs =>
        {| status := "success"; venues := vs; error_message := None;
           sport_type := Some sport_type; search_location := Some (latitude, longitude) |}
    | Raise e =>
        {| status := "error"; venues := [];
           error_message := Some (StrOf e);
           sport_type := None; search_location := None |}
    end.

End Search.

End Venues.

(* ================================================================== *)
(** * venues.py: the rendering of a distance                            *)
(* ================================================================== *)

Module Distance.

(** [int(x)] on a number: truncation towards zero. *)
Definition int (x : Q) : Z := Z.quot (Qnum x) (Zpos (Qden x)).

(** [str(n)] on an [int]: its decimal digits, after a minus sign when
    negative. *)
Definition str_int (n : Z) : string := NilZero.string_of_int (Z.to_int n).

Section Format.
(** The text of [f"{distance_meters / 1000:.1f}"], as a function of
    [distance_meters]: a division and a rendering with one decimal, both
    in binary floating point.  It is not computed here. *)
Variable kilometres : Q -> string.

Definition _format_distance (distance_meters : Q) : string :=
  if Qlt_le_dec distance_meters 1000
  then String.append (str_int (int distance_meters)) "米"
  else String.append (kilometres distance_meters) "公里".

End Format.

End Distance.

(* ================================================================== *)
(** * weather.py                                                        *)
(* ================================================================== *)

Module Weather.

(** ** The world outside *)

(** An HTTP response: [json_body] is what [response.json()] returns,
    [None] when the body does not decode. *)
Record Response := {
  status_code : Z;
  text : string;
  json_body : option Py.json
}.

(** The two requests the module sends, with the parameters that vary. *)
Inductive request : Type :=
| GoogleForecast (key : string) (latitude longitude : Q) (days : Z)
| OpenWeatherForecast (lat lon : Q) (appid : string) (cnt : Z).

(** What a call reads from outside: the process environment, the clock
    and the network.  A date is its day number ([date.toordinal()]). *)
Record world := {
  environ : gmap string string;
  today : Z;
  fromtimestamp_date : Q -> Py.result Z;
  requests_get : request -> Py.result Response
}.

(** [response.raise_for_status()] *)
Definition raise_for_status (r : Response) : Py.result unit :=
  if Z.leb 400 (status_code r) && Z.ltb (status_code r) 600
  then Raise Py.HTTPError else Ok tt.

(** [response.json()] *)
Definition response_json (r : Response) : Py.result Py.json :=
  match json_body r with
  | Some v => Ok v
  | None => Raise Py.OtherException
  end.

(** ** Results *)

Record forecast_day := {
  date : Z;
  day_of_week : string;
  condition : string;
  condition_icon : string;
  temperature_high : Z;
  temperature_low : Z;
  humidity : Z;
  wind_speed : Z;
  precipitation_probability : Z;
  suitable_for_outdoor : bool
}.

Record weather_result := {
  status : string;
  forecast : list forecast_day
}.

(** [range(n)] *)
Definition range (n : Z) : list Z := map Z.of_nat (seq 0 (Z.to_nat n)).

(** ** Labels and icons *)

Definition openweather_map : list (string * string) :=
  [ ("clear", "晴天");
    ("clouds", "多云");
    ("rain", "雨天");
    ("drizzle", "小雨");
    ("thunderstorm", "雷雨");
    ("snow", "雪天");
    ("mist", "雾");
    ("fog", "雾");
    ("haze", "雾") ].

Definition general_map : list (string * string) :=
  [ ("clear", "晴天");
    ("sunny", "晴天");
    ("partly cloudy", "多云");
    ("cloudy", "多云");
    ("overcast", "阴天");
    ("rain", "雨天");
    ("rainy", "雨天");
    ("drizzle", "小雨");
    ("showers", "阵雨");
    ("thunderstorm", "雷雨");
    ("snow", "雪天");
    ("snowy", "雪天");
    ("mist", "雾");
    ("fog", "雾");
    ("foggy", "雾") ].

(** The loop over [{**openweather_map, **general_map}.items()]. *)
Fixpoint substring_match (items : list (string * string)) (condition_lower : string)
  : option string :=
  match items with
  | [] => None
  | (key, value) :: rest =>
      if Py.str_in key condition_lower || Py.str_in condition_lower key
      then Some value
      else substring_match rest condition_lower
  end.

Definition icon_map : list (string * string) :=
  [ ("晴天", "☀️");
    ("多云", "⛅");
    ("雨天", "🌧️");
    ("小雨", "🌦️");
    ("雷雨", "⛈️");
    ("雪天", "❄️");
    ("雾", "🌫️") ].

Definition _get_weather_icon (condition : string) : string :=
  match Py.dict_get icon_map condition with
  | Some icon => icon
  | None => "🌤️"
  end.

(** [weekday] is [date.weekday()], Monday being 0. *)
Definition _get_day_of_week_cn (weekday : Z) : string :=
  nth (Z.to_nat weekday) ["周一"; "周二"; "周三"; "周四"; "周五"; "周六"; "周日"] "".

(** [date.weekday()] of a day number. *)
Definition weekday (d : Z) : Z := (d + 6) mod 7.

(** ** Synthetic data *)

Definition mock_conditions : list string :=
  ["晴天"; "多云"; "晴天"; "小雨"; "多云"; "晴天"; "多云"].

(** One turn of the loop of [_get_mock_weather_forecast]. *)
Definition mock_day (today i : Z) : forecast_day :=
  let forecast_date := (today + i)%Z in
  let condition := nth (Z.to_nat (i mod Z.of_nat (List.length mock_conditions)))
                       mock_conditions "" in
  let base_temp := 20%Z in
  let temp_variation := ((i mod 3) * 2 - 2)%Z in
  {| date := forecast_date;
     day_of_week := _get_day_of_week_cn (weekday forecast_date);
     condition := condition;
     condition_icon := _get_weather_icon condition;
     temperature_high := (base_temp + temp_variation + 5)%Z;
     temperature_low := (base_temp + temp_variation)%Z;
     humidity := (60 + (i mod 3) * 5)%Z;
     wind_speed := (8 + (i mod 3) * 2)%Z;
     precipitation_probability := if negb (Py.str_in "雨" condition) then 20%Z else 70%Z;
     suitable_for_outdoor := negb (Py.str_in "雨" condition) |}.

Definition _get_mock_weather_forecast (w : world) (latitude longitude : Q) (days : Z)
  : weather_result :=
  {| status := "success"; forecast := map (mock_day (today w)) (range days) |}.

(** The entry both provider tiers append for a day without data. *)
Definition default_day (forecast_date : Z) : forecast_day :=
  {| date := forecast_date;
     day_of_week := _get_day_of_week_cn (weekday forecast_date);
     condition := "多云";
     condition_icon := _get_weather_icon "多云";
     temperature_high := 22;
     temperature_low := 15;
     humidity := 60;
     wind_speed := 10;
     precipitation_probability := 20;
     suitable_for_outdoor := true |}.

(** ** Buckets of the secondary tier *)

(** One value of [daily_forecasts]: the five lists of a calendar date.
    The wind speeds are stored after the multiplication by 3.6, hence as
    numbers; the other lists hold the values as decoded. *)
Record day_bucket := {
  temps : list Py.json;
  conditions : list Py.json;
  humidities : list Py.json;
  wind_speeds : list Q;
  precipitation : list Py.json
}.

Definition empty_bucket : day_bucket :=
  {| temps := []; conditions := []; humidities := []; wind_speeds := [];
     precipitation := [] |}.

(** [a + b]: numbers add, two strings or two lists concatenate. *)
Definition add_values (a b : Py.json) : Py.result Py.json :=
  match Py.number a, Py.number b with
  | Some x, Some y => Ok (Py.JNum (Py.add x y))
  | _, _ =>
      match a, b with
      | Py.JStr s, Py.JStr t => Ok (Py.JStr (s ++ t))
      | Py.JArr l, Py.JArr m => Ok (Py.JArr (l ++ m))
      | _, _ => Raise Py.OtherException
      end
  end.

(** [item.get(kind, {}).get("3h", 0) if kind in item else 0] *)
Definition precipitation_3h (item : Py.json) (kind : string) : Py.result Py.json :=
  let! present := Py.contains item kind in
  if (present : bool) then
    let! d := Py.get item kind (Py.JObj []) in Py.get d "3h" (Py.JNum 0)
  else Ok (Py.JNum 0).

(** The numbers of a list; any other value makes [max], [min], [sum] or
    the [round] of their result raise. *)
Definition as_numbers (l : list Py.json) : Py.result (list Q) :=
  Py.mapM Py.as_number l.

(** [max(l)] and [min(l)] on numbers: the first greatest, the first
    least. *)
Definition Qmax_list (x : Q) (l : list Q) : Q :=
  fold_left (fun acc y => if Qlt_le_dec acc y then y else acc) l x.

Definition Qmin_list (x : Q) (l : list Q) : Q :=
  fold_left (fun acc y => if Qlt_le_dec y acc then y else acc) l x.

(** [condition_counts[cond] = condition_counts.get(cond, 0) + 1] on the
    dict in insertion order. *)
Fixpoint count_condition (counts : list (Py.json * nat)) (cond : Py.json)
  : list (Py.json * nat) :=
  match counts with
  | [] => [(cond, 1%nat)]
  | (k, n) :: rest =>
      if Py.key_eqb cond k then (k, S n) :: rest
      else (k, n) :: count_condition rest cond
  end.

Definition count_conditions (conds : list Py.json) : Py.result (list (Py.json * nat)) :=
  if forallb Py.hashable conds
  then Ok (fold_left count_condition conds [])
  else Raise Py.OtherException.

(** [max(condition_counts, key=condition_counts.get)]: the first key of
    the greatest count. *)
Definition most_common (counts : list (Py.json * nat)) : Py.result Py.json :=
  match counts with
  | [] => Raise Py.OtherException
  | first :: rest =>
      Ok (fst (fold_left (fun best kn => if Nat.ltb (snd best) (snd kn) then kn else best)
                         rest first))
  end.

Section Forecast.
Variable lower : string -> string.

Definition _map_condition_to_chinese (condition : string) : string :=
  let condition_lower := lower condition in
  match Py.dict_get openweather_map condition_lower with
  | Some value => value
  | None =>
      match Py.dict_get general_map condition_lower with
      | Some value => value
      | None =>
          match substring_match (Py.dict_merge openweather_map general_map) condition_lower with
          | Some value => value
          | None => "多云"
          end
      end
  end.

(** [_map_condition_to_chinese(v)] on a decoded value: [v.lower()]
    exists for a string only. *)
Definition map_condition_value (v : Py.json) : Py.result string :=
  match v with
  | Py.JStr s => Ok (_map_condition_to_chinese s)
  | _ => Raise Py.OtherException
  end.

(** ** Primary tier *)

(** The branch [if i < len(daily_forecasts)] of the loop of
    [_get_weather_from_google], with the entry it appends. *)
Definition google_day (forecast_date : Z) (day_data : Py.json) : Py.result forecast_day :=
  let! temperature := Py.get day_data "temperature" (Py.JObj []) in
  let! temp_data :=
    (if Py.truthy temperature then Ok temperature
     else Py.get day_data "temp" (Py.JObj [])) in
  let! max_ := Py.get temp_data "max" (Py.JNum 22) in
  let! high_temp := Py.get temp_data "high" max_ in
  let! min_ := Py.get temp_data "min" (Py.JNum 15) in
  let! low_temp := Py.get temp_data "low" min_ in
  let! weather := Py.get day_data "weather" (Py.JObj []) in
  let! condition_data := Py.get day_data "condition" weather in
  let! condition :=
    (match condition_data with
     | Py.JStr _ => Ok condition_data
     | _ =>
         let! main := Py.get condition_data "main" (Py.JStr "多云") in
         Py.get condition_data "text" main
     end) in
  let! condition_cn := map_condition_value condition in
  let! relative := Py.get day_data "relativeHumidity" (Py.JNum 60) in
  let! humidity_ := Py.get day_data "humidity" relative in
  let! wind := Py.get day_data "wind" (Py.JObj []) in
  let! speed := Py.get wind "speed" (Py.JNum 10) in
  let! wind_speed_ := Py.get day_data "windSpeed" speed in
  let! wind_number := Py.as_number wind_speed_ in
  let wind_number :=
    if Qlt_le_dec 50 wind_number then Py.mul wind_number (Py.fl 3.6) else wind_number in
  let! pop := Py.get day_data "pop" (Py.JNum 20) in
  let! precipitation_prob := Py.get day_data "precipitationProbability" pop in
  let! suitable_outdoor :=
    (if negb (Py.str_in "雨" condition_cn) && negb (Py.str_in "雪" condition_cn)
     then let! p := Py.as_number precipitation_prob in
          Ok (if Qlt_le_dec p 50 then true else false)
     else Ok false) in
  let! high := Py.round_value high_temp in
  let! low := Py.round_value low_temp in
  let! hum := Py.round_value humidity_ in
  let! prob := Py.round_value precipitation_prob in
  Ok {| date := forecast_date;
        day_of_week := _get_day_of_week_cn (weekday forecast_date);
        condition := condition_cn;
        condition_icon := _get_weather_icon condition_cn;
        temperature_high := high;
        temperature_low := low;
        humidity := hum;
        wind_speed := Py.round wind_number;
        precipitation_probability := prob;
        suitable_for_outdoor := suitable_outdoor |}.

(** One turn of [for i in range(days)]; [n] is [len(daily_forecasts)]. *)
Definition google_entry (today : Z) (daily_forecasts : Py.json) (n : nat) (i : Z)
  : Py.result forecast_day :=
  let forecast_date := (today + i)%Z in
  if Z.ltb i (Z.of_nat n) then
    let! day_data := Py.getitem_int daily_forecasts (Z.to_nat i) in
    google_day forecast_date day_data
  else Ok (default_day forecast_date).

(** The [if response.status_code == 404] block: it reads the message of
    the error and always raises. *)
Definition not_found (response : Response) : Py.result unit :=
  let! error_data :=
    (if negb (String.eqb (text response) "") then response_json response
     else Ok (Py.JObj [])) in
  let! error := Py.get error_data "error" (Py.JObj []) in
  let! error_msg := Py.get error "message" (Py.JStr (text response)) in
  match error_msg with
  | Py.JStr _ => Raise Py.HTTPError
  | _ => Raise Py.OtherException
  end.

(** Both [except] clauses of the function re-raise what they caught, so
    they do not appear. *)
Definition _get_weather_from_google (w : world) (latitude longitude : Q) (days : Z)
    (api_key : string) : Py.result weather_result :=
  let today := today w in
  let! response := requests_get w (GoogleForecast api_key latitude longitude days) in
  let! _ := (if Z.eqb (status_code response) 404 then not_found response else Ok tt) in
  let! _ := raise_for_status response in
  let! data := response_json response in
  let! daily_forecast_data := Py.get data "dailyForecast" (Py.JObj []) in
  let! daily_forecasts := Py.get daily_forecast_data "days" (Py.JArr []) in
  let! daily_forecasts :=
    (if negb (Py.truthy daily_forecasts)
     then let! f := Py.get data "forecast" (Py.JObj []) in Py.get f "daily" (Py.JArr [])
     else Ok daily_forecasts) in
  let! n := Py.len daily_forecasts in
  let! forecast_list := Py.mapM (google_entry today daily_forecasts n) (range days) in
  Ok {| status := "success"; forecast := forecast_list |}.

(** ** Secondary tier *)

(** One turn of [for item in data.get("list", [])]. *)
Definition add_item (w : world) (daily_forecasts : gmap Z day_bucket) (item : Py.json)
  : Py.result (gmap Z day_bucket) :=
  let! dt := Py.getitem item "dt" in
  let! timestamp := Py.as_number dt in
  let! date_key := fromtimestamp_date w timestamp in
  let bucket := default empty_bucket (daily_forecasts !! date_key) in
  let! main := Py.getitem item "main" in
  let! temp := Py.getitem main "temp" in
  let! weather := Py.getitem item "weather" in
  let! weather0 := Py.getitem_int weather 0 in
  let! cond := Py.getitem weather0 "main" in
  let! main' := Py.getitem item "main" in
  let! hum := Py.getitem main' "humidity" in
  let! wind := Py.get item "wind" (Py.JObj []) in
  let! speed := Py.get wind "speed" (Py.JNum 0) in
  let! speed_number := Py.as_number speed in
  let! rain := precipitation_3h item "rain" in
  let! snow := precipitation_3h item "snow" in
  let! precip := add_values rain snow in
  Ok (<[date_key :=
         {| temps := temps bucket ++ [temp];
            conditions := conditions bucket ++ [cond];
            humidities := humidities bucket ++ [hum];
            wind_speeds := wind_speeds bucket ++ [Py.mul speed_number (Py.fl 3.6)];
            precipitation := precipitation bucket ++ [precip] |}]> daily_forecasts).

Fixpoint add_items (w : world) (daily_forecasts : gmap Z day_bucket) (items : list Py.json)
  : Py.result (gmap Z day_bucket) :=
  match items with
  | [] => Ok daily_forecasts
  | item :: rest =>
      let! daily_forecasts' := add_item w daily_forecasts item in
      add_items w daily_forecasts' rest
  end.

(** The branch [if date_key in daily_forecasts] of the second loop, with
    the entry it appends. *)
Definition openweather_day (forecast_date : Z) (day_data : day_bucket)
  : Py.result forecast_day :=
  let! temps_ := as_numbers (temps day_data) in
  let! high_temp :=
    (match temps_ with [] => Raise Py.OtherException | t :: ts => Ok (Qmax_list t ts) end) in
  let! low_temp :=
    (match temps_ with [] => Raise Py.OtherException | t :: ts => Ok (Qmin_list t ts) end) in
  let! humidities_ := as_numbers (humidities day_data) in
  let! avg_humidity :=
    Py.truediv (Py.sum humidities_) (inject_Z (Z.of_nat (List.length humidities_))) in
  let! avg_wind :=
    Py.truediv (Py.sum (wind_speeds day_data))
      (inject_Z (Z.of_nat (List.length (wind_speeds day_data)))) in
  let! precipitation_ := as_numbers (precipitation day_data) in
  let total_precip := Py.sum precipitation_ in
  let! condition_counts := count_conditions (conditions day_data) in
  let! main_condition := most_common condition_counts in
  let! condition_cn := map_condition_value main_condition in
  let precip_prob :=
    if Qlt_le_dec 0 total_precip then Z.min (Py.round (Py.mul total_precip 20)) 100
    else 20%Z in
  let suitable_outdoor :=
    (Py.key_eqb main_condition (Py.JStr "Clear") || Py.key_eqb main_condition (Py.JStr "Clouds"))
    && (if Qlt_le_dec total_precip 1 then true else false) in
  Ok {| date := forecast_date;
        day_of_week := _get_day_of_week_cn (weekday forecast_date);
        condition := condition_cn;
        condition_icon := _get_weather_icon condition_cn;
        temperature_high := Py.round high_temp;
        temperature_low := Py.round low_temp;
        humidity := Py.round avg_humidity;
        wind_speed := Py.round avg_wind;
        precipitation_probability := precip_prob;
        suitable_for_outdoor := suitable_outdoor |}.

(** One turn of the second [for i in range(days)]. *)
Definition openweather_entry (today : Z) (daily_forecasts : gmap Z day_bucket) (i : Z)
  : Py.result forecast_day :=
  let forecast_date := (today + i)%Z in
  match daily_forecasts !! forecast_date with
  | Some day_data => openweather_day forecast_date day_data
  | None => Ok (default_day forecast_date)
  end.

Definition _get_weather_from_openweathermap (w : world) (latitude longitude : Q) (days : Z)
    (api_key : string) : Py.result weather_result :=
  let! response := requests_get w (OpenWeatherForecast latitude longitude api_key (days * 8)) in
  let! _ := raise_for_status response in
  let! data := response_json response in
  let today := today w in
  let! list_ := Py.get data "list" (Py.JArr []) in
  let! items := Py.iter list_ in
  let! daily_forecasts := add_items w ∅ items in
  let! forecast_list := Py.mapM (openweather_entry today daily_forecasts) (range days) in
  Ok {| status := "success"; forecast := forecast_list |}.

(** ** The tool *)

Definition get_weather_forecast (w : world) (latitude longitude : Q) (days : Z)
    (tool_context : option Adk.ToolContext) : weather_result :=
  let days := Z.min (Z.max days 1) 7 in
  let google_api_key : option string :=
    match tool_context with
    | Some tc => Some (default "" (Adk.state tc !! "maps_api_key"))
    | None => None
    end in
  let google_api_key : option string :=
    if negb (Py.str_truthy google_api_key)
    then Some (Py.str_or (environ w !! "GOOGLE_MAPS_API_KEY")
                         (default "" (environ w !! "MAPS_API_KEY")))
    else google_api_key in
  let from_google : option weather_result :=
    if Py.str_truthy google_api_key then
      match _get_weather_from_google w latitude longitude days (default "" google_api_key) with
      | Ok result => Some result
      | Raise Py.HTTPError => None
      | Raise _ => None
      end
    else None in
  match from_google with
  | Some result => result
  | None =>
      let openweather_key : option string :=
        if Py.str_truthy (environ w !! "OPENWEATHER_API_KEY")
        then environ w !! "OPENWEATHER_API_KEY"
        else environ w !! "WEATHER_API_KEY" in
      let from_openweathermap : option weather_result :=
        if Py.str_truthy openweather_key then
          match _get_weather_from_openweathermap w latitude longitude days
                  (default "" openweather_key) with
          | Ok result => Some result
          | Raise Py.HTTPError => None
          | Raise _ => None
          end
        else None in
      match from_openweathermap with
      | Some result => result
      | None => _get_mock_weather_forecast w latitude longitude days
      end
  end.

End Forecast.

End Weather.

(* ================================================================== *)
(** * app/main.py: the reverse geocoding endpoint                       *)
(* ================================================================== *)

Module App.

(** The [googlemaps] client as this module uses it: building a client
    for a key, and one reverse geocoding of a pair of coordinates. *)
Record googlemaps := {
  Client : string -> Py.result unit;
  reverse_geocode : string -> Q * Q -> Py.result Py.json
}.

(** What the endpoint raises.  [fastapi.HTTPException] is an [Exception]
    with a status code and a detail; the detail is a literal of the
    source or the f-string ["Geocoding failed: {str(e)}"] around the
    exception caught. *)
Inductive detail : Type :=
| Text (s : string)
| GeocodingFailed (e : error)
with error : Type :=
| HTTPException (status_code : Z) (d : detail)
| Other (e : Py.exn).

Inductive outcome (A : Type) : Type :=
| Return (a : A)
| Raised (e : error).

Arguments Return {A} a.
Arguments Raised {A} e.

Definition bind {A B : Type} (c : outcome A) (k : A -> outcome B) : outcome B :=
  match c with
  | Return a => k a
  | Raised e => Raised e
  end.

(** An exception of the runtime or of the client library. *)
Definition lift {A : Type} (c : Py.result A) : outcome A :=
  match c with
  | Ok a => Return a
  | Raise e => Raised (Other e)
  end.

(** The content of the [JSONResponse]; [address] is the dict
    [address_components] in insertion order. *)
Record geocode_response := {
  city : Py.json;
  formatted_address : Py.json;
  address : list (string * Py.json);
  latitude : Q;
  longitude : Q
}.

(** [a or b] on two objects. *)
Definition or_else (a b : Py.json) : Py.json := if Py.truthy a then a else b.

(** [d.get(k)] on the dict of the components: [None] for a missing
    key. *)
Definition component (address_components : list (string * Py.json)) (k : string) : Py.json :=
  match Py.dict_get address_components k with
  | Some v => v
  | None => Py.JNull
  end.

(** One turn of [for component in result.get("address_components", [])]
    with its chain of [if]/[elif]. *)
Definition classify (address_components : list (string * Py.json)) (item : Py.json)
  : Py.result (list (string * Py.json)) :=
  let! types_list := Py.get item "types" (Py.JArr []) in
  let! long_name := Py.get item "long_name" (Py.JStr "") in
  let! locality := Py.contains types_list "locality" in
  if (locality : bool) then Ok (Py.dict_set address_components "city" long_name) else
  let! level_1 := Py.contains types_list "administrative_area_level_1" in
  if (level_1 : bool) then Ok (Py.dict_set address_components "province" long_name) else
  let! level_2 := Py.contains types_list "administrative_area_level_2" in
  if (level_2 : bool) then Ok (Py.dict_set address_components "district" long_name) else
  let! country := Py.contains types_list "country" in
  if (country : bool) then Ok (Py.dict_set address_components "country" long_name) else
  let! street_address := Py.contains types_list "street_address" in
  if (street_address : bool) then Ok (Py.dict_set address_components "street" long_name) else
  let! route := Py.contains types_list "route" in
  if (route : bool) then Ok (Py.dict_set address_components "street" long_name) else
  Ok address_components.

Fixpoint classify_all (address_components : list (string * Py.json)) (items : list Py.json)
  : Py.result (list (string * Py.json)) :=
  match items with
  | [] => Ok address_components
  | item :: rest =>
      let! address_components' := classify address_components item in
      classify_all address_components' rest
  end.

(** The body of the [try] block. *)
Definition lookup (gmaps_lib : googlemaps) (maps_api_key : string) (lat lng : Q)
  : outcome geocode_response :=
  bind (lift (Client gmaps_lib maps_api_key)) (fun _ =>
  bind (lift (reverse_geocode gmaps_lib maps_api_key (lat, lng))) (fun reverse_geocode_result =>
  if negb (Py.truthy reverse_geocode_result)
  then Raised (HTTPException 404 (Text "No address found for the given coordinates"))
  else
    lift (let! result := Py.getitem_int reverse_geocode_result 0 in
          let! formatted := Py.get result "formatted_address" (Py.JStr "") in
          let! components := Py.get result "address_components" (Py.JArr []) in
          let! items := Py.iter components in
          let! address_components := classify_all [] items in
          let city_ :=
            or_else (component address_components "city")
              (or_else (component address_components "district")
                 (or_else (component address_components "province")
                    (Py.JStr "未知城市"))) in
          Ok {| city := city_;
                formatted_address := formatted;
                address := address_components;
                latitude := lat;
                longitude := lng |}))).

(** [geocode(lat, lng)]: [except Exception] also catches the
    [HTTPException] raised inside the [try] block. *)
Definition geocode (gmaps_lib : googlemaps) (environ : gmap string string) (lat lng : Q)
  : outcome geocode_response :=
  let maps_api_key : option string :=
    if Py.str_truthy (environ !! "GOOGLE_MAPS_API_KEY")
    then environ !! "GOOGLE_MAPS_API_KEY"
    else environ !! "MAPS_API_KEY" in
  if negb (Py.str_truthy maps_api_key) then
    Raised (HTTPException 500 (Text "Google Maps API key not configured"))
  else
    match lookup gmaps_lib (default "" maps_api_key) lat lng with
    | Return response => Return response
    | Raised e => Raised (HTTPException 500 (GeocodingFailed e))
    end.

End App.

(* ================================================================== *)
(** * collection_order.py                                               *)
(* ================================================================== *)

Module CollectionOrder.

(** One item of the table: a field and the question that asks for it. *)
Record entry := { field : string; question : string }.

(** The table the file ships. *)
Definition shipped_order : list entry :=
  [ {| field := "age";
       question := "Please tell me your age, for example: 25" |};
    {| field := "gender";
       question := "Please tell me your gender (male/female)" |};
    {| field := "weight";
       question := "Please tell me your weight (in kg), for example: 70" |};
    {| field := "height";
       question := "Please tell me your height (in cm), for example: 175" |};
    {| field := "injuries";
       question := "Have you had any injuries in the past year, especially regarding your knees, ankles, or back?" |};
    {| field := "fitness_level";
       question := "What is your current fitness level? (beginner/intermediate/advanced)" |};
    {| field := "running_times_per_week";
       question := "How many times do you run per week?" |};
    {| field := "total_mileage";
       question := "What is the total mileage on average per week (in km)?" |};
    {| field := "pb";
       question := "What is your PB (personal best) for 5km or 10km run?" |};
    {| field := "training_goal";
       question := "What is your training goal? You can select multiple: weight loss, stay fit, train for a 10km race, train for a half-marathon, or train for a full marathon" |};
    {| field := "training_days";
       question := "Which days of the week can you train, and for how long each session?" |};
    {| field := "training_location";
       question := "Where do you usually train: road, track, treadmill, or trail?" |};
    {| field := "arch_type";
       question := "Do you have low (flat), neutral, or high arches? (This helps with shoe recommendation)" |};
    {| field := "shoe_wear";
       question := "Is the wear on your old shoes heavier on the inner edge or outer edge?" |};
    {| field := "shoe_feel";
       question := "Do you prefer a soft, plush feel or firm, responsive ride?" |};
    {| field := "city";
       question := "What city or area are you located in? For example: New York" |} ].

(** The double quote and the line feed. *)
Definition quote : string := String (Ascii.ascii_of_nat 34) EmptyString.
Definition newline : string := String (Ascii.ascii_of_nat 10) EmptyString.

Definition welcome_msg : string :=
  "Hello! 👋 I'm your professional training plan generation assistant. I can create a personalized weekly training plan based on your personal information, sport preferences, weather conditions, and geographical location in your area. Let me learn about your situation so I can generate the most suitable training plan for you!".

Definition example_responses : list string :=
  [ "25"; "male"; "70"; "175"; "No injuries"; "intermediate"; "3"; "15"; "5km: 25:00";
    "train for a 10km race"; "Monday/Wednesday/Friday, 1 hour each"; "road"; "neutral";
    "outer edge"; "firm, responsive ride"; "New York" ].

(** [f'User: "{response}"'] *)
Definition user_line (response : string) : string :=
  String.append "User: " (String.append quote (String.append response quote)).

(** [f'Agent: "Got it, recorded. {question}"'] *)
Definition followup_line (question_ : string) : string :=
  String.append "Agent: "
    (String.append quote (String.append "Got it, recorded. " (String.append question_ quote))).

(** [f'Agent: "{welcome_msg} {first}"'] *)
Definition opening_line (first : string) : string :=
  String.append "Agent: "
    (String.append quote
       (String.append welcome_msg (String.append " " (String.append first quote)))).

(** The four lines every example ends with. *)
Definition closing_lines : list string :=
  [ String.append "Agent: "
      (String.append quote
         (String.append
            "Great! I've learned about your situation. Now let me generate a personalized training plan for you..."
            quote));
    "[Agent calls tools: get_weather_forecast, search_nearby_venues, get_recommended_gear]";
    String.concat quote
      [ "Agent: {"; "metadata"; ":{...},"; "training_plan"; ":[...],"; "summary"; ":{...}}" ];
    "[Note: Agent directly outputs JSON, no other text]" ].

Section Table.
(** The module reads its table from the global
    [INFORMATION_COLLECTION_ORDER], which the file invites to replace;
    the functions are embedded for any table. *)
Variable INFORMATION_COLLECTION_ORDER : list entry.

Definition get_field_order : list string := map field INFORMATION_COLLECTION_ORDER.

Definition get_first_question : string :=
  match INFORMATION_COLLECTION_ORDER with
  | item :: _ => question item
  | [] => "Please tell me your age, for example: 25"
  end.

Definition get_first_field_name : string :=
  match INFORMATION_COLLECTION_ORDER with
  | item :: _ => field item
  | [] => "age"
  end.

Definition get_example_conversation_questions : list string :=
  map question INFORMATION_COLLECTION_ORDER.

(** One turn of [for i, question in enumerate(questions[1:], 1)]. *)
Definition example_turn (lines : list string) (turn : nat * string) : list string :=
  let (i, question_) := turn in
  if Nat.ltb i (List.length example_responses)
  then (lines ++ [user_line (nth (i - 1) example_responses ""); followup_line question_])%list
  else lines.

(** The list [lines] of [get_example_conversation_text]. *)
Definition example_conversation_lines : list string :=
  let questions := get_example_conversation_questions in
  let lines :=
    [opening_line (match questions with first :: _ => first | [] => "" end)] in
  let lines :=
    fold_left example_turn
      (combine (seq 1 (List.length (tl questions))) (tl questions)) lines in
  let lines :=
    if Nat.leb (List.length questions) (List.length example_responses)
    then (lines ++ [user_line (List.last example_responses "")])%list
    else lines in
  (lines ++ closing_lines)%list.

Definition get_example_conversation_text : string :=
  String.concat newline example_conversation_lines.

End Table.

End CollectionOrder.

(* ================================================================== *)
(** * Specification-side notions                                        *)
(* ================================================================== *)

(** [needle] occurs in [hay]. *)
Definition Substring (needle hay : string) : Prop :=
  exists before after : string, hay = String.append before (String.append needle after).

(** An optional setting that is absent or empty. *)
Definition unconfigured (o : option string) : Prop := o = None \/ o = Some "".

Module GearSpec.

Definition keys : list string := map fst Gear.GEAR_MAP.

(** No key of the table matches the label: not as it is, not lowered,
    and not as a substring in either direction. *)
Definition unmatched (lower : string -> string) (sport_type : string) : Prop :=
  ~ In sport_type keys /\
  ~ In (lower sport_type) keys /\
  forall key, In key keys ->
    ~ Substring (lower key) (lower sport_type) /\ ~ Substring (lower sport_type) (lower key).

End GearSpec.

Module WeatherSpec.

(** The labels of the two condition tables and the default label. *)
Definition vocabulary : list string :=
  ["晴天"; "多云"; "雨天"; "小雨"; "雷雨"; "雪天"; "雾"; "阴天"; "阵雨"].

(** The icon [_get_weather_icon] falls back to. *)
Definition default_icon : string := "🌤️".

(** No provider credential is configured: none in the tool context, none
    in the four environment variables. *)
Definition no_credentials (w : Weather.world) (tool_context : option Adk.ToolContext) : Prop :=
  match tool_context with
  | Some tc => unconfigured (Adk.state tc !! "maps_api_key")
  | None => True
  end /\
  unconfigured (Weather.environ w !! "GOOGLE_MAPS_API_KEY") /\
  unconfigured (Weather.environ w !! "MAPS_API_KEY") /\
  unconfigured (Weather.environ w !! "OPENWEATHER_API_KEY") /\
  unconfigured (Weather.environ w !! "WEATHER_API_KEY").

(** [clamp(days, 1, 7)] *)
Definition clamp (days : Z) : Z := Z.min (Z.max days 1) 7.

(** The first candidate that is present and not empty. *)
Fixpoint first_configured (candidates : list (option string)) : option string :=
  match candidates with
  | [] => None
  | Some key :: rest => if String.eqb key "" then first_configured rest else Some key
  | None :: rest => first_configured rest
  end.

(** The credential of the primary provider: the tool context first, then
    two environment variables. *)
Definition primary_credential (w : Weather.world) (tool_context : option Adk.ToolContext)
  : option string :=
  first_configured
    [ match tool_context with Some tc => Adk.state tc !! "maps_api_key" | None => None end;
      Weather.environ w !! "GOOGLE_MAPS_API_KEY";
      Weather.environ w !! "MAPS_API_KEY" ].

Definition secondary_credential (w : Weather.world) : option string :=
  first_configured
    [ Weather.environ w !! "OPENWEATHER_API_KEY"; Weather.environ w !! "WEATHER_API_KEY" ].

(** A tier that has a credential and returns contributes its result; a
    tier without credential, or one that raises, contributes nothing. *)
Definition tier {A : Type} (credential : option string) (provider : string -> Py.result A)
  : option A :=
  match credential with
  | Some key => match provider key with Ok r => Some r | Raise _ => None end
  | None => None
  end.

(** The specification's resolver: primary, else secondary, else
    synthetic data, for the clamped number of days. *)
Definition resolve_forecast (lower : string -> string) (w : Weather.world)
    (latitude longitude : Q) (days : Z) (tool_context : option Adk.ToolContext)
  : Weather.weather_result :=
  let n := clamp days in
  match tier (primary_credential w tool_context)
             (Weather._get_weather_from_google lower w latitude longitude n) with
  | Some r => r
  | None =>
      match tier (secondary_credential w)
                 (Weather._get_weather_from_openweathermap lower w latitude longitude n) with
      | Some r => r
      | None => Weather._get_mock_weather_forecast w latitude longitude n
      end
  end.

(** A request that fails: it raised, or the response has an error
    status (404 included), or its body does not decode. *)
Definition call_fails (outcome : Py.result Weather.Response) : Prop :=
  match outcome with
  | Raise _ => True
  | Ok response =>
      (400 <= Weather.status_code response < 600)%Z \/ Weather.json_body response = None
  end.

(** A machine without network and with the given environment. *)
Definition offline (environ : gmap string string) (today : Z) : Weather.world :=
  {| Weather.environ := environ;
     Weather.today := today;
     Weather.fromtimestamp_date := fun _ => Raise Py.OtherException;
     Weather.requests_get := fun _ => Raise Py.OtherException |}.

End WeatherSpec.

Module VenuesSpec.

(** No places-provider credential is configured: none in the tool
    context, none in the two environment variables. *)
Definition no_credential (environ : gmap string string)
    (tool_context : option Adk.ToolContext) : Prop :=
  match tool_context with
  | Some tc => unconfigured (Adk.state tc !! "maps_api_key")
  | None => True
  end /\
  unconfigured (environ !! "GOOGLE_MAPS_API_KEY") /\
  unconfigured (environ !! "MAPS_API_KEY").

(** The order of the result list: nearer first, and at equal distance
    the better rated first. *)
Definition ranks_before (a b : Venues.venue_info) : Prop :=
  (Venues.distance_meters a < Venues.distance_meters b)%Z \/
  (Venues.distance_meters a = Venues.distance_meters b /\
   exists ra rb : Q,
     Py.number (Venues.rating a) = Some ra /\
     Py.number (Venues.rating b) = Some rb /\
     (rb <= ra)%Q).

(** The same order on sort keys [(distance, -rating)]. *)
Definition key_le (a b : Z * Q) : Prop :=
  (fst a < fst b)%Z \/ (fst a = fst b /\ (snd a <= snd b)%Q).

(** The order of the sort on items paired with their keys. *)
Definition keyed_le (x y : (Z * Q) * Venues.venue_info) : Prop :=
  key_le (fst x) (fst y).

(** [all_venues] when the loop over the place types of the sport ends,
    before the sort: the venues found under the credential [key]. *)
Definition found (lower : string -> string)
    (_calculate_distance : Q -> Q -> Q -> Q -> Py.result Q)
    (_format_distance : Q -> string) (gmaps_lib : Venues.googlemaps) (key : string)
    (latitude longitude : Q) (sport_type : string) (radius : Z) : list Venues.venue_info :=
  Venues.all_venues
    (fold_left
       (Venues.search_type _calculate_distance _format_distance gmaps_lib
          key latitude longitude radius)
       (Venues._map_sport_to_place_types lower sport_type)
       {| Venues.all_venues := []; Venues.seen_place_ids := [] |}).

(** The identifiers of the venues collected so far are distinct, and each
    of them is recorded as seen. *)
Definition collected (st : Venues.search_state) : Prop :=
  List.NoDup (map Venues.place_id (Venues.all_venues st)) /\
  forall v, In v (Venues.all_venues st) -> In (Venues.place_id v) (Venues.seen_place_ids st).

(** ** The ordering scenario

    One search for "gym" (place types "gym" and "health").  The first
    type returns A (500 m, rated 4.0), B (500 m, rated 4.5) and C
    (300 m, rated 2.0); the second returns B again under another name
    and rating. *)

Definition place (id name_ : string) (lat rating_ : Q) : Py.json :=
  Py.JObj
    [ ("place_id", Py.JStr id);
      ("name", Py.JStr name_);
      ("geometry",
        Py.JObj [("location", Py.JObj [("lat", Py.JNum lat); ("lng", Py.JNum 0)])]);
      ("rating", Py.JNum rating_) ].

Definition place_A : Py.json := place "A" "A" 1 4.0.
Definition place_B : Py.json := place "B" "B" 2 4.5.
Definition place_C : Py.json := place "C" "C" 3 2.0.
Definition place_B_again : Py.json := place "B" "B under health" 2 1.0.

Definition scenario_lib : Venues.googlemaps :=
  {| Venues.Client := fun _ => Ok tt;
     Venues.places_nearby := fun _ _ _ place_type =>
       if String.eqb place_type "gym"
       then Ok (Py.JObj [("results", Py.JArr [place_A; place_B; place_C])])
       else if String.eqb place_type "health"
       then Ok (Py.JObj [("results", Py.JArr [place_B_again])])
       else Raise Py.OtherException |}.

(** The distances of the scenario: the place at latitude 3 is 300 m
    away, the others 500 m. *)
Definition scenario_distance (lat1 lon1 lat2 lon2 : Q) : Py.result Q :=
  Ok (if Qeq_bool lat2 3 then 300 else 500)%Q.

Definition scenario_format (distance_meters : Q) : string := "".

Definition scenario_environ : gmap string string :=
  {[ "GOOGLE_MAPS_API_KEY" := "scenario-key" ]}.

End VenuesSpec.

Module OpenWeatherSpec.

(** One 3-hourly sample of the secondary provider, as the fields the
    tool reads: ["dt"] with the local calendar date it falls on,
    ["main"]["temp"], ["weather"][0]["main"], ["main"]["humidity"], and
    the optional ["wind"]["speed"] (m/s), ["rain"]["3h"] and
    ["snow"]["3h"] (mm). *)
Record sample := {
  sample_dt : Q;
  sample_date : Z;
  sample_temp : Q;
  sample_condition : string;
  sample_humidity : Q;
  sample_wind : option Q;
  sample_rain : option Q;
  sample_snow : option Q
}.

Definition optional_field (key inner : string) (value : option Q)
  : list (string * Py.json) :=
  match value with
  | Some x => [(key, Py.JObj [(inner, Py.JNum x)])]
  | None => []
  end.

(** The item of the payload that carries a sample. *)
Definition item_of_sample (s : sample) : Py.json :=
  Py.JObj
    ([ ("dt", Py.JNum (sample_dt s));
       ("main", Py.JObj [ ("temp", Py.JNum (sample_temp s));
                          ("humidity", Py.JNum (sample_humidity s)) ]);
       ("weather", Py.JArr [Py.JObj [("main", Py.JStr (sample_condition s))]]) ]
     ++ optional_field "wind" "speed" (sample_wind s)
     ++ optional_field "rain" "3h" (sample_rain s)
     ++ optional_field "snow" "3h" (sample_snow s))%list.

(** The response that carries a list of samples; [body] is its text. *)
Definition payload (body : string) (samples : list sample) : Weather.Response :=
  {| Weather.status_code := 200;
     Weather.text := body;
     Weather.json_body := Some (Py.JObj [("list", Py.JArr (map item_of_sample samples))]) |}.

(** Wind speed of a sample in km/h, and its precipitation in mm. *)
Definition wind_kmh (s : sample) : Q := Py.mul (default 0%Q (sample_wind s)) (Py.fl 3.6).
Definition precipitation_mm (s : sample) : Q :=
  Py.add (default 0%Q (sample_rain s)) (default 0%Q (sample_snow s)).

(** The samples of one calendar date, in the order received. *)
Definition on_date (d : Z) (samples : list sample) : list sample :=
  List.filter (fun s => Z.eqb (sample_date s) d) samples.


Definition occurrences (c : string) (l : list string) : nat :=
  count_occ String.string_dec l c.

(** [m] is a greatest element of [l]. *)
Definition is_max (m : Q) (l : list Q) : Prop :=
  In m l /\ forall x, In x l -> (x <= m)%Q.

Definition is_min (m : Q) (l : list Q) : Prop :=
  In m l /\ forall x, In x l -> (m <= x)%Q.

(** [m] is a most frequent element of [l]. *)
Definition is_mode (m : string) (l : list string) : Prop :=
  In m l /\ forall c, (occurrences c l <= occurrences m l)%nat.


(** The bucket the tool holds for a list of samples of one date. *)
Definition bucket_of (b : list sample) : Weather.day_bucket :=
  {| Weather.temps := map (fun s => Py.JNum (sample_temp s)) b;
     Weather.conditions := map (fun s => Py.JStr (sample_condition s)) b;
     Weather.humidities := map (fun s => Py.JNum (sample_humidity s)) b;
     Weather.wind_speeds := map wind_kmh b;
     Weather.precipitation := map (fun s => Py.JNum (precipitation_mm s)) b |}.

(** The bucket after one more sample. *)
Definition extend (b : Weather.day_bucket) (s : sample) : Weather.day_bucket :=
  {| Weather.temps := (Weather.temps b ++ [Py.JNum (sample_temp s)])%list;
     Weather.conditions := (Weather.conditions b ++ [Py.JStr (sample_condition s)])%list;
     Weather.humidities := (Weather.humidities b ++ [Py.JNum (sample_humidity s)])%list;
     Weather.wind_speeds := (Weather.wind_speeds b ++ [wind_kmh s])%list;
     Weather.precipitation :=
       (Weather.precipitation b ++ [Py.JNum (precipitation_mm s)])%list |}.

(** [daily_forecasts] holds exactly the buckets of the samples [seen]. *)
Definition represents (seen : list sample) (daily : gmap Z Weather.day_bucket) : Prop :=
  forall d : Z,
    daily !! d = match on_date d seen with
                 | [] => None
                 | _ :: _ => Some (bucket_of (on_date d seen))
                 end.

(** [condition_counts] when every condition is a string: the same dict
    with the keys as strings. *)
Fixpoint count_string (counts : list (string * nat)) (c : string) : list (string * nat) :=
  match counts with
  | [] => [(c, 1%nat)]
  | (k, n) :: rest =>
      if String.eqb c k then (k, S n) :: rest else (k, n) :: count_string rest c
  end.

Definition lift_counts (counts : list (string * nat)) : list (Py.json * nat) :=
  map (fun kn => (Py.JStr (fst kn), snd kn)) counts.

Definition count_of (counts : list (string * nat)) (c : string) : nat :=
  default 0%nat (Py.dict_get counts c).

(** [datetime.fromtimestamp(t).date()] on a machine whose local time is
    UTC: day 719163 is 1970-01-01. *)
Definition utc_date (t : Q) : Py.result Z := Ok (719163 + Qfloor (t / 86400))%Z.

(** ** A sample with half degrees

    Today is 2025-01-01 (day 739252).  One sample, at noon UTC of that
    day: 12.5 degrees, humidity 60.5, wind 2.5 m/s, a clear sky, no
    precipitation; only the secondary credential is set. *)

Definition half_sample : sample :=
  {| sample_dt := 1735732800;
     sample_date := 739252;
     sample_temp := 12.5;
     sample_condition := "Clear";
     sample_humidity := 60.5;
     sample_wind := Some 2.5%Q;
     sample_rain := None;
     sample_snow := None |}.

Definition half_world : Weather.world :=
  {| Weather.environ := {[ "OPENWEATHER_API_KEY" := "secondary-key" ]};
     Weather.today := 739252;
     Weather.fromtimestamp_date := utc_date;
     Weather.requests_get := fun r =>
       match r with
       | Weather.OpenWeatherForecast _ _ _ _ => Ok (payload "(body)" [half_sample])
       | Weather.GoogleForecast _ _ _ _ => Raise Py.OtherException
       end |}.

(** ** Samples whose sums are rounded

    Four samples of the same day, with the humidities 61, 59.9, 61.2 and
    59.9; the first two carry 0.5 mm and 0.49999999999999994 mm of rain.
    Each number is the binary64 number the decoder reads.  The exact sum
    of the humidities is 242 and that of the rain is below 1; added from
    left to right in binary64 they give 242.00000000000003 and 1. *)

Definition rounding_sample (dt humidity_ : Q) (rain : option Q) : sample :=
  {| sample_dt := dt;
     sample_date := 739252;
     sample_temp := 12;
     sample_condition := "Clear";
     sample_humidity := humidity_;
     sample_wind := None;
     sample_rain := rain;
     sample_snow := None |}.

Definition rounding_samples : list sample :=
  [ rounding_sample 1735732800 61 (Some 0.5%Q);
    rounding_sample 1735743600 (Py.fl 59.9) (Some (Py.fl 0.49999999999999994));
    rounding_sample 1735754400 (Py.fl 61.2) None;
    rounding_sample 1735765200 (Py.fl 59.9) None ].

Definition rounding_world : Weather.world :=
  {| Weather.environ := {[ "OPENWEATHER_API_KEY" := "secondary-key" ]};
     Weather.today := 739252;
     Weather.fromtimestamp_date := utc_date;
     Weather.requests_get := fun r =>
       match r with
       | Weather.OpenWeatherForecast _ _ _ _ => Ok (payload "(body)" rounding_samples)
       | Weather.GoogleForecast _ _ _ _ => Raise Py.OtherException
       end |}.

End OpenWeatherSpec.

Module LookupSpec.

(** No key of the place-type table matches the label: not as it is, and
    not as a substring in either direction once lowered. *)
Definition unmatched (lower : string -> string) (sport_type : string) : Prop :=
  ~ In sport_type (map fst Venues.sport_mapping) /\
  forall key, In key (map fst Venues.sport_mapping) ->
    ~ Substring (lower key) (lower sport_type) /\ ~ Substring (lower sport_type) (lower key).

End LookupSpec.

Module TierSpec.

(** The seven names [_get_day_of_week_cn] chooses from. *)
Definition day_names : list string :=
  ["周一"; "周二"; "周三"; "周四"; "周五"; "周六"; "周日"].

(** The labels without rain and without snow. *)
Definition dry_labels : list string := ["晴天"; "多云"; "阴天"; "雾"].

(** A 200 response with a decoded body. *)
Definition ok_response (data : Py.json) : Weather.Response :=
  {| Weather.status_code := 200; Weather.text := "(body)"; Weather.json_body := Some data |}.

(** A machine on which only the primary provider is configured, and
    answers every request with [data]. *)
Definition primary_world (today : Z) (data : Py.json) : Weather.world :=
  {| Weather.environ := {[ "GOOGLE_MAPS_API_KEY" := "primary-key" ]};
     Weather.today := today;
     Weather.fromtimestamp_date := fun _ => Raise Py.OtherException;
     Weather.requests_get := fun r =>
       match r with
       | Weather.GoogleForecast _ _ _ _ => Ok (ok_response data)
       | Weather.OpenWeatherForecast _ _ _ _ => Raise Py.OtherException
       end |}.

(** The primary payload that carries a list of daily items. *)
Definition daily_payload (items : list Py.json) : Py.json :=
  Py.JObj [("dailyForecast", Py.JObj [("days", Py.JArr items)])].

(** The entry of 2025-01-01 for a daily item that only says
    ["windSpeed": 60]. *)
Definition windy_day : Weather.forecast_day :=
  {| Weather.date := 739252;
     Weather.day_of_week := "周三";
     Weather.condition := "多云";
     Weather.condition_icon := "⛅";
     Weather.temperature_high := 22;
     Weather.temperature_low := 15;
     Weather.humidity := 60;
     Weather.wind_speed := 216;
     Weather.precipitation_probability := 20;
     Weather.suitable_for_outdoor := true |}.

End TierSpec.

Module PrimarySpec.





(** The keys of a daily item the tool reads. *)
Definition day_keys : list string :=
  [ "temperature"; "temp"; "condition"; "weather"; "humidity"; "relativeHumidity";
    "windSpeed"; "wind"; "precipitationProbability"; "pop" ].


End PrimarySpec.

Module SecondarySpec.

(** The sample falls on one of the [days] dates from [today] on. *)
Definition in_window (today days : Z) (s : OpenWeatherSpec.sample) : bool :=
  Z.leb today (OpenWeatherSpec.sample_date s)
  && Z.ltb (OpenWeatherSpec.sample_date s) (today + days).

(** An item of the list that is no object, or lacks one of the keys the
    first loop indexes: ["dt"], ["main"], ["weather"]. *)
Definition lacks_required_key (item : Py.json) : Prop :=
  match item with
  | Py.JObj fields =>
      Py.dict_get fields "dt" = None \/
      Py.dict_get fields "main" = None \/
      Py.dict_get fields "weather" = None
  | _ => True
  end.

(** The response that carries a list of items. *)
Definition list_response (body : string) (items : list Py.json) : Weather.Response :=
  {| Weather.status_code := 200;
     Weather.text := body;
     Weather.json_body := Some (Py.JObj [("list", Py.JArr items)]) |}.

(** A sample of the day after [OpenWeatherSpec.half_sample]: noon UTC of
    2025-01-02, snow. *)
Definition next_day_sample : OpenWeatherSpec.sample :=
  {| OpenWeatherSpec.sample_dt := 1735819200;
     OpenWeatherSpec.sample_date := 739253;
     OpenWeatherSpec.sample_temp := 3;
     OpenWeatherSpec.sample_condition := "Snow";
     OpenWeatherSpec.sample_humidity := 90;
     OpenWeatherSpec.sample_wind := None;
     OpenWeatherSpec.sample_rain := None;
     OpenWeatherSpec.sample_snow := Some 4%Q |}.

(** An item that has a time stamp and nothing else. *)
Definition bare_item : Py.json := Py.JObj [("dt", Py.JNum 1735743600)].

(** A machine on which only the secondary provider is configured; it
    answers with [response] the request for coordinates (40, -73) under
    the configured key and for [cnt] samples, and refuses every other
    request.  Local time is UTC. *)
Definition secondary_world (today cnt : Z) (response : Weather.Response) : Weather.world :=
  {| Weather.environ := {[ "OPENWEATHER_API_KEY" := "secondary-key" ]};
     Weather.today := today;
     Weather.fromtimestamp_date := OpenWeatherSpec.utc_date;
     Weather.requests_get := fun r =>
       match r with
       | Weather.OpenWeatherForecast lat lon appid cnt' =>
           if Qeq_bool lat 40 && Qeq_bool lon (-73) && String.eqb appid "secondary-key"
              && Z.eqb cnt' cnt
           then Ok response
           else Raise Py.HTTPError
       | Weather.GoogleForecast _ _ _ _ => Raise Py.OtherException
       end |}.

(** The entry [OpenWeatherSpec.half_sample] gives for its day. *)
Definition half_day : Weather.forecast_day :=
  {| Weather.date := 739252;
     Weather.day_of_week := "周三";
     Weather.condition := "晴天";
     Weather.condition_icon := "☀️";
     Weather.temperature_high := 12;
     Weather.temperature_low := 12;
     Weather.humidity := 60;
     Weather.wind_speed := 9;
     Weather.precipitation_probability := 20;
     Weather.suitable_for_outdoor := true |}.

End SecondarySpec.

Module ModeSpec.

(** The position of the first occurrence of [c] in [l]; the length of
    [l] when [c] does not occur. *)
Fixpoint first_index (c : string) (l : list string) : nat :=
  match l with
  | [] => 0
  | x :: l' => if String.eqb c x then 0 else S (first_index c l')
  end.

(** [a] occurs in [l] before [b] does. *)
Definition appears_before (l : list string) (a b : string) : Prop :=
  (first_index a l < first_index b l)%nat.

(** A sample of 2025-01-01 with the given condition. *)
Definition sample_of (condition : string) : OpenWeatherSpec.sample :=
  {| OpenWeatherSpec.sample_dt := 1735732800;
     OpenWeatherSpec.sample_date := 739252;
     OpenWeatherSpec.sample_temp := 10;
     OpenWeatherSpec.sample_condition := condition;
     OpenWeatherSpec.sample_humidity := 70;
     OpenWeatherSpec.sample_wind := None;
     OpenWeatherSpec.sample_rain := None;
     OpenWeatherSpec.sample_snow := None |}.

(** Rain twice and a clear sky twice, the rain first. *)
Definition tied_day : list OpenWeatherSpec.sample :=
  [sample_of "Rain"; sample_of "Clear"; sample_of "Clear"; sample_of "Rain"].

End ModeSpec.

Module SearchSpec.

(** The credential [search_nearby_venues] uses: the tool context first,
    then two environment variables. *)
Definition credential (environ : gmap string string) (tool_context : option Adk.ToolContext)
  : option string :=
  WeatherSpec.first_configured
    [ match tool_context with Some tc => Adk.state tc !! "maps_api_key" | None => None end;
      environ !! "GOOGLE_MAPS_API_KEY";
      environ !! "MAPS_API_KEY" ].

(** The venue [v] was made from [place], an item with a non-empty
    identifier. *)
Definition made_from (_calculate_distance : Q -> Q -> Q -> Q -> Py.result Q)
    (_format_distance : Q -> string) (latitude longitude : Q)
    (place : Py.json) (v : Venues.venue_info) : Prop :=
  Py.get place "place_id" Py.JNull = Ok (Venues.place_id v) /\
  Py.truthy (Venues.place_id v) = true /\
  Venues.make_venue _calculate_distance _format_distance latitude longitude place
    (Venues.place_id v) = Ok v.

(** The items of the answer to one nearby search. *)
Definition places_of (gmaps_lib : Venues.googlemaps) (key : string) (latitude longitude : Q)
    (radius : Z) (place_type : string) : Py.result (list Py.json) :=
  let! places_result :=
    Venues.places_nearby gmaps_lib key (latitude, longitude) radius place_type in
  let! results := Py.get places_result "results" (Py.JArr []) in
  Py.iter results.

(** An item the loop can turn into a venue: it carries the non-empty
    string identifier [id], and building the venue does not raise. *)
Definition usable (_calculate_distance : Q -> Q -> Q -> Q -> Py.result Q)
    (_format_distance : Q -> string) (latitude longitude : Q)
    (place : Py.json) (id : string) : Prop :=
  Py.get place "place_id" Py.JNull = Ok (Py.JStr id) /\
  id <> "" /\
  exists v, Venues.make_venue _calculate_distance _format_distance latitude longitude place
              (Py.JStr id) = Ok v.

(** Every identifier recorded as seen is the identifier of a venue
    collected. *)
Definition recorded (st : Venues.search_state) : Prop :=
  forall pid, In pid (Venues.seen_place_ids st) ->
    In pid (map Venues.place_id (Venues.all_venues st)).

(** Two venues have the same sort key. *)
Definition same_rank (a b : Venues.venue_info) : bool :=
  match Venues.sort_key a, Venues.sort_key b with
  | Ok ka, Ok kb => Z.eqb (fst ka) (fst kb) && Qeq_bool (snd ka) (snd kb)
  | _, _ => false
  end.

End SearchSpec.

Module SearchScenario.

(** A places provider whose nearby search is down. *)
Definition outage_lib : Venues.googlemaps :=
  {| Venues.Client := fun _ => Ok tt;
     Venues.places_nearby := fun _ _ _ _ => Raise Py.OtherException |}.

(** A provider that answers as [VenuesSpec.scenario_lib] does, but only
    to the key, the centre and the radius of the scenario. *)
Definition strict_lib : Venues.googlemaps :=
  {| Venues.Client := fun key =>
       if String.eqb key "scenario-key" then Ok tt else Raise Py.OtherException;
     Venues.places_nearby := fun key location radius place_type =>
       if String.eqb key "scenario-key" && Qeq_bool (fst location) 40
          && Qeq_bool (snd location) (-73) && Z.eqb radius 2000
       then Venues.places_nearby VenuesSpec.scenario_lib key location radius place_type
       else Raise Py.OtherException |}.

(** A place with an identifier and no coordinates. *)
Definition place_without_geometry : Py.json :=
  Py.JObj [("place_id", Py.JStr "B"); ("name", Py.JStr "B, no coordinates")].

(** The first place type answers with A, then B without coordinates,
    then C; the second with B in full. *)
Definition broken_lib : Venues.googlemaps :=
  {| Venues.Client := fun _ => Ok tt;
     Venues.places_nearby := fun _ _ _ place_type =>
       if String.eqb place_type "gym"
       then Ok (Py.JObj [("results",
                          Py.JArr [VenuesSpec.place_A; place_without_geometry;
                                   VenuesSpec.place_C])])
       else if String.eqb place_type "health"
       then Ok (Py.JObj [("results", Py.JArr [VenuesSpec.place_B])])
       else Raise Py.OtherException |}.

(** The state of a search that has found nothing yet. *)
Definition nothing_found : Venues.search_state :=
  {| Venues.all_venues := []; Venues.seen_place_ids := [] |}.

(** A venue with the given name, distance and rating. *)
Definition venue (name_ : string) (distance_meters_ : Z) (rating_ : Q) : Venues.venue_info :=
  {| Venues.name := Py.JStr name_;
     Venues.address := Py.JStr "";
     Venues.distance := "";
     Venues.distance_meters := distance_meters_;
     Venues.rating := Py.JNum rating_;
     Venues.place_id := Py.JStr name_;
     Venues.types := Py.JArr [];
     Venues.location := (Py.JNum 0, Py.JNum 0) |}.




End SearchScenario.

Module AppSpec.

(** The credential of the endpoint: the first of two environment
    variables that is set and not empty. *)
Definition credential (environ : gmap string string) : option string :=
  WeatherSpec.first_configured
    [ environ !! "GOOGLE_MAPS_API_KEY"; environ !! "MAPS_API_KEY" ].

(** The keys the endpoint stores address components under. *)
Definition component_keys : list string :=
  ["city"; "province"; "district"; "country"; "street"].

(** A geocoder that knows no address. *)
Definition empty_geocoder : App.googlemaps :=
  {| App.Client := fun _ => Ok tt;
     App.reverse_geocode := fun _ _ => Ok (Py.JArr []) |}.

(** A geocoder whose first result names a district and a country. *)
Definition district_geocoder : App.googlemaps :=
  {| App.Client := fun _ => Ok tt;
     App.reverse_geocode := fun _ _ =>
       Ok (Py.JArr
             [ Py.JObj
                 [ ("formatted_address", Py.JStr "1 Main Street");
                   ("address_components",
                    Py.JArr
                      [ Py.JObj [ ("long_name", Py.JStr "Kings County");
                                  ("types", Py.JArr [Py.JStr "administrative_area_level_2";
                                                     Py.JStr "political"]) ];
                        Py.JObj [ ("long_name", Py.JStr "United States");
                                  ("types", Py.JArr [Py.JStr "country";
                                                     Py.JStr "political"]) ] ]) ] ]) |}.

(** Its answer for the coordinates (40, -73). *)
Definition district_response : App.geocode_response :=
  {| App.city := Py.JStr "Kings County";
     App.formatted_address := Py.JStr "1 Main Street";
     App.address := [ ("district", Py.JStr "Kings County");
                      ("country", Py.JStr "United States") ];
     App.latitude := 40;
     App.longitude := (-73) |}.

End AppSpec.

Module ConversationSpec.

(** A reply of the user, and a follow-up question of the agent. *)
Definition is_reply (line : string) : bool := String.prefix "User: " line.

Definition is_followup (line : string) : bool :=
  String.prefix (String.append "Agent: " (String.append CollectionOrder.quote "Got it")) line.

End ConversationSpec.

(* ================================================================== *)
(** * Strings and dictionaries                                          *)
(* ================================================================== *)

Lemma prefix_append (n h : string) :
  String.prefix n h = true <-> exists after, h = String.append n after.
Proof.
  revert h. induction n as [|c n IH]; intros h.
  - split; [intros _; exists h; reflexivity | intros _; destruct h; reflexivity].
  - destruct h as [|d h]; cbn [String.prefix String.append].
    + split; [discriminate | intros [a Ha]; discriminate].
    + destruct (Ascii.ascii_dec c d) as [->|Hne].
      * split.
        -- intros H. apply IH in H as [a Ha]. exists a. now rewrite Ha.
        -- intros [a Ha]. apply IH. exists a. now inversion Ha.
      * split; [discriminate | intros [a Ha]; inversion Ha; congruence].
Qed.

Lemma str_in_Substring (n h : string) : Py.str_in n h = true <-> Substring n h.
Proof.
  induction h as [|d h IH].
  - change (Py.str_in n "") with (String.prefix n "" || false).
    rewrite orb_false_r. split.
    + intros H. apply prefix_append in H as [a Ha]. exists "", a. exact Ha.
    + intros [b [a Ha]]. apply prefix_append. destruct b as [|c b].
      * exists a. exact Ha.
      * inversion Ha.
  - change (Py.str_in n (String d h)) with (String.prefix n (String d h) || Py.str_in n h).
    rewrite orb_true_iff. split.
    + intros [H | H].
      * apply prefix_append in H as [a Ha]. exists "", a. exact Ha.
      * apply IH in H as [b [a Ha]]. exists (String d b), a.
        change (String d b +:+ (n +:+ a)) with (String d (b +:+ (n +:+ a))).
        now rewrite Ha.
    + intros [b [a Ha]]. destruct b as [|d' b].
      * left. apply prefix_append. exists a. exact Ha.
      * right. apply IH. inversion Ha. exists b, a. reflexivity.
Qed.

Lemma str_in_empty (h : string) : Py.str_in "" h = true.
Proof. destruct h; reflexivity. Qed.

Lemma dict_get_In {V : Type} (d : list (string * V)) (k : string) (v : V) :
  Py.dict_get d k = Some v -> In (k, v) d.
Proof.
  induction d as [|[k' v'] d IH]; simpl; [discriminate|].
  destruct (String.eqb_spec k k') as [->|Hne].
  - intros [= ->]. now left.
  - intros H. right. now apply IH.
Qed.

Lemma dict_get_None {V : Type} (d : list (string * V)) (k : string) :
  ~ In k (map fst d) -> Py.dict_get d k = None.
Proof.
  induction d as [|[k' v'] d IH]; simpl; [reflexivity|].
  intros H. destruct (String.eqb_spec k k') as [->|Hne].
  - exfalso. apply H. now left.
  - apply IH. intros Hin. apply H. now right.
Qed.

(* ================================================================== *)
(** * Rounding                                                          *)
(* ================================================================== *)

(** [Py.round] returns a nearest integer. *)
Lemma round_nearest (x : Q) :
  (inject_Z (Py.round x) - (1 # 2) <= x <= inject_Z (Py.round x) + (1 # 2))%Q.
Proof.
  unfold Py.round.
  pose proof (Qfloor_le x) as Hlo. pose proof (Qlt_floor x) as Hhi.
  rewrite inject_Z_plus in Hhi. change (inject_Z 1) with 1%Q in Hhi.
  destruct (Qcompare_spec (x - inject_Z (Qfloor x)) (1 # 2)) as [H|H|H].
  - destruct (Z.even (Qfloor x)); rewrite ?inject_Z_plus; change (inject_Z 1) with 1%Q;
      split; lra.
  - split; lra.
  - rewrite inject_Z_plus. change (inject_Z 1) with 1%Q. split; lra.
Qed.

(** Ties go to the even neighbour. *)
Example round_examples :
  Py.round 12.5 = 12%Z /\ Py.round 13.5 = 14%Z /\ Py.round 2.6 = 3%Z /\
  Py.round 2.4 = 2%Z /\ Py.round (-0.5) = 0%Z /\ Py.round (-1.5) = (-2)%Z /\
  Py.round 7 = 7%Z.
Proof. repeat split; reflexivity. Qed.

(* ================================================================== *)
(** * Gear lookup                                                       *)
(* ================================================================== *)

Lemma keyword_match_None (lower : string -> string) (items : list (string * Gear.gear_set))
    (s : string) :
  (forall key, In key (map fst items) ->
     ~ Substring (lower key) s /\ ~ Substring s (lower key)) ->
  Gear.keyword_match lower items s = None.
Proof.
  induction items as [|[key value] items IH]; simpl; [reflexivity|].
  intros H. destruct (H key (or_introl eq_refl)) as [H1 H2].
  rewrite <- str_in_Substring in H1, H2.
  apply not_true_is_false in H1, H2. rewrite H1, H2. simpl.
  apply IH. intros k Hk. apply H. now right.
Qed.

Lemma underwater_hockey_unmatched : GearSpec.unmatched Py.str_lower "underwater hockey".
Proof.
  unfold GearSpec.unmatched. repeat split.
  - vm_compute. intuition discriminate.
  - vm_compute. intuition discriminate.
  - rewrite <- str_in_Substring. vm_compute in H.
    intuition (subst; vm_compute; discriminate).
  - rewrite <- str_in_Substring. vm_compute in H.
    intuition (subst; vm_compute; discriminate).
Qed.

(** C7.  [get_recommended_gear] is defined on every label and for every
    [str.lower]: the status is "success", the label is echoed, and a
    label that no key matches (exactly, lowered, or as a substring in
    either direction) gets the generic default gear; "underwater hockey"
    is such a label. *)
Theorem gear_lookup_always_succeeds :
  (forall (lower : string -> string) (sport_type : string),
     Gear.status (Gear.get_recommended_gear lower sport_type) = "success" /\
     Gear.sport_type (Gear.get_recommended_gear lower sport_type) = sport_type /\
     (GearSpec.unmatched lower sport_type ->
      Gear.recommended_gear (Gear.get_recommended_gear lower sport_type) = Gear.default_gear)) /\
  GearSpec.unmatched Py.str_lower "underwater hockey" /\
  Gear.get_recommended_gear Py.str_lower "underwater hockey" =
    {| Gear.status := "success";
       Gear.sport_type := "underwater hockey";
       Gear.recommended_gear :=
         {| Gear.shoes := ["运动鞋"];
            Gear.clothing := ["运动服"; "运动裤"];
            Gear.accessories := ["水壶"; "毛巾"] |} |}.
Proof.
  split; [|split].
  - intros lower sport_type. split; [reflexivity|]. split; [reflexivity|].
    intros (Hexact & Hlower & Hsub).
    unfold Gear.get_recommended_gear. cbn [Gear.recommended_gear].
    rewrite (dict_get_None Gear.GEAR_MAP sport_type Hexact).
    rewrite (dict_get_None Gear.GEAR_MAP (lower sport_type) Hlower).
    now rewrite (keyword_match_None lower Gear.GEAR_MAP (lower sport_type) Hsub).
  - exact underwater_hockey_unmatched.
  - vm_compute. reflexivity.
Qed.

Lemma gear_lookup_always_succeeds_witness :
  Gear.recommended_gear (Gear.get_recommended_gear Py.str_lower "underwater hockey")
  = Gear.default_gear.
Proof.
  apply (proj1 gear_lookup_always_succeeds Py.str_lower "underwater hockey").
  exact underwater_hockey_unmatched.
Defined.

(** C10.  For the empty label the substring loop stops at the first key
    of each table, because the empty string occurs in every key: the
    gear is the long-distance-running set and the place types are
    ["park"; "route"], not the defaults. *)
Theorem empty_label_takes_first_entry (lower : string -> string) :
  lower "" = "" ->
  (forall key : string, Py.str_in "" (lower key) = true) /\
  hd_error Gear.GEAR_MAP = Some ("长跑", Gear.running_gear) /\
  Py.dict_get Gear.GEAR_MAP "" = None /\
  Gear.keyword_match lower Gear.GEAR_MAP "" = Some Gear.running_gear /\
  Gear.recommended_gear (Gear.get_recommended_gear lower "") = Gear.running_gear /\
  Gear.recommended_gear (Gear.get_recommended_gear lower "") <> Gear.default_gear /\
  hd_error Venues.sport_mapping = Some ("长跑", ["park"; "route"]) /\
  Venues._map_sport_to_place_types lower "" = ["park"; "route"] /\
  Venues._map_sport_to_place_types lower "" <> ["gym"; "park"].
Proof.
  intros Hempty.
  assert (Hgear : Gear.keyword_match lower Gear.GEAR_MAP "" = Some Gear.running_gear).
  { cbn [Gear.keyword_match Gear.GEAR_MAP]. now rewrite (str_in_empty (lower "长跑")), orb_true_r. }
  assert (Hget : Gear.recommended_gear (Gear.get_recommended_gear lower "") = Gear.running_gear).
  { unfold Gear.get_recommended_gear. cbn [Gear.recommended_gear].
    rewrite Hempty. change (Py.dict_get Gear.GEAR_MAP "") with (@None Gear.gear_set).
    now rewrite Hgear. }
  assert (Hplaces : Venues._map_sport_to_place_types lower "" = ["park"; "route"]).
  { unfold Venues._map_sport_to_place_types. rewrite Hempty.
    change (Py.dict_get Venues.sport_mapping "") with (@None (list string)).
    cbn [Venues.fuzzy_match Venues.sport_mapping].
    now rewrite (str_in_empty (lower "长跑")), orb_true_r. }
  repeat split; try assumption; try reflexivity.
  - intros key. apply str_in_empty.
  - rewrite Hget. discriminate.
  - rewrite Hplaces. discriminate.
Qed.

Lemma empty_label_takes_first_entry_witness :
  Gear.recommended_gear (Gear.get_recommended_gear Py.str_lower "") = Gear.running_gear /\
  Venues._map_sport_to_place_types Py.str_lower "" = ["park"; "route"].
Proof.
  pose proof (empty_label_takes_first_entry Py.str_lower eq_refl) as H.
  split; [apply H | apply H].
Defined.

(* ================================================================== *)
(** * Condition labels and icons                                        *)
(* ================================================================== *)

Lemma substring_match_In (items : list (string * string)) (s v : string) :
  Weather.substring_match items s = Some v -> In v (map snd items).
Proof.
  induction items as [|[key value] items IH]; simpl; [discriminate|].
  destruct (Py.str_in key s || Py.str_in s key).
  - intros [= ->]. now left.
  - intros H. right. now apply IH.
Qed.

Lemma dict_get_value_In {V : Type} (d : list (string * V)) (k : string) (v : V) :
  Py.dict_get d k = Some v -> In v (map snd d).
Proof.
  intros H. apply dict_get_In in H. now apply (in_map snd) in H.
Qed.

(** Every label the normalizer returns is one of the nine labels of the
    vocabulary, whatever [str.lower] does. *)
Lemma normalizer_range (lower : string -> string) (raw : string) :
  In (Weather._map_condition_to_chinese lower raw) WeatherSpec.vocabulary.
Proof.
  unfold Weather._map_condition_to_chinese.
  assert (Hopen : incl (map snd Weather.openweather_map) WeatherSpec.vocabulary)
    by (intros x Hx; vm_compute in Hx; vm_compute; intuition).
  assert (Hgen : incl (map snd Weather.general_map) WeatherSpec.vocabulary)
    by (intros x Hx; vm_compute in Hx; vm_compute; intuition).
  assert (Hall : incl (map snd (Py.dict_merge Weather.openweather_map Weather.general_map))
                      WeatherSpec.vocabulary)
    by (intros x Hx; vm_compute in Hx; vm_compute; intuition).
  destruct (Py.dict_get Weather.openweather_map (lower raw)) as [v|] eqn:E1.
  { apply Hopen. eapply dict_get_value_In, E1. }
  destruct (Py.dict_get Weather.general_map (lower raw)) as [v|] eqn:E2.
  { apply Hgen. eapply dict_get_value_In, E2. }
  destruct (Weather.substring_match _ (lower raw)) as [v|] eqn:E3.
  { apply Hall. eapply substring_match_In, E3. }
  vm_compute. intuition.
Qed.

(** [{**openweather_map, **general_map}] keeps the keys of the first
    table in front. *)
Example merged_keys :
  map fst (Py.dict_merge Weather.openweather_map Weather.general_map)
  = [ "clear"; "clouds"; "rain"; "drizzle"; "thunderstorm"; "snow"; "mist"; "fog"; "haze";
      "sunny"; "partly cloudy"; "cloudy"; "overcast"; "rainy"; "showers"; "snowy"; "foggy" ].
Proof. reflexivity. Qed.

(** Every label of the vocabulary is the label of some input. *)
Lemma vocabulary_reached (label : string) :
  In label WeatherSpec.vocabulary ->
  exists raw, Weather._map_condition_to_chinese Py.str_lower raw = label.
Proof.
  intros H. vm_compute in H.
  destruct H as [<-|[<-|[<-|[<-|[<-|[<-|[<-|[<-|[<-|[]]]]]]]]]].
  - now exists "Clear".
  - now exists "Clouds".
  - now exists "Rain".
  - now exists "Drizzle".
  - now exists "Thunderstorm".
  - now exists "Snow".
  - now exists "Mist".
  - now exists "overcast".
  - now exists "showers".
Qed.

Lemma default_label_in_vocabulary : In "多云" WeatherSpec.vocabulary.
Proof. vm_compute. intuition. Qed.

(** A label of the vocabulary, given again to the normalizer by a
    [lower] that leaves it alone, meets no key and gets the default. *)
Lemma normalizer_on_label (lower : string -> string) (label : string) :
  In label WeatherSpec.vocabulary -> lower label = label ->
  Weather._map_condition_to_chinese lower label = "多云".
Proof.
  intros Hin Hlow. unfold Weather._map_condition_to_chinese. rewrite Hlow.
  vm_compute in Hin.
  repeat (destruct Hin as [<- | Hin]; [vm_compute; reflexivity|]).
  contradiction.
Qed.

Lemma str_lower_vocabulary (label : string) :
  In label WeatherSpec.vocabulary -> Py.str_lower label = label.
Proof.
  intros Hin. vm_compute in Hin.
  repeat (destruct Hin as [<- | Hin]; [vm_compute; reflexivity|]).
  contradiction.
Qed.

(** C8, as stated, fails: "clear" is normalized to the label for a clear
    sky, and that label is normalized to the default label, with another
    icon. *)
Lemma renormalizing_clear_changes_label :
  Weather._map_condition_to_chinese Py.str_lower "clear" = "晴天" /\
  Weather._map_condition_to_chinese Py.str_lower
    (Weather._map_condition_to_chinese Py.str_lower "clear") = "多云" /\
  Weather._map_condition_to_chinese Py.str_lower
    (Weather._map_condition_to_chinese Py.str_lower "clear")
  <> Weather._map_condition_to_chinese Py.str_lower "clear" /\
  Weather._get_weather_icon
    (Weather._map_condition_to_chinese Py.str_lower
       (Weather._map_condition_to_chinese Py.str_lower "clear"))
  <> Weather._get_weather_icon (Weather._map_condition_to_chinese Py.str_lower "clear").
Proof.
  repeat split; vm_compute; try reflexivity; discriminate.
Qed.

(** C8, amended.  Normalizing a label the normalizer produced returns the
    default label "多云" with its icon, whatever the first input was; the
    second result equals the first exactly when the first was already
    the default label, and a third normalization changes nothing. *)
Theorem renormalizing_gives_default_label (lower : string -> string) :
  (forall label, In label WeatherSpec.vocabulary -> lower label = label) ->
  forall raw : string,
    Weather._map_condition_to_chinese lower (Weather._map_condition_to_chinese lower raw)
      = "多云" /\
    Weather._get_weather_icon
      (Weather._map_condition_to_chinese lower (Weather._map_condition_to_chinese lower raw))
      = "⛅" /\
    (Weather._map_condition_to_chinese lower (Weather._map_condition_to_chinese lower raw)
       = Weather._map_condition_to_chinese lower raw
     <-> Weather._map_condition_to_chinese lower raw = "多云") /\
    Weather._map_condition_to_chinese lower
      (Weather._map_condition_to_chinese lower (Weather._map_condition_to_chinese lower raw))
    = Weather._map_condition_to_chinese lower (Weather._map_condition_to_chinese lower raw).
Proof.
  intros Hlower raw.
  pose proof (normalizer_range lower raw) as Hin.
  pose proof (normalizer_on_label lower _ Hin (Hlower _ Hin)) as Hre.
  rewrite Hre. split; [reflexivity|]. split; [reflexivity|]. split.
  - split; intros H; now rewrite H.
  - apply normalizer_on_label; [exact default_label_in_vocabulary|].
    apply Hlower. exact default_label_in_vocabulary.
Qed.

Lemma renormalizing_gives_default_label_witness :
  Weather._map_condition_to_chinese Py.str_lower
    (Weather._map_condition_to_chinese Py.str_lower "Thunderstorm") = "多云".
Proof.
  apply (renormalizing_gives_default_label Py.str_lower str_lower_vocabulary "Thunderstorm").
Defined.

(** C9, as stated, fails: "overcast" is normalized to a label that has no
    entry in the icon table, and the icon returned for it is the
    default. *)
Lemma overcast_label_has_no_icon :
  Weather._map_condition_to_chinese Py.str_lower "overcast" = "阴天" /\
  Py.dict_get Weather.icon_map "阴天" = None /\
  Weather._get_weather_icon (Weather._map_condition_to_chinese Py.str_lower "overcast")
    = WeatherSpec.default_icon.
Proof.
  repeat split; vm_compute; reflexivity.
Qed.

(** C9, amended.  Every label the normalizer returns has its own entry in
    the icon table, with an icon other than the default one, except the
    two labels "阴天" and "阵雨" (given for "overcast" and "showers"),
    which have no entry and get the default icon. *)
Theorem normalizer_labels_and_icons :
  (forall (lower : string -> string) (raw : string),
     (Py.dict_mem Weather.icon_map (Weather._map_condition_to_chinese lower raw) = true /\
      Weather._get_weather_icon (Weather._map_condition_to_chinese lower raw)
        <> WeatherSpec.default_icon)
     \/
     ((Weather._map_condition_to_chinese lower raw = "阴天" \/
       Weather._map_condition_to_chinese lower raw = "阵雨") /\
      Py.dict_mem Weather.icon_map (Weather._map_condition_to_chinese lower raw) = false /\
      Weather._get_weather_icon (Weather._map_condition_to_chinese lower raw)
        = WeatherSpec.default_icon)) /\
  Weather._map_condition_to_chinese Py.str_lower "overcast" = "阴天" /\
  Weather._map_condition_to_chinese Py.str_lower "showers" = "阵雨".
Proof.
  split; [|split; vm_compute; reflexivity].
  intros lower raw.
  pose proof (normalizer_range lower raw) as Hin.
  set (label := Weather._map_condition_to_chinese lower raw) in *.
  clearbody label. vm_compute in Hin.
  destruct Hin as [<-|[<-|[<-|[<-|[<-|[<-|[<-|[<-|[<-|[]]]]]]]]]];
    try (left; split; [vm_compute; reflexivity | vm_compute; discriminate]);
    right; (split; [auto | split; vm_compute; reflexivity]).
Qed.

(* ================================================================== *)
(** * Results                                                           *)
(* ================================================================== *)

Lemma bind_Ok {A B : Type} (c : Py.result A) (k : A -> Py.result B) (b : B) :
  Py.bind c k = Ok b -> exists a, c = Ok a /\ k a = Ok b.
Proof.
  destruct c as [a|e]; simpl; [|discriminate]. intros H. now exists a.
Qed.

(** Peel the binds of a computation known to return. *)
Ltac bind_inv H :=
  repeat (let a := fresh "v" in
          let Ha := fresh "E" in
          apply bind_Ok in H as (a & Ha & H); cbv beta in H).

Lemma mapM_Forall2 {A B : Type} (f : A -> Py.result B) (l : list A) (l' : list B) :
  Py.mapM f l = Ok l' -> Forall2 (fun x y => f x = Ok y) l l'.
Proof.
  revert l'. induction l as [|x l IH]; intros l' H; simpl in H.
  - injection H as <-. constructor.
  - bind_inv H. injection H as <-. constructor; [assumption | now apply IH].
Qed.


Lemma mapM_Forall {A B : Type} (f : A -> Py.result B) (P : B -> Prop) (l : list A)
    (l' : list B) :
  (forall x y, In x l -> f x = Ok y -> P y) -> Py.mapM f l = Ok l' -> Forall P l'.
Proof.
  intros HP H. apply mapM_Forall2 in H.
  induction H as [|x y l l' Hxy _ IH]; constructor.
  - apply (HP x); [now left | assumption].
  - apply IH. intros x' y' Hin. apply HP. now right.
Qed.

Lemma mapM_total {A B : Type} (f : A -> Py.result B) (g : A -> B) (l : list A) :
  (forall x, In x l -> f x = Ok (g x)) -> Py.mapM f l = Ok (map g l).
Proof.
  induction l as [|x l IH]; intros H; simpl; [reflexivity|].
  rewrite (H x (or_introl eq_refl)). simpl.
  rewrite IH; [reflexivity|]. intros y Hy. apply H. now right.
Qed.


Lemma range_In (n i : Z) : In i (Weather.range n) <-> (0 <= i < n)%Z.
Proof.
  unfold Weather.range. rewrite in_map_iff. split.
  - intros (k & <- & Hk). apply in_seq in Hk. lia.
  - intros Hi. exists (Z.to_nat i). split; [lia|]. apply in_seq. lia.
Qed.

(* ================================================================== *)
(** * The forecast tool                                                 *)
(* ================================================================== *)

Lemma str_truthy_unconfigured (o : option string) :
  unconfigured o -> Py.str_truthy o = false.
Proof. intros [-> | ->]; reflexivity. Qed.

Lemma str_or_unconfigured (a b : option string) :
  unconfigured a -> unconfigured b -> Py.str_or a (default "" b) = "".
Proof. intros [-> | ->] [-> | ->]; reflexivity. Qed.

(** Without credentials the tool goes straight to the synthetic data. *)
Lemma no_credentials_mock (lower : string -> string) (w : Weather.world)
    (latitude longitude : Q) (days : Z) (tool_context : option Adk.ToolContext) :
  WeatherSpec.no_credentials w tool_context ->
  Weather.get_weather_forecast lower w latitude longitude days tool_context
  = Weather._get_mock_weather_forecast w latitude longitude (WeatherSpec.clamp days).
Proof.
  intros (Hctx & Hg & Hm & Ho & Hw). unfold Weather.get_weather_forecast.
  rewrite (str_or_unconfigured _ _ Hg Hm).
  rewrite (str_truthy_unconfigured _ Ho), (str_truthy_unconfigured _ Hw).
  destruct tool_context as [tc|]; [destruct Hctx as [-> | ->]|]; reflexivity.
Qed.

Lemma mock_status (w : Weather.world) (latitude longitude : Q) (days : Z) :
  Weather.status (Weather._get_mock_weather_forecast w latitude longitude days) = "success".
Proof. reflexivity. Qed.

Lemma google_status (lower : string -> string) (w : Weather.world) (latitude longitude : Q)
    (days : Z) (key : string) (r : Weather.weather_result) :
  Weather._get_weather_from_google lower w latitude longitude days key = Ok r ->
  Weather.status r = "success".
Proof.
  unfold Weather._get_weather_from_google. intros H. bind_inv H. now injection H as <-.
Qed.

Lemma openweathermap_status (lower : string -> string) (w : Weather.world)
    (latitude longitude : Q) (days : Z) (key : string) (r : Weather.weather_result) :
  Weather._get_weather_from_openweathermap lower w latitude longitude days key = Ok r ->
  Weather.status r = "success".
Proof.
  unfold Weather._get_weather_from_openweathermap. intros H. bind_inv H.
  now injection H as <-.
Qed.

(** The three sources of a result, in the order they are tried. *)
Lemma forecast_source (lower : string -> string) (w : Weather.world)
    (latitude longitude : Q) (days : Z) (tool_context : option Adk.ToolContext) :
  (exists key, Weather._get_weather_from_google lower w latitude longitude
                 (WeatherSpec.clamp days) key
               = Ok (Weather.get_weather_forecast lower w latitude longitude days tool_context))
  \/
  (exists key, Weather._get_weather_from_openweathermap lower w latitude longitude
                 (WeatherSpec.clamp days) key
               = Ok (Weather.get_weather_forecast lower w latitude longitude days tool_context))
  \/
  Weather.get_weather_forecast lower w latitude longitude days tool_context
  = Weather._get_mock_weather_forecast w latitude longitude (WeatherSpec.clamp days).
Proof.
  unfold Weather.get_weather_forecast, WeatherSpec.clamp.
  repeat match goal with
    | |- context [match Weather._get_weather_from_google ?a ?b ?c ?d ?e ?f with _ => _ end] =>
        destruct (Weather._get_weather_from_google a b c d e f) as [?|[|]] eqn:?
    | |- context [match Weather._get_weather_from_openweathermap ?a ?b ?c ?d ?e ?f with _ => _ end] =>
        destruct (Weather._get_weather_from_openweathermap a b c d e f) as [?|[|]] eqn:?
    | |- context [if Py.str_truthy ?k then _ else _] => destruct (Py.str_truthy k)
    end;
  first [ left; eexists; eassumption
        | right; left; eexists; eassumption
        | right; right; reflexivity ].
Qed.


Lemma first_configured_nonempty (l : list (option string)) (k : string) :
  WeatherSpec.first_configured l = Some k -> String.eqb k "" = false.
Proof.
  induction l as [|[s|] l IH]; simpl; try discriminate; auto.
  destruct (String.eqb s "") eqn:E; auto. now intros [= <-].
Qed.

(** The key the tool ends up with for the primary provider is the
    primary credential of the specification, or [""] without one. *)
Lemma primary_key (w : Weather.world) (tool_context : option Adk.ToolContext) :
  (let google_api_key : option string :=
     match tool_context with
     | Some tc => Some (default "" (Adk.state tc !! "maps_api_key"))
     | None => None
     end in
   if negb (Py.str_truthy google_api_key)
   then Some (Py.str_or (Weather.environ w !! "GOOGLE_MAPS_API_KEY")
                        (default "" (Weather.environ w !! "MAPS_API_KEY")))
   else google_api_key)
  = Some (default "" (WeatherSpec.primary_credential w tool_context)).
Proof.
  assert (Henv : Some (Py.str_or (Weather.environ w !! "GOOGLE_MAPS_API_KEY")
                                 (default "" (Weather.environ w !! "MAPS_API_KEY")))
                 = Some (default "" (WeatherSpec.first_configured
                           [Weather.environ w !! "GOOGLE_MAPS_API_KEY";
                            Weather.environ w !! "MAPS_API_KEY"]))).
  { destruct (Weather.environ w !! "GOOGLE_MAPS_API_KEY") as [k1|]; simpl.
    - destruct (String.eqb k1 ""); simpl; [|reflexivity].
      destruct (Weather.environ w !! "MAPS_API_KEY") as [k2|]; simpl; [|reflexivity].
      destruct (String.eqb_spec k2 ""); subst; reflexivity.
    - destruct (Weather.environ w !! "MAPS_API_KEY") as [k2|]; simpl; [|reflexivity].
      destruct (String.eqb_spec k2 ""); subst; reflexivity. }
  unfold WeatherSpec.primary_credential. cbv zeta.
  destruct tool_context as [tc|]; [|exact Henv].
  destruct (Adk.state tc !! "maps_api_key") as [k0|]; [|exact Henv].
  cbn [default from_option id Py.str_truthy WeatherSpec.first_configured].
  destruct (String.eqb k0 ""); [exact Henv | reflexivity].
Qed.

(** The same for the secondary provider. *)
Lemma secondary_key (w : Weather.world) :
  let openweather_key :=
    if Py.str_truthy (Weather.environ w !! "OPENWEATHER_API_KEY")
    then Weather.environ w !! "OPENWEATHER_API_KEY"
    else Weather.environ w !! "WEATHER_API_KEY" in
  match WeatherSpec.secondary_credential w with
  | Some k => openweather_key = Some k /\ Py.str_truthy openweather_key = true
  | None => Py.str_truthy openweather_key = false
  end.
Proof.
  unfold WeatherSpec.secondary_credential.
  destruct (Weather.environ w !! "OPENWEATHER_API_KEY") as [k1|]; simpl.
  - destruct (String.eqb k1 "") eqn:E1; simpl; [|now rewrite E1].
    destruct (Weather.environ w !! "WEATHER_API_KEY") as [k2|]; simpl; [|reflexivity].
    destruct (String.eqb k2 "") eqn:E2; simpl; now rewrite ?E2.
  - destruct (Weather.environ w !! "WEATHER_API_KEY") as [k2|]; simpl; [|reflexivity].
    destruct (String.eqb k2 "") eqn:E2; simpl; now rewrite ?E2.
Qed.

(** The tool is the three-tier resolver of the specification. *)
Lemma get_weather_forecast_resolve (lower : string -> string) (w : Weather.world)
    (latitude longitude : Q) (days : Z) (tool_context : option Adk.ToolContext) :
  Weather.get_weather_forecast lower w latitude longitude days tool_context
  = WeatherSpec.resolve_forecast lower w latitude longitude days tool_context.
Proof.
  unfold Weather.get_weather_forecast, WeatherSpec.resolve_forecast, WeatherSpec.tier,
    WeatherSpec.clamp.
  cbv zeta. rewrite primary_key.
  pose proof (secondary_key w) as Hs. cbv zeta in Hs.
  assert (Hsecond :
    match
      (if Py.str_truthy
            (if Py.str_truthy (Weather.environ w !! "OPENWEATHER_API_KEY")
             then Weather.environ w !! "OPENWEATHER_API_KEY"
             else Weather.environ w !! "WEATHER_API_KEY")
       then
         match
           Weather._get_weather_from_openweathermap lower w latitude longitude
             (Z.min (Z.max days 1) 7)
             (default ""
                (if Py.str_truthy (Weather.environ w !! "OPENWEATHER_API_KEY")
                 then Weather.environ w !! "OPENWEATHER_API_KEY"
                 else Weather.environ w !! "WEATHER_API_KEY"))
         with
         | Ok result => Some result
         | Raise Py.HTTPError => None
         | Raise _ => None
         end
       else None)
    with
    | Some result => result
    | None => Weather._get_mock_weather_forecast w latitude longitude (Z.min (Z.max days 1) 7)
    end
    = match
        match WeatherSpec.secondary_credential w with
        | Some key =>
            match Weather._get_weather_from_openweathermap lower w latitude longitude
                    (Z.min (Z.max days 1) 7) key with
            | Ok r => Some r
            | Raise _ => None
            end
        | None => None
        end
      with
      | Some r => r
      | None => Weather._get_mock_weather_forecast w latitude longitude (Z.min (Z.max days 1) 7)
      end).
  { destruct (WeatherSpec.secondary_credential w) as [k'|].
    - destruct Hs as [Hk Ht]. rewrite Hk in Ht |- *. rewrite Ht.
      cbn [default from_option id].
      destruct (Weather._get_weather_from_openweathermap lower w latitude longitude _ k')
        as [r|[|]]; reflexivity.
    - now rewrite Hs. }
  destruct (WeatherSpec.primary_credential w tool_context) as [k|] eqn:Ep.
  - apply first_configured_nonempty in Ep. simpl. rewrite Ep. simpl.
    destruct (Weather._get_weather_from_google lower w latitude longitude _ k) as [r|[|]];
      [reflexivity | exact Hsecond | exact Hsecond].
  - exact Hsecond.
Qed.

Lemma map_condition_value_range (lower : string -> string) (v : Py.json) (label : string) :
  Weather.map_condition_value lower v = Ok label -> In label WeatherSpec.vocabulary.
Proof.
  destruct v; simpl; try discriminate. intros [= <-]. apply normalizer_range.
Qed.

Lemma google_day_condition (lower : string -> string) (forecast_date : Z)
    (day_data : Py.json) (d : Weather.forecast_day) :
  Weather.google_day lower forecast_date day_data = Ok d ->
  In (Weather.condition d) WeatherSpec.vocabulary /\ Weather.date d = forecast_date.
Proof.
  unfold Weather.google_day. intros H. bind_inv H.
  injection H as <-. cbn [Weather.condition Weather.date]. split; [|reflexivity].
  match goal with
  | E : Weather.map_condition_value _ _ = Ok _ |- _ => exact (map_condition_value_range _ _ _ E)
  end.
Qed.









(** A primary provider that answers 200 with an empty object returned no
    data point: every day is the default day. *)
Lemma google_empty_payload (lower : string -> string) (w : Weather.world)
    (latitude longitude : Q) (days : Z) (key body : string) :
  Weather.requests_get w (Weather.GoogleForecast key latitude longitude days)
    = Ok {| Weather.status_code := 200; Weather.text := body;
            Weather.json_body := Some (Py.JObj []) |} ->
  Weather._get_weather_from_google lower w latitude longitude days key
  = Ok {| Weather.status := "success";
          Weather.forecast :=
            map (fun i => Weather.default_day (Weather.today w + i)) (Weather.range days) |}.
Proof.
  intros H. unfold Weather._get_weather_from_google. rewrite H.
  cbn -[Weather.range Py.mapM Weather.google_entry].
  rewrite (mapM_total _ (fun i => Weather.default_day (Weather.today w + i))); [reflexivity|].
  intros i Hi. apply range_In in Hi. unfold Weather.google_entry.
  destruct (Z.ltb_spec i (Z.of_nat 0)); [lia | reflexivity].
Qed.

Lemma openweathermap_empty_payload (lower : string -> string) (w : Weather.world)
    (latitude longitude : Q) (days : Z) (key body : string) :
  Weather.requests_get w (Weather.OpenWeatherForecast latitude longitude key (days * 8))
    = Ok {| Weather.status_code := 200; Weather.text := body;
            Weather.json_body := Some (Py.JObj [("list", Py.JArr [])]) |} ->
  Weather._get_weather_from_openweathermap lower w latitude longitude days key
  = Ok {| Weather.status := "success";
          Weather.forecast :=
            map (fun i => Weather.default_day (Weather.today w + i)) (Weather.range days) |}.
Proof.
  intros H. unfold Weather._get_weather_from_openweathermap. rewrite H.
  cbn -[Weather.range Py.mapM Weather.openweather_entry].
  rewrite (mapM_total _ (fun i => Weather.default_day (Weather.today w + i))); [reflexivity|].
  intros i Hi. unfold Weather.openweather_entry. now rewrite lookup_empty.
Qed.

(** ** Failures of a provider call *)

Lemma not_found_raises (response : Weather.Response) :
  exists e, Weather.not_found response = Raise e.
Proof.
  unfold Weather.not_found.
  destruct (negb (String.eqb (Weather.text response) "")).
  - destruct (Weather.response_json response) as [error_data|e]; [|now exists e].
    cbn [Py.bind]. destruct (Py.get error_data "error" (Py.JObj [])) as [error|e]; [|now exists e].
    cbn [Py.bind].
    destruct (Py.get error "message" (Py.JStr (Weather.text response))) as [msg|e];
      [|now exists e].
    cbn [Py.bind]. destruct msg; eexists; reflexivity.
  - cbn. eexists; reflexivity.
Qed.

(** The primary tier raises when the request raises, when the status is
    an error status (404 included), and when the body does not decode. *)
Lemma google_failures (lower : string -> string) (w : Weather.world)
    (latitude longitude : Q) (days : Z) (key : string) :
  WeatherSpec.call_fails
    (Weather.requests_get w (Weather.GoogleForecast key latitude longitude days)) ->
  exists e, Weather._get_weather_from_google lower w latitude longitude days key = Raise e.
Proof.
  unfold Weather._get_weather_from_google, WeatherSpec.call_fails.
  destruct (Weather.requests_get w _) as [response|e]; [|intros _; now exists e].
  cbn [Py.bind]. intros H.
  destruct (Z.eqb (Weather.status_code response) 404).
  { destruct (not_found_raises response) as [e ->]. now exists e. }
  cbn [Py.bind]. unfold Weather.raise_for_status.
  destruct (Z.leb_spec 400 (Weather.status_code response));
    destruct (Z.ltb_spec (Weather.status_code response) 600); cbn [andb Py.bind];
    try (eexists; reflexivity).
  all: destruct H as [H|H]; try lia.
  all: unfold Weather.response_json; rewrite H; eexists; reflexivity.
Qed.

Lemma openweathermap_failures (lower : string -> string) (w : Weather.world)
    (latitude longitude : Q) (days : Z) (key : string) :
  WeatherSpec.call_fails
    (Weather.requests_get w
       (Weather.OpenWeatherForecast latitude longitude key (days * 8))) ->
  exists e, Weather._get_weather_from_openweathermap lower w latitude longitude days key
            = Raise e.
Proof.
  unfold Weather._get_weather_from_openweathermap, WeatherSpec.call_fails.
  destruct (Weather.requests_get w _) as [response|e]; [|intros _; now exists e].
  cbn [Py.bind]. intros H. unfold Weather.raise_for_status.
  destruct (Z.leb_spec 400 (Weather.status_code response));
    destruct (Z.ltb_spec (Weather.status_code response) 600); cbn [andb Py.bind];
    try (eexists; reflexivity).
  all: destruct H as [H|H]; try lia.
  all: unfold Weather.response_json; rewrite H; eexists; reflexivity.
Qed.

(** C1.  Whatever the coordinates, the number of days, the credentials
    and the behaviour of the two providers, [get_weather_forecast]
    returns a result of status "success": it is the three-tier resolver
    (primary, else secondary, else synthetic data), a tier without
    credential or whose call raises being skipped.  In particular the
    result is the synthetic forecast when no credential is configured,
    and when every request raises, answers with an error status (404
    included) or with a body that does not decode. *)
Theorem forecast_never_fails (lower : string -> string) (w : Weather.world)
    (latitude longitude : Q) (days : Z) (tool_context : option Adk.ToolContext) :
  Weather.status (Weather.get_weather_forecast lower w latitude longitude days tool_context)
    = "success" /\
  Weather.get_weather_forecast lower w latitude longitude days tool_context
    = WeatherSpec.resolve_forecast lower w latitude longitude days tool_context /\
  ((exists key, Weather._get_weather_from_google lower w latitude longitude
                  (WeatherSpec.clamp days) key
                = Ok (Weather.get_weather_forecast lower w latitude longitude days tool_context))
   \/
   (exists key, Weather._get_weather_from_openweathermap lower w latitude longitude
                  (WeatherSpec.clamp days) key
                = Ok (Weather.get_weather_forecast lower w latitude longitude days tool_context))
   \/
   Weather.get_weather_forecast lower w latitude longitude days tool_context
   = Weather._get_mock_weather_forecast w latitude longitude (WeatherSpec.clamp days)) /\
  ((forall key, exists e, Weather._get_weather_from_google lower w latitude longitude
                            (WeatherSpec.clamp days) key = Raise e) ->
   (forall key, exists e, Weather._get_weather_from_openweathermap lower w latitude longitude
                            (WeatherSpec.clamp days) key = Raise e) ->
   Weather.get_weather_forecast lower w latitude longitude days tool_context
   = Weather._get_mock_weather_forecast w latitude longitude (WeatherSpec.clamp days)) /\
  (WeatherSpec.no_credentials w tool_context ->
   Weather.get_weather_forecast lower w latitude longitude days tool_context
   = Weather._get_mock_weather_forecast w latitude longitude (WeatherSpec.clamp days)) /\
  ((forall key, WeatherSpec.call_fails
                  (Weather.requests_get w
                     (Weather.GoogleForecast key latitude longitude (WeatherSpec.clamp days)))) ->
   (forall key, WeatherSpec.call_fails
                  (Weather.requests_get w
                     (Weather.OpenWeatherForecast latitude longitude key
                        (WeatherSpec.clamp days * 8)))) ->
   Weather.get_weather_forecast lower w latitude longitude days tool_context
   = Weather._get_mock_weather_forecast w latitude longitude (WeatherSpec.clamp days)).
Proof.
  pose proof (forecast_source lower w latitude longitude days tool_context) as Hsrc.
  split; [|split; [|split; [|split; [|split]]]].
  - destruct Hsrc as [[key H] | [[key H] | H]].
    + exact (google_status _ _ _ _ _ _ _ H).
    + exact (openweathermap_status _ _ _ _ _ _ _ H).
    + rewrite H. reflexivity.
  - apply get_weather_forecast_resolve.
  - exact Hsrc.
  - intros Hg Ho. destruct Hsrc as [[key H] | [[key H] | H]].
    + destruct (Hg key) as [e He]. congruence.
    + destruct (Ho key) as [e He]. congruence.
    + exact H.
  - apply no_credentials_mock.
  - intros Hg Ho. destruct Hsrc as [[key H] | [[key H] | H]].
    + destruct (google_failures lower w latitude longitude _ key (Hg key)) as [e He].
      congruence.
    + destruct (openweathermap_failures lower w latitude longitude _ key (Ho key)) as [e He].
      congruence.
    + exact H.
Qed.

Lemma clamp_bounds (days : Z) : (1 <= WeatherSpec.clamp days <= 7)%Z.
Proof. unfold WeatherSpec.clamp. lia. Qed.



(** C3, as stated, fails: without credentials the three highs for
    (40.0, -73.0) are 23, 25 and 27, not 25, 27 and 29. *)
Lemma mock_highs_are_not_25_27_29 :
  map Weather.temperature_high
    (Weather.forecast
       (Weather.get_weather_forecast Py.str_lower (WeatherSpec.offline ∅ 739252)
          40 (-73) 3 None))
  = [23; 25; 27]%Z /\
  map Weather.temperature_high
    (Weather.forecast
       (Weather.get_weather_forecast Py.str_lower (WeatherSpec.offline ∅ 739252)
          40 (-73) 3 None))
  <> [25; 27; 29]%Z.
Proof.
  split; [vm_compute; reflexivity | vm_compute; discriminate].
Qed.

(** C3, amended.  With no credential configured, the 3-day forecast for
    (40.0, -73.0) has exactly 3 entries; their conditions are the first
    three of the cyclic sequence, their highs are 23, 25 and 27, that is
    [20 + ((i mod 3) * 2 - 2) + 5] for day [i], and all three are fit for
    outdoor training. *)
Theorem offline_three_day_forecast (lower : string -> string) (w : Weather.world)
    (tool_context : option Adk.ToolContext) :
  WeatherSpec.no_credentials w tool_context ->
  Weather.status (Weather.get_weather_forecast lower w 40 (-73) 3 tool_context) = "success" /\
  List.length (Weather.forecast (Weather.get_weather_forecast lower w 40 (-73) 3 tool_context))
    = 3%nat /\
  map Weather.condition
    (Weather.forecast (Weather.get_weather_forecast lower w 40 (-73) 3 tool_context))
    = firstn 3 Weather.mock_conditions /\
  map Weather.condition
    (Weather.forecast (Weather.get_weather_forecast lower w 40 (-73) 3 tool_context))
    = ["晴天"; "多云"; "晴天"] /\
  map Weather.temperature_high
    (Weather.forecast (Weather.get_weather_forecast lower w 40 (-73) 3 tool_context))
    = [23; 25; 27]%Z /\
  map Weather.temperature_high
    (Weather.forecast (Weather.get_weather_forecast lower w 40 (-73) 3 tool_context))
    = map (fun i => 20 + ((i mod 3) * 2 - 2) + 5)%Z [0; 1; 2]%Z /\
  map Weather.suitable_for_outdoor
    (Weather.forecast (Weather.get_weather_forecast lower w 40 (-73) 3 tool_context))
    = [true; true; true].
Proof.
  intros H. rewrite (no_credentials_mock lower w 40 (-73) 3 tool_context H).
  repeat split; reflexivity.
Qed.

Lemma offline_no_credentials (today : Z) : WeatherSpec.no_credentials (WeatherSpec.offline ∅ today) None.
Proof.
  unfold WeatherSpec.no_credentials, unconfigured. cbn [WeatherSpec.offline Weather.environ].
  rewrite !lookup_empty. repeat split; now left.
Qed.

Lemma offline_three_day_forecast_witness :
  map Weather.temperature_high
    (Weather.forecast
       (Weather.get_weather_forecast Py.str_lower (WeatherSpec.offline ∅ 739252)
          40 (-73) 3 None))
  = [23; 25; 27]%Z.
Proof.
  apply (offline_three_day_forecast Py.str_lower (WeatherSpec.offline ∅ 739252) None).
  apply offline_no_credentials.
Defined.

(* ================================================================== *)
(** * Venue search                                                      *)
(* ================================================================== *)

(** ** The stable sort *)

Lemma key_ltb_false (a b : Z * Q) : Venues.key_ltb b a = false <-> VenuesSpec.key_le a b.
Proof.
  unfold Venues.key_ltb, VenuesSpec.key_le. destruct a as [d1 r1], b as [d2 r2]. simpl.
  destruct (Z.eqb_spec d2 d1) as [->|Hne].
  - destruct (Qcompare_spec r2 r1) as [H|H|H]; split; intros H'; try discriminate;
      try reflexivity.
    + right. split; [reflexivity|]. rewrite H. apply Qle_refl.
    + destruct H' as [H'|[_ H']]; [lia|]. exfalso. exact (Qlt_not_le _ _ H H').
    + right. split; [reflexivity|]. now apply Qlt_le_weak.
  - rewrite Z.ltb_ge. split; [intros H; left; lia | intros [H|[H _]]; lia].
Qed.

Lemma key_ltb_true (a b : Z * Q) : Venues.key_ltb a b = true -> VenuesSpec.key_le a b.
Proof.
  unfold Venues.key_ltb, VenuesSpec.key_le. destruct a as [d1 r1], b as [d2 r2]. simpl.
  destruct (Z.eqb_spec d1 d2) as [->|Hne].
  - destruct (Qcompare_spec r1 r2) as [H|H|H]; try discriminate. intros _.
    right. split; [reflexivity|]. now apply Qlt_le_weak.
  - rewrite Z.ltb_lt. now left.
Qed.

Lemma key_le_trans (a b c : Z * Q) :
  VenuesSpec.key_le a b -> VenuesSpec.key_le b c -> VenuesSpec.key_le a c.
Proof.
  unfold VenuesSpec.key_le. intros [H1|[H1 H1']] [H2|[H2 H2']].
  - left. lia.
  - left. lia.
  - left. lia.
  - right. split; [lia|]. eapply Qle_trans; eassumption.
Qed.

Section KeyedSort.
Implicit Types (x y z : (Z * Q) * Venues.venue_info) (l : list ((Z * Q) * Venues.venue_info)).

Lemma insert_by_key_perm x l : Permutation (x :: l) (Venues.insert_by_key x l).
Proof.
  induction l as [|y l IH]; simpl; [reflexivity|].
  destruct (Venues.key_ltb (fst y) (fst x)); [|reflexivity].
  rewrite perm_swap. now apply perm_skip.
Qed.

Lemma insert_by_key_sorted x l :
  StronglySorted VenuesSpec.keyed_le l -> StronglySorted VenuesSpec.keyed_le (Venues.insert_by_key x l).
Proof.
  induction l as [|y l IH]; intros Hs; simpl.
  - repeat constructor.
  - inversion Hs as [|? ? Hl Hy]; subst.
    destruct (Venues.key_ltb (fst y) (fst x)) eqn:E.
    + constructor; [now apply IH|].
      apply List.Forall_forall. intros z Hz.
      apply (Permutation_in _ (Permutation_sym (insert_by_key_perm x l))) in Hz.
      destruct Hz as [<-|Hz].
      * now apply key_ltb_true.
      * rewrite List.Forall_forall in Hy. now apply Hy.
    + apply key_ltb_false in E. constructor; [assumption|].
      constructor; [exact E|].
      rewrite List.Forall_forall in Hy |- *. intros z Hz.
      eapply key_le_trans; [exact E | now apply Hy].
Qed.

Lemma sort_keyed_perm l : Permutation l (Venues.sort_keyed l).
Proof.
  induction l as [|x l IH]; simpl; [reflexivity|].
  etransitivity; [apply perm_skip, IH | apply insert_by_key_perm].
Qed.

Lemma sort_keyed_sorted l : StronglySorted VenuesSpec.keyed_le (Venues.sort_keyed l).
Proof.
  induction l as [|x l IH]; simpl; [constructor | now apply insert_by_key_sorted].
Qed.

End KeyedSort.

Lemma sort_key_ranks (a b : Venues.venue_info) (ka kb : Z * Q) :
  Venues.sort_key a = Ok ka -> Venues.sort_key b = Ok kb ->
  VenuesSpec.key_le ka kb -> VenuesSpec.ranks_before a b.
Proof.
  unfold Venues.sort_key, Py.as_number. intros Ha Hb.
  destruct (Py.number (Venues.rating a)) as [ra|] eqn:Ea; [|discriminate].
  destruct (Py.number (Venues.rating b)) as [rb|] eqn:Eb; [|discriminate].
  simpl in Ha, Hb. injection Ha as <-. injection Hb as <-.
  unfold VenuesSpec.key_le, VenuesSpec.ranks_before. simpl.
  intros [H|[H H']]; [now left|]. right. split; [exact H|].
  exists ra, rb. split; [exact Ea|]. split; [exact Eb|].
  apply Qopp_le_compat in H'. now rewrite !Qopp_involutive in H'.
Qed.

Lemma StronglySorted_map {A B : Type} (R : A -> A -> Prop) (R' : B -> B -> Prop)
    (f : A -> B) (l : list A) :
  (forall a b, In a l -> In b l -> R a b -> R' (f a) (f b)) ->
  StronglySorted R l -> StronglySorted R' (map f l).
Proof.
  intros HR Hs. induction Hs as [|a l Hs IH Ha]; simpl; constructor.
  - apply IH. intros x y Hx Hy. apply HR; now right.
  - rewrite List.Forall_forall in Ha. apply List.Forall_forall. intros y Hy.
    apply in_map_iff in Hy as (b & <- & Hb).
    apply HR; [now left | now right | now apply Ha].
Qed.

Lemma StronglySorted_app_l {A : Type} (R : A -> A -> Prop) (l1 l2 : list A) :
  StronglySorted R (l1 ++ l2) -> StronglySorted R l1.
Proof.
  induction l1 as [|a l1 IH]; simpl; intros H; [constructor|].
  inversion H as [|? ? Hs Ha]; subst. constructor; [now apply IH|].
  rewrite List.Forall_forall in Ha |- *. intros x Hx. apply Ha, in_or_app. now left.
Qed.

Lemma StronglySorted_firstn {A : Type} (R : A -> A -> Prop) (n : nat) (l : list A) :
  StronglySorted R l -> StronglySorted R (firstn n l).
Proof.
  intros H. rewrite <- (firstn_skipn n l) in H. now apply StronglySorted_app_l in H.
Qed.

Lemma StronglySorted_app_cross {A : Type} (R : A -> A -> Prop) (l1 l2 : list A) :
  StronglySorted R (l1 ++ l2) -> forall x y, In x l1 -> In y l2 -> R x y.
Proof.
  induction l1 as [|a l1 IH]; simpl; intros H x y Hx Hy; [destruct Hx|].
  inversion H as [|? ? Hs Ha]; subst. destruct Hx as [<-|Hx].
  - rewrite List.Forall_forall in Ha. apply Ha, in_or_app. now right.
  - now apply IH.
Qed.

Lemma NoDup_firstn {A : Type} (n : nat) (l : list A) : List.NoDup l -> List.NoDup (firstn n l).
Proof.
  intros H. rewrite <- (firstn_skipn n l) in H. now apply List.NoDup_app_remove_r in H.
Qed.

(** What [all_venues.sort] does when it returns: a rearrangement of the
    list, in the order of the result. *)
Lemma sort_venues_spec (l l' : list Venues.venue_info) :
  Venues.sort_venues l = Ok l' ->
  Permutation l l' /\ StronglySorted VenuesSpec.ranks_before l'.
Proof.
  unfold Venues.sort_venues. intros H. apply bind_Ok in H as (keyed & Hk & H).
  injection H as <-. apply mapM_Forall2 in Hk.
  assert (Hsnd : map snd keyed = l /\
                 Forall (fun kx => Venues.sort_key (snd kx) = Ok (fst kx)) keyed).
  { induction Hk as [|x kx l keyed Hx _ [IH1 IH2]]; [split; constructor|].
    apply bind_Ok in Hx as (k & Hkey & Hx). injection Hx as <-. simpl. split.
    - now rewrite IH1.
    - constructor; assumption. }
  destruct Hsnd as [<- Hkeys].
  pose proof (sort_keyed_perm keyed) as Hperm. split.
  - now apply Permutation_map.
  - apply (StronglySorted_map VenuesSpec.keyed_le); [|apply sort_keyed_sorted].
    intros a b Ha Hb Hab. rewrite List.Forall_forall in Hkeys.
    apply (Permutation_in _ (Permutation_sym Hperm)) in Ha, Hb.
    exact (sort_key_ranks _ _ _ _ (Hkeys a Ha) (Hkeys b Hb) Hab).
Qed.

(** ** Deduplication *)

Lemma key_eqb_refl (v : Py.json) : Py.hashable v = true -> Py.key_eqb v v = true.
Proof.
  destruct v; simpl; try discriminate; intros _; try reflexivity.
  - destruct b; reflexivity.
  - apply Qeq_bool_iff. reflexivity.
  - apply String.eqb_refl.
Qed.

Lemma seen_false (pid : Py.json) (ids : list Py.json) :
  Venues.seen pid ids = Ok false -> ~ In pid ids.
Proof.
  unfold Venues.seen. destruct (Py.hashable pid) eqn:Eh; [|discriminate].
  intros [= H] Hin. apply not_true_iff_false in H. apply H.
  apply existsb_exists. exists pid. split; [exact Hin | now apply key_eqb_refl].
Qed.

Section Collect.
Variable _calculate_distance : Q -> Q -> Q -> Q -> Py.result Q.
Variable _format_distance : Q -> string.
Variable gmaps_lib : Venues.googlemaps.

Lemma make_venue_place_id (latitude longitude : Q) (place pid : Py.json)
    (v : Venues.venue_info) :
  Venues.make_venue _calculate_distance _format_distance latitude longitude place pid = Ok v ->
  Venues.place_id v = pid.
Proof.
  unfold Venues.make_venue. intros H. bind_inv H. now injection H as <-.
Qed.

Lemma visit_place_collected (latitude longitude : Q) (st : Venues.search_state)
    (place : Py.json) :
  VenuesSpec.collected st ->
  VenuesSpec.collected (fst (Venues.visit_place _calculate_distance _format_distance
                    latitude longitude st place)).
Proof.
  intros [Hnd Hseen]. unfold Venues.visit_place.
  destruct (Py.get place "place_id" Py.JNull) as [pid|e]; [|now split].
  destruct (Py.truthy pid); simpl; [|now split].
  destruct (Venues.seen pid (Venues.seen_place_ids st)) as [[|]|e] eqn:Es; [now split| |now split].
  apply seen_false in Es.
  destruct (Venues.make_venue _ _ latitude longitude place pid) as [v|e] eqn:Ev; simpl.
  - apply make_venue_place_id in Ev.
    split; cbn [Venues.all_venues Venues.seen_place_ids].
    + rewrite List.map_app. simpl. rewrite Ev.
      apply List.NoDup_app; [exact Hnd | repeat constructor; intros [] | ].
      intros x Hx [<-|[]]. apply in_map_iff in Hx as (v' & <- & Hv'). 
      apply Es. now apply Hseen.
    + intros v' Hv'. apply in_app_or in Hv' as [Hv'|[<-|[]]].
      * right. now apply Hseen.
      * left. now rewrite Ev.
  - split; cbn [Venues.all_venues Venues.seen_place_ids]; [exact Hnd|].
    intros v' Hv'. right. now apply Hseen.
Qed.

Lemma visit_places_collected (latitude longitude : Q) (places : list Py.json)
    (st : Venues.search_state) :
  VenuesSpec.collected st ->
  VenuesSpec.collected (fst (Venues.visit_places _calculate_distance _format_distance
                    latitude longitude st places)).
Proof.
  revert st. induction places as [|place places IH]; intros st Hst; simpl; [exact Hst|].
  pose proof (visit_place_collected latitude longitude st place Hst) as H.
  destruct (Venues.visit_place _ _ latitude longitude st place) as [st' [u|e]]; simpl in H.
  - now apply IH.
  - exact H.
Qed.

Lemma search_type_collected (key : string) (latitude longitude : Q) (radius : Z)
    (st : Venues.search_state) (place_type : string) :
  VenuesSpec.collected st ->
  VenuesSpec.collected (Venues.search_type _calculate_distance _format_distance gmaps_lib
               key latitude longitude radius st place_type).
Proof.
  intros Hst. unfold Venues.search_type.
  destruct (Venues.places_nearby gmaps_lib key (latitude, longitude) radius place_type)
    as [places_result|e]; [|exact Hst].
  destruct (Py.bind _ _) as [places|e]; [|exact Hst].
  now apply visit_places_collected.
Qed.

Lemma search_types_collected (key : string) (latitude longitude : Q) (radius : Z)
    (place_types : list string) (st : Venues.search_state) :
  VenuesSpec.collected st ->
  VenuesSpec.collected (fold_left (Venues.search_type _calculate_distance _format_distance gmaps_lib
                          key latitude longitude radius) place_types st).
Proof.
  revert st. induction place_types as [|t ts IH]; intros st Hst; simpl; [exact Hst|].
  apply IH. now apply search_type_collected.
Qed.

Lemma visit_places_appends (latitude longitude : Q) (places : list Py.json)
    (st : Venues.search_state) :
  exists added,
    Venues.all_venues (fst (Venues.visit_places _calculate_distance _format_distance
                              latitude longitude st places))
    = (Venues.all_venues st ++ added)%list.
Proof.
  revert st. induction places as [|place places IH]; intros st; simpl.
  - exists []. now rewrite app_nil_r.
  - assert (Hone : exists added,
              Venues.all_venues (fst (Venues.visit_place _calculate_distance _format_distance
                                        latitude longitude st place))
              = (Venues.all_venues st ++ added)%list).
    { unfold Venues.visit_place.
      destruct (Py.get place "place_id" Py.JNull) as [pid|e];
        [|exists []; now rewrite app_nil_r].
      destruct (Py.truthy pid); simpl; [|exists []; now rewrite app_nil_r].
      destruct (Venues.seen pid (Venues.seen_place_ids st)) as [[|]|e];
        try (exists []; now rewrite app_nil_r).
      destruct (Venues.make_venue _ _ latitude longitude place pid) as [v|e]; simpl.
      - now exists [v].
      - exists []. now rewrite app_nil_r. }
    destruct Hone as [added1 H1].
    destruct (Venues.visit_place _ _ latitude longitude st place) as [st' [u|e]];
      simpl in H1 |- *.
    + destruct (IH st') as [added2 H2]. exists (added1 ++ added2)%list.
      now rewrite H2, H1, app_assoc.
    + now exists added1.
Qed.

(** A search for one more place type only appends: what an earlier
    type contributed stays, in place and unchanged. *)
Lemma search_type_appends (key : string) (latitude longitude : Q) (radius : Z)
    (st : Venues.search_state) (place_type : string) :
  exists added,
    Venues.all_venues (Venues.search_type _calculate_distance _format_distance gmaps_lib
                         key latitude longitude radius st place_type)
    = (Venues.all_venues st ++ added)%list.
Proof.
  unfold Venues.search_type.
  destruct (Venues.places_nearby gmaps_lib key (latitude, longitude) radius place_type)
    as [places_result|e]; [|exists []; now rewrite app_nil_r].
  destruct (Py.bind _ _) as [places|e]; [|exists []; now rewrite app_nil_r].
  apply visit_places_appends.
Qed.

End Collect.

Lemma slice_to_firstn {A : Type} (l : list A) (n : Z) :
  (0 <= n)%Z -> Venues.slice_to l n = firstn (Z.to_nat n) l.
Proof. intros H. unfold Venues.slice_to. apply Z.leb_le in H. now rewrite H. Qed.

Lemma slice_to_prefix {A : Type} (l : list A) (n : Z) :
  exists k, Venues.slice_to l n = firstn k l.
Proof. unfold Venues.slice_to. destruct (Z.leb 0 n); eexists; reflexivity. Qed.

(** A negative bound of a slice counts from the end. *)
Example slice_to_negative :
  Venues.slice_to [1; 2; 3]%Z (-1) = [1; 2]%Z /\ Venues.slice_to [1; 2; 3]%Z (-5) = [].
Proof. split; reflexivity. Qed.

(** ** The search as a function of the credential *)

Section SearchFacts.
Variable lower : string -> string.
Variable _calculate_distance : Q -> Q -> Q -> Q -> Py.result Q.
Variable _format_distance : Q -> string.

Lemma search_by_credential (gmaps_lib : Venues.googlemaps) (environ : gmap string string)
    (latitude longitude : Q) (sport_type : string) (radius max_results : Z)
    (tool_context : option Adk.ToolContext) :
  Venues.search_nearby_venues lower _calculate_distance _format_distance gmaps_lib
    environ latitude longitude sport_type radius max_results tool_context
  = match SearchSpec.credential environ tool_context with
    | None =>
        {| Venues.status := "error"; Venues.venues := [];
           Venues.error_message := Some (Venues.Literal "Google Maps API key not configured");
           Venues.sport_type := None; Venues.search_location := None |}
    | Some key =>
        match (let! _ := Venues.Client gmaps_lib key in
               let! sorted :=
                 Venues.sort_venues
                   (Venues.all_venues
                      (fold_left
                         (Venues.search_type _calculate_distance _format_distance gmaps_lib
                            key latitude longitude radius)
                         (Venues._map_sport_to_place_types lower sport_type)
                         {| Venues.all_venues := []; Venues.seen_place_ids := [] |})) in
               Ok (Venues.slice_to sorted max_results)) with
        | Ok vs =>
            {| Venues.status := "success"; Venues.venues := vs; Venues.error_message := None;
               Venues.sport_type := Some sport_type;
               Venues.search_location := Some (latitude, longitude) |}
        | Raise e =>
            {| Venues.status := "error"; Venues.venues := [];
               Venues.error_message := Some (Venues.StrOf e);
               Venues.sport_type := None; Venues.search_location := None |}
        end
    end.
Proof.
  pose proof (primary_key (WeatherSpec.offline environ 0) tool_context) as Hkey.
  cbv zeta in Hkey. cbn [WeatherSpec.offline Weather.environ] in Hkey.
  unfold Venues.search_nearby_venues. cbv zeta. rewrite Hkey.
  change (WeatherSpec.primary_credential (WeatherSpec.offline environ 0) tool_context)
    with (SearchSpec.credential environ tool_context).
  destruct (SearchSpec.credential environ tool_context) as [key|] eqn:E; [|reflexivity].
  apply first_configured_nonempty in E.
  change (default "" (Some key)) with key. cbn [Py.str_truthy]. rewrite E.
  reflexivity.
Qed.

End SearchFacts.

(** C5.  Without a places-provider credential the search returns the
    error result: status "error", no venue, and the message of the
    source; the provider is not consulted. *)
Theorem venues_need_a_credential
    (lower : string -> string)
    (_calculate_distance : Q -> Q -> Q -> Q -> Py.result Q)
    (_format_distance : Q -> string)
    (gmaps_lib : Venues.googlemaps)
    (environ : gmap string string)
    (latitude longitude : Q) (sport_type : string) (radius max_results : Z)
    (tool_context : option Adk.ToolContext) :
  VenuesSpec.no_credential environ tool_context ->
  Venues.search_nearby_venues lower _calculate_distance _format_distance gmaps_lib
    environ latitude longitude sport_type radius max_results tool_context
  = {| Venues.status := "error";
       Venues.venues := [];
       Venues.error_message := Some (Venues.Literal "Google Maps API key not configured");
       Venues.sport_type := None;
       Venues.search_location := None |}.
Proof.
  intros (Hctx & Hg & Hm). unfold Venues.search_nearby_venues.
  rewrite (str_or_unconfigured _ _ Hg Hm).
  destruct tool_context as [tc|]; [destruct Hctx as [-> | ->]|]; reflexivity.
Qed.

Lemma venues_need_a_credential_witness :
  Venues.status
    (Venues.search_nearby_venues Py.str_lower VenuesSpec.scenario_distance
       VenuesSpec.scenario_format VenuesSpec.scenario_lib ∅ 40 (-73) "gym" 2000 5 None)
  = "error".
Proof.
  rewrite (venues_need_a_credential Py.str_lower VenuesSpec.scenario_distance
             VenuesSpec.scenario_format VenuesSpec.scenario_lib ∅ 40 (-73) "gym" 2000 5 None).
  - reflexivity.
  - unfold VenuesSpec.no_credential, unconfigured. rewrite !lookup_empty.
    repeat split; now left.
Defined.

(** C6, as stated, fails for a negative [max_results]: of the three
    venues of the scenario the slice [all_venues[:-2]] keeps the first,
    one venue where the claim allows at most [-2]. *)
Lemma negative_max_results_keeps_a_venue :
  map Venues.place_id
    (Venues.venues
       (Venues.search_nearby_venues Py.str_lower VenuesSpec.scenario_distance
          VenuesSpec.scenario_format VenuesSpec.scenario_lib VenuesSpec.scenario_environ
          40 (-73) "gym" 2000 (-2) None))
  = [Py.JStr "C"] /\
  ~ (Z.of_nat
       (List.length
          (Venues.venues
             (Venues.search_nearby_venues Py.str_lower VenuesSpec.scenario_distance
                VenuesSpec.scenario_format VenuesSpec.scenario_lib VenuesSpec.scenario_environ
                40 (-73) "gym" 2000 (-2) None)))
     <= -2)%Z.
Proof. split; [vm_compute; reflexivity | vm_compute; intros H; now apply H]. Qed.

(** C6, amended.  The venues returned carry pairwise distinct place
    identifiers and are in order of distance, the better rating first at
    equal distance; for a non-negative [max_results] they are at most
    [max_results].  A successful search returns the head of the list of
    all venues found, sorted in that order: its first [max_results]
    entries when [max_results] is not negative, so that no venue left
    out ranks before a venue returned, and all but its last
    [- max_results] entries otherwise.  A later place type only appends
    to what the earlier ones found, so the first occurrence of an
    identifier is the one kept.  For A (500 m, 4.0), B (500 m, 4.5) and
    C (300 m, 2.0), with B found a second time under the next place
    type, the result is [C; B; A] with the first B. *)
Theorem venues_distinct_ranked_truncated
    (lower : string -> string)
    (_calculate_distance : Q -> Q -> Q -> Q -> Py.result Q)
    (_format_distance : Q -> string)
    (gmaps_lib : Venues.googlemaps)
    (environ : gmap string string)
    (latitude longitude : Q) (sport_type : string) (radius max_results : Z)
    (tool_context : option Adk.ToolContext) :
  List.NoDup
    (map Venues.place_id
       (Venues.venues
          (Venues.search_nearby_venues lower _calculate_distance _format_distance gmaps_lib
             environ latitude longitude sport_type radius max_results tool_context))) /\
  StronglySorted VenuesSpec.ranks_before
    (Venues.venues
       (Venues.search_nearby_venues lower _calculate_distance _format_distance gmaps_lib
          environ latitude longitude sport_type radius max_results tool_context)) /\
  ((0 <= max_results)%Z ->
   (Z.of_nat (List.length
      (Venues.venues
         (Venues.search_nearby_venues lower _calculate_distance _format_distance gmaps_lib
            environ latitude longitude sport_type radius max_results tool_context)))
    <= max_results)%Z) /\
  (forall key,
     SearchSpec.credential environ tool_context = Some key ->
     Venues.status
       (Venues.search_nearby_venues lower _calculate_distance _format_distance gmaps_lib
          environ latitude longitude sport_type radius max_results tool_context) = "success" ->
     exists sorted,
       Permutation
         (VenuesSpec.found lower _calculate_distance _format_distance gmaps_lib key
            latitude longitude sport_type radius) sorted /\
       StronglySorted VenuesSpec.ranks_before sorted /\
       ((0 <= max_results)%Z ->
        Venues.venues
          (Venues.search_nearby_venues lower _calculate_distance _format_distance gmaps_lib
             environ latitude longitude sport_type radius max_results tool_context)
        = firstn (Z.to_nat max_results) sorted) /\
       ((max_results < 0)%Z ->
        Venues.venues
          (Venues.search_nearby_venues lower _calculate_distance _format_distance gmaps_lib
             environ latitude longitude sport_type radius max_results tool_context)
        = firstn (List.length sorted - Z.to_nat (- max_results)) sorted) /\
       ((0 <= max_results)%Z ->
        forall returned left_out,
          In returned
            (Venues.venues
               (Venues.search_nearby_venues lower _calculate_distance _format_distance
                  gmaps_lib environ latitude longitude sport_type radius max_results
                  tool_context)) ->
          In left_out
            (VenuesSpec.found lower _calculate_distance _format_distance gmaps_lib key
               latitude longitude sport_type radius) ->
          ~ In left_out
              (Venues.venues
                 (Venues.search_nearby_venues lower _calculate_distance _format_distance
                    gmaps_lib environ latitude longitude sport_type radius max_results
                    tool_context)) ->
          VenuesSpec.ranks_before returned left_out)) /\
  (forall key st place_type, exists added,
     Venues.all_venues (Venues.search_type _calculate_distance _format_distance gmaps_lib
                          key latitude longitude radius st place_type)
     = (Venues.all_venues st ++ added)%list) /\
  map (fun v => (Venues.place_id v, Venues.name v, Venues.distance_meters v, Venues.rating v))
    (Venues.venues
       (Venues.search_nearby_venues Py.str_lower VenuesSpec.scenario_distance
          VenuesSpec.scenario_format VenuesSpec.scenario_lib VenuesSpec.scenario_environ
          40 (-73) "gym" 2000 5 None))
  = [ (Py.JStr "C", Py.JStr "C", 300%Z, Py.JNum 2.0);
      (Py.JStr "B", Py.JStr "B", 500%Z, Py.JNum 4.5);
      (Py.JStr "A", Py.JStr "A", 500%Z, Py.JNum 4.0) ].
Proof.
  split; [|split; [|split; [|split; [|split]]]];
    [ | | intros Hmax | intros key Hkey Hstatus
      | intros key st place_type; apply search_type_appends | vm_compute; reflexivity ].
  4: { rewrite search_by_credential, Hkey in Hstatus |- *.
       fold (VenuesSpec.found lower _calculate_distance _format_distance gmaps_lib key
               latitude longitude sport_type radius) in Hstatus |- *.
       destruct (Venues.Client gmaps_lib key) as [[]|e]; [|discriminate Hstatus].
       cbn [Py.bind] in Hstatus |- *.
       destruct (Venues.sort_venues _) as [sorted|e] eqn:Hsort; [|discriminate Hstatus].
       cbn [Py.bind Venues.venues]. clear Hstatus.
       apply sort_venues_spec in Hsort as [Hperm Hsorted].
       exists sorted. split; [exact Hperm|]. split; [exact Hsorted|].
       split; [|split].
       - intros Hmax. now apply slice_to_firstn.
       - intros Hmax. unfold Venues.slice_to.
         destruct (Z.leb_spec 0 max_results); [lia | reflexivity].
       - intros Hmax returned left_out Hin Hfound Hout.
         rewrite (slice_to_firstn _ _ Hmax) in Hin, Hout.
         apply (Permutation_in _ Hperm) in Hfound.
         rewrite <- (firstn_skipn (Z.to_nat max_results) sorted) in Hfound, Hsorted.
         apply in_app_or in Hfound as [Hfound|Hfound]; [contradiction|].
         exact (StronglySorted_app_cross _ _ _ Hsorted _ _ Hin Hfound). }
  all: unfold Venues.search_nearby_venues.
  all: match goal with
       | |- context [if negb (Py.str_truthy ?k) then _ else _] =>
           destruct (negb (Py.str_truthy k))
       end;
       [simpl; first [constructor | lia]|].
  all: match goal with
       | |- context [match ?c with Ok _ => _ | Raise _ => _ end] =>
           destruct c as [vs|e] eqn:Hattempt
       end;
       [|simpl; first [constructor | lia]].
  all: cbn [Venues.venues].
  all: apply bind_Ok in Hattempt as (u & _ & Hattempt).
  all: apply bind_Ok in Hattempt as (sorted & Hsort & Hattempt).
  all: injection Hattempt as <-.
  all: apply sort_venues_spec in Hsort as [Hperm Hsorted].
  - destruct (slice_to_prefix sorted max_results) as [k ->].
    rewrite <- firstn_map. apply NoDup_firstn.
    refine (Permutation_NoDup (Permutation_map _ Hperm) _).
    apply search_types_collected. split; [constructor | intros v []].
  - destruct (slice_to_prefix sorted max_results) as [k ->].
    now apply StronglySorted_firstn.
  - rewrite (slice_to_firstn _ _ Hmax).
    pose proof (firstn_le_length (Z.to_nat max_results) sorted). lia.
Qed.

Lemma venues_distinct_ranked_truncated_witness :
  (Z.of_nat (List.length
     (Venues.venues
        (Venues.search_nearby_venues Py.str_lower VenuesSpec.scenario_distance
           VenuesSpec.scenario_format VenuesSpec.scenario_lib VenuesSpec.scenario_environ
           40 (-73) "gym" 2000 2 None)))
   <= 2)%Z /\
  exists sorted,
    Permutation
      (VenuesSpec.found Py.str_lower VenuesSpec.scenario_distance VenuesSpec.scenario_format
         VenuesSpec.scenario_lib "scenario-key" 40 (-73) "gym" 2000) sorted /\
    StronglySorted VenuesSpec.ranks_before sorted /\
    Venues.venues
      (Venues.search_nearby_venues Py.str_lower VenuesSpec.scenario_distance
         VenuesSpec.scenario_format VenuesSpec.scenario_lib VenuesSpec.scenario_environ
         40 (-73) "gym" 2000 2 None)
    = firstn 2 sorted.
Proof.
  destruct (venues_distinct_ranked_truncated Py.str_lower VenuesSpec.scenario_distance
              VenuesSpec.scenario_format VenuesSpec.scenario_lib VenuesSpec.scenario_environ
              40 (-73) "gym" 2000 2 None) as (_ & _ & Hlen & Hhead & _).
  split; [apply Hlen; lia|].
  destruct (Hhead "scenario-key") as (sorted & Hperm & Hsorted & Hfirst & _).
  - vm_compute. reflexivity.
  - vm_compute. reflexivity.
  - exists sorted. split; [exact Hperm|]. split; [exact Hsorted|]. apply Hfirst. lia.
Defined.

(* ================================================================== *)
(** * The secondary tier                                                *)
(* ================================================================== *)

Import OpenWeatherSpec.

Lemma item_dt (s : sample) : Py.getitem (item_of_sample s) "dt" = Ok (Py.JNum (sample_dt s)).
Proof. reflexivity. Qed.

Lemma item_main (s : sample) :
  Py.getitem (item_of_sample s) "main"
  = Ok (Py.JObj [("temp", Py.JNum (sample_temp s)); ("humidity", Py.JNum (sample_humidity s))]).
Proof. reflexivity. Qed.

Lemma item_weather (s : sample) :
  Py.getitem (item_of_sample s) "weather"
  = Ok (Py.JArr [Py.JObj [("main", Py.JStr (sample_condition s))]]).
Proof. reflexivity. Qed.

Lemma item_wind (s : sample) :
  (let! wind := Py.get (item_of_sample s) "wind" (Py.JObj []) in
   let! speed := Py.get wind "speed" (Py.JNum 0) in
   Py.as_number speed)
  = Ok (default 0%Q (sample_wind s)).
Proof.
  unfold item_of_sample. destruct (sample_wind s), (sample_rain s), (sample_snow s); reflexivity.
Qed.

Lemma item_rain (s : sample) :
  Weather.precipitation_3h (item_of_sample s) "rain" = Ok (Py.JNum (default 0%Q (sample_rain s))).
Proof.
  unfold item_of_sample. destruct (sample_wind s), (sample_rain s), (sample_snow s); reflexivity.
Qed.

Lemma item_snow (s : sample) :
  Weather.precipitation_3h (item_of_sample s) "snow" = Ok (Py.JNum (default 0%Q (sample_snow s))).
Proof.
  unfold item_of_sample. destruct (sample_wind s), (sample_rain s), (sample_snow s); reflexivity.
Qed.

Lemma add_item_sample (w : Weather.world) (daily : gmap Z Weather.day_bucket) (s : sample) :
  Weather.fromtimestamp_date w (sample_dt s) = Ok (sample_date s) ->
  Weather.add_item w daily (item_of_sample s)
  = Ok (<[sample_date s :=
            extend (default Weather.empty_bucket (daily !! sample_date s)) s]> daily).
Proof.
  intros Hdate. unfold Weather.add_item. rewrite item_dt.
  cbn [Py.bind Py.as_number Py.number]. rewrite Hdate. cbn [Py.bind].
  rewrite item_main. cbn [Py.bind Py.getitem Py.dict_get String.eqb Ascii.eqb Bool.eqb].
  rewrite item_weather.
  cbn [Py.bind Py.getitem Py.getitem_int nth_error Py.dict_get String.eqb Ascii.eqb Bool.eqb].
  rewrite item_rain, item_snow.
  unfold item_of_sample, extend, wind_kmh, precipitation_mm.
  destruct (sample_wind s), (sample_rain s), (sample_snow s); reflexivity.
Qed.

Lemma extend_bucket_of (b : list sample) (s : sample) :
  extend (bucket_of b) s = bucket_of (b ++ [s]).
Proof. unfold extend, bucket_of. cbn [Weather.temps Weather.conditions Weather.humidities
  Weather.wind_speeds Weather.precipitation]. now rewrite !List.map_app. Qed.

Lemma on_date_app (d : Z) (l1 l2 : list sample) :
  on_date d (l1 ++ l2) = (on_date d l1 ++ on_date d l2)%list.
Proof. apply List.filter_app. Qed.

Lemma represents_extend (seen : list sample) (daily : gmap Z Weather.day_bucket) (s : sample) :
  represents seen daily ->
  represents (seen ++ [s])
    (<[sample_date s := extend (default Weather.empty_bucket (daily !! sample_date s)) s]> daily).
Proof.
  intros Hrep d. rewrite on_date_app. unfold on_date at 2 4. cbn [List.filter].
  destruct (Z.eqb_spec (sample_date s) d) as [<-|Hne].
  - rewrite lookup_insert_eq, (Hrep (sample_date s)).
    destruct (on_date (sample_date s) seen) as [|s0 b] eqn:E.
    + reflexivity.
    + cbn [default from_option id]. now rewrite extend_bucket_of.
  - rewrite lookup_insert_ne by exact Hne. rewrite (Hrep d), app_nil_r. reflexivity.
Qed.

Lemma add_items_samples (w : Weather.world) (samples seen : list sample)
    (daily : gmap Z Weather.day_bucket) :
  (forall s, In s samples -> Weather.fromtimestamp_date w (sample_dt s) = Ok (sample_date s)) ->
  represents seen daily ->
  exists daily',
    Weather.add_items w daily (map item_of_sample samples) = Ok daily' /\
    represents (seen ++ samples) daily'.
Proof.
  revert seen daily. induction samples as [|s samples IH]; intros seen daily Hdates Hrep.
  - exists daily. split; [reflexivity | now rewrite app_nil_r].
  - cbn [map Weather.add_items].
    rewrite (add_item_sample w daily s (Hdates s (or_introl eq_refl))). cbn [Py.bind].
    destruct (IH (seen ++ [s])%list _ (fun x Hx => Hdates x (or_intror Hx))
                 (represents_extend seen daily s Hrep)) as (daily' & Hadd & Hrep').
    exists daily'. split; [exact Hadd|].
    now rewrite <- app_assoc in Hrep'.
Qed.

(** ** Counting conditions *)

Lemma count_condition_lift (counts : list (string * nat)) (c : string) :
  Weather.count_condition (lift_counts counts) (Py.JStr c) = lift_counts (count_string counts c).
Proof.
  induction counts as [|[k n] counts IH]; [reflexivity|].
  cbn [lift_counts map Weather.count_condition count_string fst snd].
  change (Py.key_eqb (Py.JStr c) (Py.JStr k)) with (String.eqb c k).
  destruct (String.eqb c k); [reflexivity|].
  fold (lift_counts counts). rewrite IH. reflexivity.
Qed.

Lemma count_conditions_lift (cs : list string) (acc : list (string * nat)) :
  fold_left Weather.count_condition (map Py.JStr cs) (lift_counts acc)
  = lift_counts (fold_left count_string cs acc).
Proof.
  revert acc. induction cs as [|c cs IH]; intros acc; [reflexivity|].
  cbn [map fold_left]. now rewrite count_condition_lift, IH.
Qed.

Lemma count_of_count_string (counts : list (string * nat)) (c c' : string) :
  count_of (count_string counts c) c'
  = if String.eqb c c' then S (count_of counts c') else count_of counts c'.
Proof.
  unfold count_of. induction counts as [|[k n] counts IH]; cbn [count_string Py.dict_get].
  - rewrite (String.eqb_sym c' c). now destruct (String.eqb c c').
  - destruct (String.eqb_spec c k) as [->|Hck]; cbn [Py.dict_get].
    + destruct (String.eqb_spec c' k) as [->|Hc'k].
      * now rewrite String.eqb_refl.
      * apply not_eq_sym in Hc'k. apply String.eqb_neq in Hc'k. now rewrite Hc'k.
    + destruct (String.eqb_spec c' k) as [->|Hc'k].
      * apply String.eqb_neq in Hck. now rewrite Hck.
      * exact IH.
Qed.

Lemma count_of_fold (cs : list string) (acc : list (string * nat)) (c' : string) :
  count_of (fold_left count_string cs acc) c' = (count_of acc c' + occurrences c' cs)%nat.
Proof.
  revert acc. induction cs as [|c cs IH]; intros acc; cbn [fold_left].
  - unfold occurrences. simpl. lia.
  - rewrite IH, count_of_count_string. unfold occurrences. cbn [count_occ].
    destruct (String.string_dec c c') as [->|Hne].
    + rewrite String.eqb_refl. lia.
    + apply String.eqb_neq in Hne. rewrite Hne. lia.
Qed.

Lemma dict_get_not_In {V : Type} (d : list (string * V)) (k : string) :
  Py.dict_get d k = None -> ~ In k (map fst d).
Proof.
  induction d as [|[k' v] d IH]; cbn [Py.dict_get map fst]; [intros _ []|].
  destruct (String.eqb_spec k k') as [->|Hne]; [discriminate|].
  intros H [Heq|Hin]; [congruence | now apply IH].
Qed.

Lemma count_string_keys (counts : list (string * nat)) (c : string) :
  map fst (count_string counts c)
  = match Py.dict_get counts c with
    | Some _ => map fst counts
    | None => (map fst counts ++ [c])%list
    end.
Proof.
  induction counts as [|[k n] counts IH]; cbn [count_string Py.dict_get map fst];
    [reflexivity|].
  destruct (String.eqb c k); [reflexivity|].
  cbn [map fst]. rewrite IH. now destruct (Py.dict_get counts c).
Qed.

Lemma count_string_NoDup (counts : list (string * nat)) (c : string) :
  List.NoDup (map fst counts) -> List.NoDup (map fst (count_string counts c)).
Proof.
  intros H. rewrite count_string_keys.
  destruct (Py.dict_get counts c) eqn:E; [exact H|].
  apply List.NoDup_app; [exact H | repeat constructor; intros [] |].
  intros x Hx [<-|[]]. exact (dict_get_not_In _ _ E Hx).
Qed.

Lemma count_fold_NoDup (cs : list string) (acc : list (string * nat)) :
  List.NoDup (map fst acc) -> List.NoDup (map fst (fold_left count_string cs acc)).
Proof.
  revert acc. induction cs as [|c cs IH]; intros acc H; cbn [fold_left]; [exact H|].
  apply IH. now apply count_string_NoDup.
Qed.

Lemma count_of_In (counts : list (string * nat)) (k : string) (n : nat) :
  List.NoDup (map fst counts) -> In (k, n) counts -> count_of counts k = n.
Proof.
  unfold count_of. induction counts as [|[k' n'] counts IH]; [intros _ []|].
  cbn [map fst Py.dict_get]. intros Hnd [Heq|Hin].
  - injection Heq as -> ->. now rewrite String.eqb_refl.
  - inversion Hnd as [|? ? Hnotin Hnd']; subst.
    destruct (String.eqb_spec k k') as [->|Hne].
    + exfalso. apply Hnotin. now apply (in_map fst) in Hin.
    + now apply IH.
Qed.

Lemma In_count_of (counts : list (string * nat)) (c : string) :
  (0 < count_of counts c)%nat -> In (c, count_of counts c) counts.
Proof.
  unfold count_of. induction counts as [|[k n] counts IH]; cbn [Py.dict_get].
  - cbn. lia.
  - destruct (String.eqb_spec c k) as [->|Hne]; [now left | intros H; right; now apply IH].
Qed.

(** The fold of [max] with a key: an element of the list, of greatest
    key. *)
Lemma fold_max_spec {A : Type} (key : A -> nat) (rest : list A) (first : A) :
  let best := fold_left (fun best x => if Nat.ltb (key best) (key x) then x else best)
                rest first in
  In best (first :: rest) /\ forall x, In x (first :: rest) -> (key x <= key best)%nat.
Proof.
  revert first. induction rest as [|y rest IH]; intros first; cbn [fold_left].
  - split; [now left | intros x [<-|[]]; lia].
  - destruct (Nat.ltb_spec (key first) (key y)) as [Hlt|Hge].
    + destruct (IH y) as [Hin Hmax]. split.
      * right. exact Hin.
      * intros x [<-|Hx]; [|now apply Hmax].
        specialize (Hmax y (or_introl eq_refl)). lia.
    + destruct (IH first) as [Hin Hmax]. split.
      * destruct Hin as [<-|Hin]; [now left | right; now right].
      * intros x [<-|[<-|Hx]].
        -- apply Hmax. now left.
        -- specialize (Hmax first (or_introl eq_refl)). lia.
        -- apply Hmax. now right.
Qed.

Lemma most_common_lift (counts : list (string * nat)) :
  counts <> [] ->
  exists m n, Weather.most_common (lift_counts counts) = Ok (Py.JStr m) /\
              In (m, n) counts /\ forall k n', In (k, n') counts -> (n' <= n)%nat.
Proof.
  destruct counts as [|first rest]; [congruence|]. intros _.
  cbn [lift_counts map Weather.most_common].
  pose proof (fold_max_spec snd rest first) as [Hin Hmax]. cbv zeta in Hin, Hmax.
  set (best := fold_left (fun best x => if Nat.ltb (snd best) (snd x) then x else best)
                 rest first) in *.
  exists (fst best), (snd best). split; [|split].
  - f_equal.
    assert (Hfold : forall rest0 first0,
      fold_left (fun best kn => if Nat.ltb (snd best) (snd kn) then kn else best)
        (map (fun kn : string * nat => (Py.JStr (fst kn), snd kn)) rest0)
        (Py.JStr (fst first0), snd first0)
      = (Py.JStr (fst (fold_left (fun best x => if Nat.ltb (snd best) (snd x) then x else best)
                        rest0 first0)),
         snd (fold_left (fun best x => if Nat.ltb (snd best) (snd x) then x else best)
                rest0 first0))).
    { induction rest0 as [|y rest0 IH]; intros first0; [reflexivity|].
      cbn [map fold_left fst snd]. destruct (Nat.ltb (snd first0) (snd y)); apply IH. }
    now rewrite Hfold.
  - now destruct best.
  - intros k n' Hk. exact (Hmax (k, n') Hk).
Qed.

(** The most common condition of a non-empty list of strings is a mode
    of the list. *)
Lemma most_common_is_mode (cs : list string) :
  cs <> [] ->
  exists counts m,
    Weather.count_conditions (map Py.JStr cs) = Ok counts /\
    Weather.most_common counts = Ok (Py.JStr m) /\ is_mode m cs.
Proof.
  intros Hne. unfold Weather.count_conditions.
  assert (Hhash : forallb Py.hashable (map Py.JStr cs) = true)
    by (apply forallb_forall; intros x Hx; apply in_map_iff in Hx as (c & <- & _); reflexivity).
  rewrite Hhash.
  change (@nil (Py.json * nat)) with (lift_counts []). rewrite count_conditions_lift.
  set (counts := fold_left count_string cs []).
  assert (Hnd : List.NoDup (map fst counts)) by (apply count_fold_NoDup; constructor).
  assert (Hcount : forall c, count_of counts c = occurrences c cs)
    by (intros c; unfold counts; now rewrite count_of_fold).
  assert (Hin : forall c, In c cs -> In (c, occurrences c cs) counts).
  { intros c Hc. rewrite <- Hcount. apply In_count_of. rewrite Hcount.
    unfold occurrences. now apply count_occ_In. }
  destruct cs as [|c0 cs']; [congruence|].
  assert (Hnonempty : counts <> []).
  { intros E. specialize (Hin c0 (or_introl eq_refl)). rewrite E in Hin. exact Hin. }
  destruct (most_common_lift counts Hnonempty) as (m & n & Hm & Hmn & Hmax).
  exists (lift_counts counts), m. split; [reflexivity|]. split; [exact Hm|].
  pose proof (count_of_In counts m n Hnd Hmn) as Hn. rewrite Hcount in Hn.
  assert (Hpos : (0 < n)%nat).
  { specialize (Hmax _ _ (Hin c0 (or_introl eq_refl))).
    assert ((0 < occurrences c0 (c0 :: cs'))%nat)
      by (unfold occurrences; apply count_occ_In; now left).
    lia. }
  split.
  - apply (count_occ_In String.string_dec). fold (occurrences m (c0 :: cs')). lia.
  - intros c. destruct (in_dec String.string_dec c (c0 :: cs')) as [Hc|Hc].
    + rewrite Hn. exact (Hmax _ _ (Hin c Hc)).
    + unfold occurrences at 1. rewrite (proj1 (count_occ_not_In String.string_dec _ _) Hc). lia.
Qed.

(** ** Reducing a bucket *)

Lemma as_numbers_JNum {A : Type} (f : A -> Q) (l : list A) :
  Weather.as_numbers (map (fun x => Py.JNum (f x)) l) = Ok (map f l).
Proof.
  unfold Weather.as_numbers. induction l as [|x l IH]; [reflexivity|].
  cbn [map Py.mapM]. rewrite IH. reflexivity.
Qed.

Lemma Qmax_list_is_max (x : Q) (l : list Q) : is_max (Weather.Qmax_list x l) (x :: l).
Proof.
  unfold Weather.Qmax_list. revert x. induction l as [|y l IH]; intros x; cbn [fold_left].
  - split; [now left | intros t [<-|[]]; apply Qle_refl].
  - destruct (Qlt_le_dec x y) as [Hlt|Hge].
    + destruct (IH y) as [Hin Hmax]. split; [now right|].
      intros t [<-|Ht]; [|now apply Hmax].
      eapply Qle_trans; [apply Qlt_le_weak, Hlt | apply Hmax; now left].
    + destruct (IH x) as [Hin Hmax]. split.
      * destruct Hin as [<-|Hin]; [now left | right; now right].
      * intros t [<-|[<-|Ht]].
        -- apply Hmax. now left.
        -- eapply Qle_trans; [exact Hge | apply Hmax; now left].
        -- apply Hmax. now right.
Qed.

Lemma Qmin_list_is_min (x : Q) (l : list Q) : is_min (Weather.Qmin_list x l) (x :: l).
Proof.
  unfold Weather.Qmin_list. revert x. induction l as [|y l IH]; intros x; cbn [fold_left].
  - split; [now left | intros t [<-|[]]; apply Qle_refl].
  - destruct (Qlt_le_dec y x) as [Hlt|Hge].
    + destruct (IH y) as [Hin Hmin]. split; [now right|].
      intros t [<-|Ht]; [|now apply Hmin].
      eapply Qle_trans; [apply Hmin; now left | apply Qlt_le_weak, Hlt].
    + destruct (IH x) as [Hin Hmin]. split.
      * destruct Hin as [<-|Hin]; [now left | right; now right].
      * intros t [<-|[<-|Ht]].
        -- apply Hmin. now left.
        -- eapply Qle_trans; [apply Hmin; now left | exact Hge].
        -- apply Hmin. now right.
Qed.



Lemma represents_empty : represents [] ∅.
Proof. intros d. now rewrite lookup_empty. Qed.


(** The sums of the tier are those of binary64: humidities of exact
    mean 60.5 give 61 where the exact mean would round to 60, and rain
    of an exact total below 1 mm adds up to 1, so that the day is not
    suitable for outdoor training; 0.075 times 20 is 1.5 and rounds to
    2, where the exact product is below 1.5. *)
Example binary64_sums_decide_the_entry :
  map (fun d => (Weather.humidity d, Weather.precipitation_probability d,
                 Weather.suitable_for_outdoor d))
    (Weather.forecast
       (Weather.get_weather_forecast Py.str_lower rounding_world 40 (-73) 1 None))
  = [(61%Z, 20%Z, false)] /\
  (61 + Py.fl 59.9 + Py.fl 61.2 + Py.fl 59.9 == 242)%Q /\
  Py.round (242 / 4) = 60%Z /\
  (0.5 + Py.fl 0.49999999999999994 < 1)%Q /\
  Py.round (Py.mul (Py.fl 0.075) 20) = 2%Z /\
  Py.round (Py.fl 0.075 * 20) = 1%Z.
Proof. repeat split; vm_compute; reflexivity. Qed.




(* ================================================================== *)
(** * The length of a forecast                                          *)
(* ================================================================== *)


(* ================================================================== *)
(** * Further properties: the sport tables                             *)
(* ================================================================== *)

Lemma keyword_match_In (lower : string -> string) (items : list (string * Gear.gear_set))
    (s : string) (g : Gear.gear_set) :
  Gear.keyword_match lower items s = Some g -> In g (map snd items).
Proof.
  induction items as [|[key value] items IH]; simpl; [discriminate|].
  destruct (Py.str_in (lower key) s || Py.str_in s (lower key)).
  - intros [= <-]. now left.
  - intros H. right. now apply IH.
Qed.

Lemma keyword_match_None_inv (lower : string -> string)
    (items : list (string * Gear.gear_set)) (s : string) :
  Gear.keyword_match lower items s = None ->
  forall key, In key (map fst items) ->
    ~ Substring (lower key) s /\ ~ Substring s (lower key).
Proof.
  induction items as [|[key value] items IH]; simpl; [intros _ k []|].
  destruct (Py.str_in (lower key) s || Py.str_in s (lower key)) eqn:E; [discriminate|].
  intros H k [<- | Hk]; [|now apply IH].
  apply orb_false_iff in E as [E1 E2].
  split; intros Hs; apply str_in_Substring in Hs; congruence.
Qed.

Lemma gear_table_without_default : ~ In Gear.default_gear (map snd Gear.GEAR_MAP).
Proof. vm_compute. intuition discriminate. Qed.

Lemma gear_keys_NoDup : List.NoDup (map fst Gear.GEAR_MAP).
Proof.
  apply (List.NoDup_count_occ' String.string_dec). intros k Hk.
  vm_compute in Hk. 
  repeat (destruct Hk as [<- | Hk]; [vm_compute; reflexivity|]). destruct Hk.
Qed.

Lemma dict_get_In_NoDup {V : Type} (d : list (string * V)) (k : string) (v : V) :
  List.NoDup (map fst d) -> In (k, v) d -> Py.dict_get d k = Some v.
Proof.
  induction d as [|[k' v'] d IH]; simpl; [intros _ []|].
  intros Hnd [[= -> ->] | Hin].
  - now rewrite String.eqb_refl.
  - inversion Hnd as [|? ? Hk' Hnd']; subst.
    destruct (String.eqb_spec k k') as [->|Hne].
    + exfalso. apply Hk'. change k' with (fst (k', v)). now apply in_map.
    + now apply IH.
Qed.

(** X1.  For every label and every [str.lower], [get_recommended_gear]
    returns the gear of the label when the label is a key of [GEAR_MAP];
    its result is a value of the table or the generic default; it is the
    default exactly when no key matches the label (as it is, lowered, or
    as a substring in either direction); clothing and accessories are
    never empty. *)
Theorem gear_lookup_characterised (lower : string -> string) (sport_type : string) :
  (forall gear, In (sport_type, gear) Gear.GEAR_MAP ->
     Gear.recommended_gear (Gear.get_recommended_gear lower sport_type) = gear) /\
  (In (Gear.recommended_gear (Gear.get_recommended_gear lower sport_type))
      (map snd Gear.GEAR_MAP) \/
   Gear.recommended_gear (Gear.get_recommended_gear lower sport_type) = Gear.default_gear) /\
  (Gear.recommended_gear (Gear.get_recommended_gear lower sport_type) = Gear.default_gear
   <-> GearSpec.unmatched lower sport_type) /\
  Gear.clothing (Gear.recommended_gear (Gear.get_recommended_gear lower sport_type)) <> [] /\
  Gear.accessories (Gear.recommended_gear (Gear.get_recommended_gear lower sport_type)) <> [].
Proof.
  assert (Hrange :
    In (Gear.recommended_gear (Gear.get_recommended_gear lower sport_type))
       (map snd Gear.GEAR_MAP) \/
    Gear.recommended_gear (Gear.get_recommended_gear lower sport_type) = Gear.default_gear).
  { unfold Gear.get_recommended_gear. cbn [Gear.recommended_gear].
    destruct (Py.dict_get Gear.GEAR_MAP sport_type) as [g|] eqn:E1.
    { left. exact (dict_get_value_In _ _ _ E1). }
    destruct (Py.dict_get Gear.GEAR_MAP (lower sport_type)) as [g|] eqn:E2.
    { left. exact (dict_get_value_In _ _ _ E2). }
    destruct (Gear.keyword_match lower Gear.GEAR_MAP (lower sport_type)) as [g|] eqn:E3.
    { left. exact (keyword_match_In _ _ _ _ E3). }
    now right. }
  split; [|split; [exact Hrange|split; [split|]]].
  - intros gear Hin. unfold Gear.get_recommended_gear. cbn [Gear.recommended_gear].
    now rewrite (dict_get_In_NoDup _ _ _ gear_keys_NoDup Hin).
  - unfold Gear.get_recommended_gear. cbn [Gear.recommended_gear].
    destruct (Py.dict_get Gear.GEAR_MAP sport_type) as [g|] eqn:E1.
    { intros ->. destruct gear_table_without_default. exact (dict_get_value_In _ _ _ E1). }
    destruct (Py.dict_get Gear.GEAR_MAP (lower sport_type)) as [g|] eqn:E2.
    { intros ->. destruct gear_table_without_default. exact (dict_get_value_In _ _ _ E2). }
    destruct (Gear.keyword_match lower Gear.GEAR_MAP (lower sport_type)) as [g|] eqn:E3.
    { intros ->. destruct gear_table_without_default. exact (keyword_match_In _ _ _ _ E3). }
    intros _. split; [exact (dict_get_not_In _ _ E1)|].
    split; [exact (dict_get_not_In _ _ E2)|].
    exact (keyword_match_None_inv _ _ _ E3).
  - intros (Hexact & Hlower & Hsub).
    unfold Gear.get_recommended_gear. cbn [Gear.recommended_gear].
    rewrite (dict_get_None Gear.GEAR_MAP sport_type Hexact).
    rewrite (dict_get_None Gear.GEAR_MAP (lower sport_type) Hlower).
    now rewrite (keyword_match_None lower Gear.GEAR_MAP (lower sport_type) Hsub).
  - set (g := Gear.recommended_gear (Gear.get_recommended_gear lower sport_type)) in *.
    clearbody g. destruct Hrange as [Hin | ->].
    + vm_compute in Hin.
      repeat (destruct Hin as [<- | Hin]; [split; discriminate|]). destruct Hin.
    + split; discriminate.
Qed.

Lemma fuzzy_match_In (lower : string -> string) (items : list (string * list string))
    (s : string) (v : list string) :
  Venues.fuzzy_match lower items s = Some v -> In v (map snd items).
Proof.
  induction items as [|[key value] items IH]; simpl; [discriminate|].
  destruct (Py.str_in (lower key) s || Py.str_in s (lower key)).
  - intros [= <-]. now left.
  - intros H. right. now apply IH.
Qed.

Lemma fuzzy_match_None (lower : string -> string) (items : list (string * list string))
    (s : string) :
  Venues.fuzzy_match lower items s = None <->
  forall key, In key (map fst items) ->
    ~ Substring (lower key) s /\ ~ Substring s (lower key).
Proof.
  induction items as [|[key value] items IH]; simpl; [split; [intros _ k [] | reflexivity]|].
  destruct (Py.str_in (lower key) s || Py.str_in s (lower key)) eqn:E.
  - split; [discriminate|]. intros H. exfalso.
    destruct (H key (or_introl eq_refl)) as [H1 H2].
    apply orb_true_iff in E as [E | E]; apply str_in_Substring in E; tauto.
  - apply orb_false_iff in E as [E1 E2]. rewrite IH. split.
    + intros H k [<- | Hk]; [|now apply H].
      split; intros Hs; apply str_in_Substring in Hs; congruence.
    + intros H k Hk. apply H. now right.
Qed.

Lemma place_keys_NoDup : List.NoDup (map fst Venues.sport_mapping).
Proof.
  apply (List.NoDup_count_occ' String.string_dec). intros k Hk.
  vm_compute in Hk.
  repeat (destruct Hk as [<- | Hk]; [vm_compute; reflexivity|]). destruct Hk.
Qed.

Lemma place_table_without_default : ~ In ["gym"; "park"] (map snd Venues.sport_mapping).
Proof. vm_compute. intuition discriminate. Qed.

(** X2.  For every label and every [str.lower],
    [_map_sport_to_place_types] returns the place types of the label
    when the label is a key of its table; its result is a value of the
    table or the default [gym, park], the default exactly when no key
    matches the label; it names one to three place types, none twice. *)
Theorem place_types_characterised (lower : string -> string) (sport_type : string) :
  (forall place_types, In (sport_type, place_types) Venues.sport_mapping ->
     Venues._map_sport_to_place_types lower sport_type = place_types) /\
  (In (Venues._map_sport_to_place_types lower sport_type) (map snd Venues.sport_mapping) \/
   Venues._map_sport_to_place_types lower sport_type = ["gym"; "park"]) /\
  (Venues._map_sport_to_place_types lower sport_type = ["gym"; "park"]
   <-> LookupSpec.unmatched lower sport_type) /\
  (1 <= List.length (Venues._map_sport_to_place_types lower sport_type) <= 3)%nat /\
  List.NoDup (Venues._map_sport_to_place_types lower sport_type).
Proof.
  assert (Hrange :
    In (Venues._map_sport_to_place_types lower sport_type) (map snd Venues.sport_mapping) \/
    Venues._map_sport_to_place_types lower sport_type = ["gym"; "park"]).
  { unfold Venues._map_sport_to_place_types.
    destruct (Py.dict_get Venues.sport_mapping sport_type) as [v|] eqn:E1.
    { left. exact (dict_get_value_In _ _ _ E1). }
    destruct (Venues.fuzzy_match lower Venues.sport_mapping (lower sport_type)) as [v|] eqn:E2.
    { left. exact (fuzzy_match_In _ _ _ _ E2). }
    now right. }
  split; [|split; [exact Hrange|split; [split|]]].
  - intros place_types Hin. unfold Venues._map_sport_to_place_types.
    now rewrite (dict_get_In_NoDup _ _ _ place_keys_NoDup Hin).
  - unfold Venues._map_sport_to_place_types.
    destruct (Py.dict_get Venues.sport_mapping sport_type) as [v|] eqn:E1.
    { intros ->. destruct place_table_without_default. exact (dict_get_value_In _ _ _ E1). }
    destruct (Venues.fuzzy_match lower Venues.sport_mapping (lower sport_type)) as [v|] eqn:E2.
    { intros ->. destruct place_table_without_default. exact (fuzzy_match_In _ _ _ _ E2). }
    intros _. split; [exact (dict_get_not_In _ _ E1)|]. now apply fuzzy_match_None.
  - intros (Hexact & Hsub). unfold Venues._map_sport_to_place_types.
    rewrite (dict_get_None Venues.sport_mapping sport_type Hexact).
    apply fuzzy_match_None in Hsub. now rewrite Hsub.
  - set (ts := Venues._map_sport_to_place_types lower sport_type) in *.
    clearbody ts. destruct Hrange as [Hin | ->].
    + vm_compute in Hin.
      repeat (destruct Hin as [<- | Hin];
              [split; [simpl; lia | repeat constructor; simpl; intuition discriminate]|]).
      destruct Hin.
    + split; [simpl; lia | repeat constructor; simpl; intuition discriminate].
Qed.

Lemma sport_tables_same_keys : map fst Venues.sport_mapping = GearSpec.keys.
Proof. reflexivity. Qed.

Section FixedKeys.
Variable lower : string -> string.
Hypothesis lower_key : forall key, In key GearSpec.keys -> lower key = key.

(** No key of the place-type table occurs in another one, so the loop
    run on a key stops at that key. *)
Lemma fuzzy_match_key (key : string) :
  In key GearSpec.keys ->
  Venues.fuzzy_match lower Venues.sport_mapping key = Py.dict_get Venues.sport_mapping key.
Proof.
  intros Hin. cbn [Venues.fuzzy_match Venues.sport_mapping].
  repeat match goal with
         | |- context [lower (String ?c ?s)] =>
             rewrite (lower_key (String c s)) by (vm_compute; tauto)
         end.
  vm_compute in Hin.
  repeat (destruct Hin as [<- | Hin]; [vm_compute; reflexivity|]). destruct Hin.
Qed.

Lemma gear_by_lowered_label (sport_type : string) :
  Gear.recommended_gear (Gear.get_recommended_gear lower sport_type)
  = match Py.dict_get Gear.GEAR_MAP (lower sport_type) with
    | Some g => g
    | None =>
        match Gear.keyword_match lower Gear.GEAR_MAP (lower sport_type) with
        | Some g => g
        | None => Gear.default_gear
        end
    end.
Proof.
  unfold Gear.get_recommended_gear. cbn [Gear.recommended_gear].
  destruct (Py.dict_get Gear.GEAR_MAP sport_type) as [g|] eqn:E.
  - assert (Hk : In sport_type GearSpec.keys).
    { apply dict_get_In in E. change sport_type with (fst (sport_type, g)). now apply in_map. }
    now rewrite (lower_key _ Hk), E.
  - now destruct (Py.dict_get Gear.GEAR_MAP (lower sport_type)).
Qed.

Lemma place_types_by_lowered_label (sport_type : string) :
  Venues._map_sport_to_place_types lower sport_type
  = match Venues.fuzzy_match lower Venues.sport_mapping (lower sport_type) with
    | Some v => v
    | None => ["gym"; "park"]
    end.
Proof.
  unfold Venues._map_sport_to_place_types.
  destruct (Py.dict_get Venues.sport_mapping sport_type) as [v|] eqn:E; [|reflexivity].
  assert (Hk : In sport_type GearSpec.keys).
  { apply dict_get_In in E. rewrite <- sport_tables_same_keys.
    change sport_type with (fst (sport_type, v)). now apply in_map. }
  now rewrite (lower_key _ Hk), (fuzzy_match_key _ Hk), E.
Qed.

End FixedKeys.

(** X3.  When [str.lower] leaves the keys of the tables as they are, two
    labels that lower to the same string get the same gear and the same
    place types. *)
Theorem sport_lookups_ignore_case (lower : string -> string) :
  (forall key, In key GearSpec.keys -> lower key = key) ->
  forall a b : string,
    lower a = lower b ->
    Gear.recommended_gear (Gear.get_recommended_gear lower a)
      = Gear.recommended_gear (Gear.get_recommended_gear lower b) /\
    Venues._map_sport_to_place_types lower a = Venues._map_sport_to_place_types lower b.
Proof.
  intros Hfix a b Hab. split.
  - rewrite !(gear_by_lowered_label lower Hfix). now rewrite Hab.
  - rewrite !(place_types_by_lowered_label lower Hfix). now rewrite Hab.
Qed.

Lemma str_lower_keys (key : string) : In key GearSpec.keys -> Py.str_lower key = key.
Proof.
  intros Hin. vm_compute in Hin.
  repeat (destruct Hin as [<- | Hin]; [reflexivity|]). destruct Hin.
Qed.

Lemma sport_lookups_ignore_case_witness :
  Gear.recommended_gear (Gear.get_recommended_gear Py.str_lower "Trail RUNNING")
    = Gear.recommended_gear (Gear.get_recommended_gear Py.str_lower "trail running") /\
  Venues._map_sport_to_place_types Py.str_lower "Trail RUNNING"
    = Venues._map_sport_to_place_types Py.str_lower "trail running".
Proof.
  apply (sport_lookups_ignore_case Py.str_lower str_lower_keys). reflexivity.
Defined.

(** X4.  When [str.lower] leaves the keys of the tables as they are, the
    gear lookup falls back to its default for exactly the labels for
    which the place-type lookup falls back to its default. *)
Theorem sport_lookups_know_the_same_sports (lower : string -> string) :
  (forall key, In key GearSpec.keys -> lower key = key) ->
  forall sport_type : string,
    Gear.recommended_gear (Gear.get_recommended_gear lower sport_type) = Gear.default_gear
    <-> Venues._map_sport_to_place_types lower sport_type = ["gym"; "park"].
Proof.
  intros Hfix sport_type.
  rewrite (gear_by_lowered_label lower Hfix), (place_types_by_lowered_label lower Hfix).
  assert (Hloop : Gear.keyword_match lower Gear.GEAR_MAP (lower sport_type) = None
                  <-> Venues.fuzzy_match lower Venues.sport_mapping (lower sport_type) = None).
  { rewrite fuzzy_match_None. rewrite sport_tables_same_keys. split.
    - apply keyword_match_None_inv.
    - apply keyword_match_None. }
  destruct (Py.dict_get Gear.GEAR_MAP (lower sport_type)) as [g|] eqn:E1.
  - (* the lowered label is a key: the loop of the other table finds it *)
    assert (Hk : In (lower sport_type) GearSpec.keys).
    { apply dict_get_In in E1. change (lower sport_type) with (fst (lower sport_type, g)).
      now apply in_map. }
    rewrite (fuzzy_match_key lower Hfix _ Hk).
    destruct (Py.dict_get Venues.sport_mapping (lower sport_type)) as [v|] eqn:E2.
    + split; intros ->.
      * destruct gear_table_without_default. exact (dict_get_value_In _ _ _ E1).
      * destruct place_table_without_default. exact (dict_get_value_In _ _ _ E2).
    + exfalso. apply dict_get_not_In in E2. now rewrite sport_tables_same_keys in E2.
  - destruct (Gear.keyword_match lower Gear.GEAR_MAP (lower sport_type)) as [g|] eqn:E2;
      destruct (Venues.fuzzy_match lower Venues.sport_mapping (lower sport_type)) as [v|] eqn:E3.
    + split; intros ->.
      * destruct gear_table_without_default. exact (keyword_match_In _ _ _ _ E2).
      * destruct place_table_without_default. exact (fuzzy_match_In _ _ _ _ E3).
    + destruct Hloop as [_ H]. discriminate (H eq_refl).
    + destruct Hloop as [H _]. discriminate (H eq_refl).
    + tauto.
Qed.

Lemma sport_lookups_know_the_same_sports_witness :
  Gear.recommended_gear (Gear.get_recommended_gear Py.str_lower "underwater hockey")
    = Gear.default_gear
  <-> Venues._map_sport_to_place_types Py.str_lower "underwater hockey" = ["gym"; "park"].
Proof.
  apply (sport_lookups_know_the_same_sports Py.str_lower str_lower_keys).
Defined.

(* ================================================================== *)
(** * Further properties: the forecast                                 *)
(* ================================================================== *)

(** ** Rounding is monotone *)

Lemma round_compat (x y : Q) : (x == y)%Q -> Py.round x = Py.round y.
Proof.
  intros H. unfold Py.round. rewrite (Qfloor_comp _ _ H).
  assert (Hc : ((x - inject_Z (Qfloor y)) ?= (1 # 2))%Q = ((y - inject_Z (Qfloor y)) ?= (1 # 2))%Q).
  { apply Qcompare_comp; [now rewrite H | reflexivity]. }
  now rewrite Hc.
Qed.

Lemma round_le_Z (x : Q) (n : Z) : (x <= inject_Z n)%Q -> (Py.round x <= n)%Z.
Proof.
  intros H. unfold Py.round.
  pose proof (Qfloor_le x) as Hlo.
  assert (Hfl : (Qfloor x <= n)%Z).
  { rewrite Zle_Qle. now apply Qle_trans with x. }
  destruct (Z.eq_dec (Qfloor x) n) as [E | E].
  - assert (Hd : (x - inject_Z (Qfloor x) == 0)%Q).
    { rewrite E in *. apply Qle_antisym; lra. }
    assert (Hc : ((x - inject_Z (Qfloor x)) ?= (1 # 2))%Q = Lt).
    { rewrite Hd. reflexivity. }
    rewrite Hc. lia.
  - destruct (Qcompare (x - inject_Z (Qfloor x)) (1 # 2)); try destruct (Z.even (Qfloor x)); lia.
Qed.

Lemma round_ge_Z (x : Q) (n : Z) : (inject_Z n <= x)%Q -> (n <= Py.round x)%Z.
Proof.
  intros H. unfold Py.round.
  assert (Hfl : (n <= Qfloor x)%Z).
  { rewrite <- (Qfloor_Z n). now apply Qfloor_resp_le. }
  destruct (Qcompare (x - inject_Z (Qfloor x)) (1 # 2)); try destruct (Z.even (Qfloor x)); lia.
Qed.

Lemma round_monotone (x y : Q) : (x <= y)%Q -> (Py.round x <= Py.round y)%Z.
Proof.
  intros H.
  destruct (Qlt_le_dec (inject_Z (Py.round y)) x) as [Hgt | Hle]; [|now apply round_le_Z].
  pose proof (round_nearest y) as [_ Hy].
  pose proof (round_nearest x) as [Hx _].
  (* round y < x <= y <= round y + 1/2 *)
  destruct (Qlt_le_dec x y) as [Hlt | Hge].
  - (* x < y <= round y + 1/2, so x is strictly below the tie *)
    assert (Hr : (inject_Z (Py.round x) < inject_Z (Py.round y + 1))%Q).
    { rewrite inject_Z_plus. change (inject_Z 1) with 1%Q. lra. }
    rewrite <- Zlt_Qlt in Hr. lia.
  - rewrite (round_compat x y); [lia|]. apply Qle_antisym; assumption.
Qed.

(** ** Binary64 rounding *)

Lemma pow2_pos (e : Z) : (0 < 2 ^ e)%Q.
Proof. now apply Qpower_0_lt. Qed.

Lemma pow2_Z (k : Z) : (0 <= k)%Z -> (2 ^ k == inject_Z (2 ^ k))%Q.
Proof. intros H. now rewrite (Zpower_Qpower 2 k H). Qed.

(** [ilog2] does not overestimate. *)
Lemma ilog2_le (a : Q) : (0 < a)%Q -> (2 ^ Py.ilog2 a <= a)%Q.
Proof.
  intros Ha. unfold Py.ilog2.
  destruct (Qle_bool _ a) eqn:E; [now apply Qle_bool_iff|].
  destruct a as [n d]. cbn [Qnum Qden].
  assert (Hn : (0 < n)%Z) by (unfold Qlt in Ha; simpl in Ha; lia).
  replace (Z.log2 n - Z.log2 (Z.pos d) - 1)%Z
    with (Z.log2 n - (Z.log2 (Z.pos d) + 1))%Z by lia.
  rewrite Qpower_minus by discriminate.
  pose proof (Z.log2_nonneg n) as Hln. pose proof (Z.log2_nonneg (Z.pos d)) as Hld.
  rewrite !pow2_Z by lia.
  destruct (Z.log2_spec n Hn) as [Hlo _].
  destruct (Z.log2_spec (Z.pos d) eq_refl) as [_ Hhi].
  replace (Z.succ (Z.log2 (Z.pos d))) with (Z.log2 (Z.pos d) + 1)%Z in Hhi by lia.
  assert (Hp : (0 < 2 ^ Z.log2 n)%Z) by (apply Z.pow_pos_nonneg; lia).
  destruct (2 ^ (Z.log2 (Z.pos d) + 1))%Z as [|p|p] eqn:Ep; try lia.
  rewrite <- Qmake_Qdiv. unfold Qle. cbn [Qnum Qden]. nia.
Qed.

Lemma fl_eq (x : Q) :
  (Py.fl x == inject_Z (Py.round (x / 2 ^ Py.exponent x)) * 2 ^ Py.exponent x)%Q.
Proof. unfold Py.fl. apply Qred_correct. Qed.

(** [ilog2] does not underestimate. *)
Lemma ilog2_lt (a : Q) : (0 < a)%Q -> (a < 2 ^ (Py.ilog2 a + 1))%Q.
Proof.
  intros Ha. unfold Py.ilog2.
  destruct (Qle_bool _ a) eqn:E.
  - destruct a as [n d]. cbn [Qnum Qden].
    assert (Hn : (0 < n)%Z) by (unfold Qlt in Ha; simpl in Ha; lia).
    replace (Z.log2 n - Z.log2 (Z.pos d) + 1)%Z
      with ((Z.log2 n + 1) - Z.log2 (Z.pos d))%Z by lia.
    rewrite Qpower_minus by discriminate.
    pose proof (Z.log2_nonneg n) as Hln. pose proof (Z.log2_nonneg (Z.pos d)) as Hld.
    rewrite !pow2_Z by lia.
    destruct (Z.log2_spec n Hn) as [_ Hhi].
    destruct (Z.log2_spec (Z.pos d) eq_refl) as [Hlo _].
    replace (Z.succ (Z.log2 n)) with (Z.log2 n + 1)%Z in Hhi by lia.
    assert (Hp : (0 < 2 ^ Z.log2 (Z.pos d))%Z) by (apply Z.pow_pos_nonneg; lia).
    destruct (2 ^ Z.log2 (Z.pos d))%Z as [|p|p] eqn:Ep; try lia.
    rewrite <- Qmake_Qdiv. unfold Qlt. cbn [Qnum Qden]. nia.
  - replace (Z.log2 (Qnum a) - Z.log2 (Z.pos (Qden a)) - 1 + 1)%Z
      with (Z.log2 (Qnum a) - Z.log2 (Z.pos (Qden a)))%Z by lia.
    apply Qnot_le_lt. intros H. apply Qle_bool_iff in H. congruence.
Qed.

(** The significand of a number other than 0 has at most 53 bits, and
    exactly 53 unless the number is subnormal. *)
Lemma exponent_spec (x : Q) :
  (0 < Qabs x)%Q ->
  (-1074 <= Py.exponent x)%Z /\
  (Qabs x < 2 ^ 53 * 2 ^ Py.exponent x)%Q /\
  ((-1074 < Py.exponent x)%Z -> (2 ^ 52 * 2 ^ Py.exponent x <= Qabs x)%Q).
Proof.
  intros Hx. unfold Py.exponent. split; [lia|]. split.
  - rewrite <- Qpower_plus by discriminate.
    apply Qlt_le_trans with (2 ^ (Py.ilog2 (Qabs x) + 1))%Q; [now apply ilog2_lt|].
    apply Qpower_le_compat_l; [lia | lra].
  - intros He.
    assert (Ee : Z.max (Py.ilog2 (Qabs x) - 52) (-1074) = (Py.ilog2 (Qabs x) - 52)%Z) by lia.
    rewrite Ee. rewrite <- Qpower_plus by discriminate.
    replace (52 + (Py.ilog2 (Qabs x) - 52))%Z with (Py.ilog2 (Qabs x)) by lia.
    now apply ilog2_le.
Qed.

Lemma exponent_of_zero (x : Q) : (Qabs x <= 0)%Q -> (Py.exponent x <= 0)%Z.
Proof.
  intros H. unfold Py.exponent, Py.ilog2.
  destruct x as [n d]. unfold Qabs in *. cbn [Qnum Qden] in *.
  assert (En : Z.abs n = 0%Z) by (unfold Qle in H; simpl in H; lia).
  rewrite En. change (Z.log2 0) with 0%Z. pose proof (Z.log2_nonneg (Z.pos d)).
  destruct (Qle_bool _ _); lia.
Qed.

(** A number whose exponent is positive is at least [2^52] times the
    unit of its last place. *)
Lemma exponent_positive (x : Q) :
  (0 < Py.exponent x)%Z -> (2 ^ 52 * 2 ^ Py.exponent x <= Qabs x)%Q.
Proof.
  intros He. destruct (Qlt_le_dec 0 (Qabs x)) as [Hx|Hx].
  - apply (exponent_spec x Hx). lia.
  - apply exponent_of_zero in Hx. lia.
Qed.

(** [fl x] is a binary64 number nearest to [x]: a significand of at
    most 53 bits at the exponent of [x], within half a unit of the last
    place. *)
Lemma fl_spec (x : Q) :
  exists m : Z,
    (Py.fl x == inject_Z m * 2 ^ Py.exponent x)%Q /\
    (Z.abs m <= 2 ^ 53)%Z /\
    (Qabs (Py.fl x - x) <= (1 # 2) * 2 ^ Py.exponent x)%Q.
Proof.
  exists (Py.round (x / 2 ^ Py.exponent x)). split; [apply fl_eq|].
  pose proof (pow2_pos (Py.exponent x)) as Hp. split.
  - destruct (Qlt_le_dec 0 (Qabs x)) as [Hx|Hx].
    + destruct (exponent_spec x Hx) as (_ & Hlt & _).
      change (2 ^ 53)%Q with (inject_Z (2 ^ 53)) in Hlt.
      pose proof (Qle_Qabs x) as H1. pose proof (Qle_Qabs (- x)) as H2.
      rewrite Qabs_opp in H2.
      assert (Hhi : (Py.round (x / 2 ^ Py.exponent x) <= 2 ^ 53)%Z).
      { apply round_le_Z, Qle_shift_div_r; [exact Hp | lra]. }
      assert (Hlo : (- 2 ^ 53 <= Py.round (x / 2 ^ Py.exponent x))%Z).
      { apply round_ge_Z. rewrite inject_Z_opp. apply Qle_shift_div_l; [exact Hp | lra]. }
      lia.
    + assert (E0 : (x == 0)%Q).
      { pose proof (Qle_Qabs x) as H1. pose proof (Qle_Qabs (- x)) as H2.
        rewrite Qabs_opp in H2. apply Qle_antisym; lra. }
      rewrite (round_compat _ 0); [vm_compute; discriminate|].
      unfold Qdiv. apply Qeq_trans with (0 * / 2 ^ Py.exponent x)%Q;
        [apply Qmult_comp; [exact E0 | reflexivity] | apply Qmult_0_l].
  - rewrite fl_eq. pose proof (round_nearest (x / 2 ^ Py.exponent x)) as [Hlo Hhi].
    set (e := Py.exponent x) in *. set (r := inject_Z (Py.round (x / 2 ^ e))) in *.
    assert (Ex : (x == x / 2 ^ e * 2 ^ e)%Q) by (field; lra).
    set (y := (x / 2 ^ e)%Q) in *.
    apply Qabs_Qle_condition. split.
    + rewrite Ex. nra.
    + rewrite Ex. nra.
Qed.

(** Rounding to binary64 does not cross an integer of at most 53 bits. *)
Lemma fl_small_exponent (x : Q) :
  (Py.exponent x <= 0)%Z ->
  (0 < inject_Z (2 ^ (- Py.exponent x)))%Q /\
  (2 ^ Py.exponent x == / inject_Z (2 ^ (- Py.exponent x)))%Q /\
  (x / 2 ^ Py.exponent x == x * inject_Z (2 ^ (- Py.exponent x)))%Q.
Proof.
  intros He. set (e := Py.exponent x) in *.
  assert (Es : (2 ^ e == / inject_Z (2 ^ (- e)))%Q).
  { rewrite <- pow2_Z by lia. rewrite Qpower_opp, Qinv_involutive. reflexivity. }
  split; [|split; [exact Es|]].
  - rewrite <- pow2_Z by lia. apply pow2_pos.
  - unfold Qdiv. rewrite Es, Qinv_involutive. reflexivity.
Qed.

Lemma fl_large_exponent (x : Q) :
  (0 < Py.exponent x)%Z ->
  (2 <= 2 ^ Py.exponent x)%Q /\
  ((x < 0)%Q -> (Py.round (x / 2 ^ Py.exponent x) <= - 2 ^ 52)%Z) /\
  ((0 <= x)%Q -> (2 ^ 52 <= Py.round (x / 2 ^ Py.exponent x))%Z) /\
  (inject_Z (2 ^ 52) * 2 <= Qabs x)%Q.
Proof.
  intros He. pose proof (exponent_positive x He) as Hbig.
  set (e := Py.exponent x) in *. pose proof (pow2_pos e) as Hp.
  assert (H2 : (2 <= 2 ^ e)%Q).
  { change 2%Q with (2 ^ 1)%Q at 1. apply Qpower_le_compat_l; [lia | lra]. }
  change (2 ^ 52)%Q with (inject_Z (2 ^ 52)) in Hbig.
  set (P := inject_Z (2 ^ 52)) in *.
  assert (HP : (0 < P)%Q) by reflexivity.
  split; [exact H2|]. split; [|split].
  - intros Hx. apply round_le_Z. rewrite inject_Z_opp. fold P.
    apply Qle_shift_div_r; [exact Hp|]. rewrite (Qabs_neg x) in Hbig by lra. lra.
  - intros Hx. apply round_ge_Z. fold P.
    apply Qle_shift_div_l; [exact Hp|]. rewrite (Qabs_pos x) in Hbig by lra. exact Hbig.
  - apply Qle_trans with (P * 2 ^ e)%Q; [|exact Hbig].
    apply Qmult_le_l; assumption.
Qed.

Lemma fl_le_Z (x : Q) (n : Z) :
  (Z.abs n <= 2 ^ 52)%Z -> (x <= inject_Z n)%Q -> (Py.fl x <= inject_Z n)%Q.
Proof.
  intros Hn Hx. rewrite fl_eq.
  assert (Hn' : (- inject_Z (2 ^ 52) <= inject_Z n <= inject_Z (2 ^ 52))%Q).
  { rewrite <- inject_Z_opp, <- !Zle_Qle. lia. }
  destruct (Z_lt_le_dec 0 (Py.exponent x)) as [He|He].
  - destruct (fl_large_exponent x He) as (H2 & Hneg & _ & Hbig).
    set (e := Py.exponent x) in *. set (P := inject_Z (2 ^ 52)) in *.
    assert (HP : (0 < P)%Q) by reflexivity.
    destruct (Qlt_le_dec x 0) as [Hx0|Hx0].
    + specialize (Hneg Hx0). rewrite Zle_Qle, inject_Z_opp in Hneg. fold P in Hneg.
      set (r := inject_Z (Py.round (x / 2 ^ e))) in *.
      apply Qle_trans with (- P * 2 ^ e)%Q.
      * apply Qmult_le_compat_r; lra.
      * assert (P * 2 <= P * 2 ^ e)%Q by (apply Qmult_le_l; assumption). lra.
    + rewrite (Qabs_pos x) in Hbig by exact Hx0. lra.
  - destruct (fl_small_exponent x He) as (Hs & Es & Ex).
    assert (Hr : (Py.round (x / 2 ^ Py.exponent x) <= n * 2 ^ (- Py.exponent x))%Z).
    { apply round_le_Z. rewrite inject_Z_mult, Ex.
      apply Qmult_le_compat_r; [exact Hx | lra]. }
    rewrite Zle_Qle, inject_Z_mult in Hr.
    set (r := inject_Z (Py.round _)) in *. rewrite Es.
    apply Qle_shift_div_r; [exact Hs | exact Hr].
Qed.

Lemma fl_ge_Z (x : Q) (n : Z) :
  (Z.abs n <= 2 ^ 52)%Z -> (inject_Z n <= x)%Q -> (inject_Z n <= Py.fl x)%Q.
Proof.
  intros Hn Hx. rewrite fl_eq.
  assert (Hn' : (- inject_Z (2 ^ 52) <= inject_Z n <= inject_Z (2 ^ 52))%Q).
  { rewrite <- inject_Z_opp, <- !Zle_Qle. lia. }
  destruct (Z_lt_le_dec 0 (Py.exponent x)) as [He|He].
  - destruct (fl_large_exponent x He) as (H2 & _ & Hpos & Hbig).
    set (e := Py.exponent x) in *. set (P := inject_Z (2 ^ 52)) in *.
    assert (HP : (0 < P)%Q) by reflexivity.
    destruct (Qlt_le_dec x 0) as [Hx0|Hx0].
    + rewrite (Qabs_neg x) in Hbig by lra. lra.
    + specialize (Hpos Hx0). rewrite Zle_Qle in Hpos. fold P in Hpos.
      set (r := inject_Z (Py.round (x / 2 ^ e))) in *.
      apply Qle_trans with (P * 2 ^ e)%Q.
      * assert (P * 2 <= P * 2 ^ e)%Q by (apply Qmult_le_l; assumption). lra.
      * apply Qmult_le_compat_r; lra.
  - destruct (fl_small_exponent x He) as (Hs & Es & Ex).
    assert (Hr : (n * 2 ^ (- Py.exponent x) <= Py.round (x / 2 ^ Py.exponent x))%Z).
    { apply round_ge_Z. rewrite inject_Z_mult, Ex.
      apply Qmult_le_compat_r; [exact Hx | lra]. }
    rewrite Zle_Qle, inject_Z_mult in Hr.
    set (r := inject_Z (Py.round _)) in *. rewrite Es.
    apply Qle_shift_div_l; [exact Hs | exact Hr].
Qed.

(** The literal [3.6] is the binary64 number just above 3.6. *)
Lemma literal_3_6 :
  (3.6 <= Py.fl 3.6)%Q /\ Py.fl 3.6 = (8106479329266893 # 2251799813685248)%Q.
Proof. split; [vm_compute; discriminate | vm_compute; reflexivity]. Qed.

(** ** Entries of a forecast, tier by tier *)

Lemma Forall2_map_r_In {A B : Type} (P : A -> B -> Prop) (f : A -> B) (l : list A) :
  (forall x, In x l -> P x (f x)) -> Forall2 P l (map f l).
Proof.
  induction l as [|x l IH]; intros H; simpl; constructor.
  - apply H. now left.
  - apply IH. intros y Hy. apply H. now right.
Qed.

Lemma mapM_Forall2_In {A B : Type} (f : A -> Py.result B) (l : list A) (l' : list B) :
  Py.mapM f l = Ok l' -> Forall2 (fun x y => In x l /\ f x = Ok y) l l'.
Proof.
  revert l'. induction l as [|x l IH]; intros l' H; simpl in H.
  - injection H as <-. constructor.
  - apply bind_Ok in H as (y & Hy & H). apply bind_Ok in H as (ys & Hys & H).
    injection H as <-. constructor; [split; [now left | exact Hy]|].
    refine (Forall2_impl _ _ _ _ (IH _ Hys) _). intros a b [Ha Hb]. split; [now right | exact Hb].
Qed.

Section Entries.
Variable lower : string -> string.
Variable P : Z -> Weather.forecast_day -> Prop.
Hypothesis P_default : forall forecast_date, P forecast_date (Weather.default_day forecast_date).

Lemma google_forecast_entries (w : Weather.world) (latitude longitude : Q) (days : Z)
    (key : string) (r : Weather.weather_result) :
  (forall forecast_date day_data d,
     Weather.google_day lower forecast_date day_data = Ok d -> P forecast_date d) ->
  Weather._get_weather_from_google lower w latitude longitude days key = Ok r ->
  Forall2 (fun i d => P (Weather.today w + i)%Z d) (Weather.range days) (Weather.forecast r).
Proof.
  intros Hday. unfold Weather._get_weather_from_google. intros H. bind_inv H.
  injection H as <-. cbn [Weather.forecast].
  match goal with
  | E : Py.mapM _ _ = Ok _ |- _ => apply mapM_Forall2 in E; refine (Forall2_impl _ _ _ _ E _)
  end.
  intros i d Hd. unfold Weather.google_entry in Hd.
  destruct (Z.ltb i _).
  - apply bind_Ok in Hd as (day_data & _ & Hd). exact (Hday _ _ _ Hd).
  - injection Hd as <-. apply P_default.
Qed.

Lemma openweathermap_forecast_entries (w : Weather.world) (latitude longitude : Q) (days : Z)
    (key : string) (r : Weather.weather_result) :
  (forall forecast_date bucket d,
     Weather.openweather_day lower forecast_date bucket = Ok d -> P forecast_date d) ->
  Weather._get_weather_from_openweathermap lower w latitude longitude days key = Ok r ->
  Forall2 (fun i d => P (Weather.today w + i)%Z d) (Weather.range days) (Weather.forecast r).
Proof.
  intros Hday. unfold Weather._get_weather_from_openweathermap. intros H. bind_inv H.
  injection H as <-. cbn [Weather.forecast].
  match goal with
  | E : Py.mapM _ _ = Ok _ |- _ => apply mapM_Forall2 in E; refine (Forall2_impl _ _ _ _ E _)
  end.
  intros i d Hd. unfold Weather.openweather_entry in Hd.
  destruct (_ !! _).
  - exact (Hday _ _ _ Hd).
  - injection Hd as <-. apply P_default.
Qed.

Lemma mock_forecast_entries (w : Weather.world) (latitude longitude : Q) (days : Z) :
  (forall today i, (0 <= i)%Z -> P (today + i)%Z (Weather.mock_day today i)) ->
  Forall2 (fun i d => P (Weather.today w + i)%Z d) (Weather.range days)
    (Weather.forecast (Weather._get_mock_weather_forecast w latitude longitude days)).
Proof.
  intros Hmock. cbn [Weather._get_mock_weather_forecast Weather.forecast].
  apply Forall2_map_r_In. intros i Hi. apply range_In in Hi. apply Hmock. lia.
Qed.

(** What holds of the entries of every tier holds of the entries the
    tool returns. *)
Lemma forecast_entries (w : Weather.world) (latitude longitude : Q) (days : Z)
    (tool_context : option Adk.ToolContext) :
  (forall forecast_date day_data d,
     Weather.google_day lower forecast_date day_data = Ok d -> P forecast_date d) ->
  (forall forecast_date bucket d,
     Weather.openweather_day lower forecast_date bucket = Ok d -> P forecast_date d) ->
  (forall today i, (0 <= i)%Z -> P (today + i)%Z (Weather.mock_day today i)) ->
  Forall2 (fun i d => P (Weather.today w + i)%Z d)
    (Weather.range (WeatherSpec.clamp days))
    (Weather.forecast
       (Weather.get_weather_forecast lower w latitude longitude days tool_context)).
Proof.
  intros Hg Ho Hm.
  destruct (forecast_source lower w latitude longitude days tool_context)
    as [[key H] | [[key H] | H]].
  - exact (google_forecast_entries _ _ _ _ _ _ Hg H).
  - exact (openweathermap_forecast_entries _ _ _ _ _ _ Ho H).
  - rewrite H. now apply mock_forecast_entries.
Qed.

End Entries.

Lemma Forall2_holds_right {A B : Type} (P : A -> B -> Prop) (Q : B -> Prop) (l : list A)
    (l' : list B) :
  (forall x y, P x y -> Q y) -> Forall2 P l l' -> Forall Q l'.
Proof. intros H HF. induction HF; constructor; eauto. Qed.

Lemma Forall2_map_eq {A B C : Type} (f : A -> C) (g : B -> C) (l : list A) (l' : list B) :
  Forall2 (fun x y => g y = f x) l l' -> map g l' = map f l.
Proof. intros HF. induction HF; simpl; congruence. Qed.

(** ** Dates and week days *)

Lemma NoDup_map_on {A B : Type} (f : A -> B) (l : list A) :
  (forall x y, In x l -> In y l -> f x = f y -> x = y) ->
  List.NoDup l -> List.NoDup (map f l).
Proof.
  induction l as [|a l IH]; intros Hinj Hnd; simpl; [constructor|].
  inversion Hnd as [|? ? Ha Hl]; subst. constructor.
  - intros Hin. apply in_map_iff in Hin as (y & Hy & Hin).
    assert (y = a) by (apply Hinj; [now right | now left | exact Hy]). now subst.
  - apply IH; [|exact Hl]. intros x y Hx Hy. apply Hinj; now right.
Qed.

Lemma range_NoDup (n : Z) : List.NoDup (Weather.range n).
Proof.
  unfold Weather.range. apply NoDup_map_on; [|apply seq_NoDup].
  intros a b _ _. apply Nat2Z.inj.
Qed.

Lemma weekday_bounds (d : Z) : (0 <= Weather.weekday d < 7)%Z.
Proof. unfold Weather.weekday. apply Z.mod_pos_bound. lia. Qed.

Lemma day_of_week_In (weekday : Z) :
  (0 <= weekday < 7)%Z -> In (Weather._get_day_of_week_cn weekday) TierSpec.day_names.
Proof.
  intros H. unfold Weather._get_day_of_week_cn. apply nth_In.
  change (List.length _) with 7%nat. lia.
Qed.

Lemma day_of_week_injective (a b : Z) :
  (0 <= a < 7)%Z -> (0 <= b < 7)%Z ->
  Weather._get_day_of_week_cn a = Weather._get_day_of_week_cn b -> a = b.
Proof.
  intros Ha Hb.
  assert (Ea : (a = 0 \/ a = 1 \/ a = 2 \/ a = 3 \/ a = 4 \/ a = 5 \/ a = 6)%Z) by lia.
  assert (Eb : (b = 0 \/ b = 1 \/ b = 2 \/ b = 3 \/ b = 4 \/ b = 5 \/ b = 6)%Z) by lia.
  repeat (destruct Ea as [-> | Ea]); try subst a;
    repeat (destruct Eb as [-> | Eb]); try subst b;
    vm_compute; intros H; first [reflexivity | discriminate H].
Qed.

(** X5.  Whichever tier answers, the entries of the forecast are dated
    today, tomorrow and so on, one per clamped day; each carries the
    name of the week day of its date, one of seven names, and no name
    occurs twice. *)
Theorem forecast_covers_consecutive_days (lower : string -> string) (w : Weather.world)
    (latitude longitude : Q) (days : Z) (tool_context : option Adk.ToolContext) :
  map Weather.date
    (Weather.forecast
       (Weather.get_weather_forecast lower w latitude longitude days tool_context))
  = map (fun i => Weather.today w + i)%Z (Weather.range (Z.min (Z.max days 1) 7)) /\
  Forall (fun d =>
            Weather.day_of_week d = Weather._get_day_of_week_cn (Weather.weekday (Weather.date d)) /\
            In (Weather.day_of_week d) TierSpec.day_names)
    (Weather.forecast
       (Weather.get_weather_forecast lower w latitude longitude days tool_context)) /\
  List.NoDup
    (map Weather.day_of_week
       (Weather.forecast
          (Weather.get_weather_forecast lower w latitude longitude days tool_context))).
Proof.
  pose proof (forecast_entries lower
    (fun forecast_date d =>
       Weather.date d = forecast_date /\
       Weather.day_of_week d = Weather._get_day_of_week_cn (Weather.weekday forecast_date))
    (fun _ => conj eq_refl eq_refl) w latitude longitude days tool_context) as H.
  cbv beta in H.
  assert (Hall : Forall2
    (fun i d =>
       Weather.date d = (Weather.today w + i)%Z /\
       Weather.day_of_week d
       = Weather._get_day_of_week_cn (Weather.weekday (Weather.today w + i)))
    (Weather.range (WeatherSpec.clamp days))
    (Weather.forecast
       (Weather.get_weather_forecast lower w latitude longitude days tool_context))).
  { apply H.
    - intros forecast_date day_data d Hd. unfold Weather.google_day in Hd. bind_inv Hd.
      injection Hd as <-. split; reflexivity.
    - intros forecast_date bucket d Hd. unfold Weather.openweather_day in Hd. bind_inv Hd.
      injection Hd as <-. split; reflexivity.
    - intros today i _. split; reflexivity. }
  clear H. change (Z.min (Z.max days 1) 7) with (WeatherSpec.clamp days).
  split; [|split].
  - apply Forall2_map_eq. refine (Forall2_impl _ _ _ _ Hall _). now intros i d [Hd _].
  - refine (Forall2_holds_right _ _ _ _ _ Hall). intros i d [Hd Hn]. rewrite Hd, Hn.
    split; [reflexivity|]. apply day_of_week_In, weekday_bounds.
  - rewrite (Forall2_map_eq
               (fun i => Weather._get_day_of_week_cn (Weather.weekday (Weather.today w + i)))
               Weather.day_of_week (Weather.range (WeatherSpec.clamp days))).
    + apply NoDup_map_on; [|apply range_NoDup].
      intros i j Hi Hj Hij. apply range_In in Hi, Hj.
      pose proof (clamp_bounds days) as Hc.
      apply day_of_week_injective in Hij; try apply weekday_bounds.
      unfold Weather.weekday in Hij.
      revert Hij. Z.div_mod_to_equations. lia.
    + refine (Forall2_impl _ _ _ _ Hall _). now intros i d [_ Hn].
Qed.

(** ** The outdoor flag *)

Lemma key_eqb_JStr (v : Py.json) (s : string) : Py.key_eqb v (Py.JStr s) = true -> v = Py.JStr s.
Proof.
  destruct v as [|b|q|t|l|f]; cbn; try discriminate.
  intros H. apply String.eqb_eq in H. now subst.
Qed.

Lemma mock_condition_In (i : Z) :
  (0 <= i)%Z ->
  In (nth (Z.to_nat (i mod Z.of_nat (List.length Weather.mock_conditions)))
          Weather.mock_conditions "")
     Weather.mock_conditions.
Proof.
  intros Hi. change (Z.of_nat (List.length Weather.mock_conditions)) with 7%Z.
  assert (Hm : (0 <= i mod 7 < 7)%Z) by (apply Z.mod_pos_bound; lia).
  apply nth_In. change (List.length Weather.mock_conditions) with 7%nat. lia.
Qed.

(** X6.  Whichever tier answers, an entry flagged suitable for outdoor
    training shows a precipitation probability of at most 50. *)
Theorem outdoor_days_have_low_rain_probability (lower : string -> string) (w : Weather.world)
    (latitude longitude : Q) (days : Z) (tool_context : option Adk.ToolContext) :
  Forall (fun d => Weather.suitable_for_outdoor d = true ->
                   (Weather.precipitation_probability d <= 50)%Z)
    (Weather.forecast
       (Weather.get_weather_forecast lower w latitude longitude days tool_context)).
Proof.
  refine (Forall2_holds_right _ _ _ _ (fun _ _ H => H)
            (forecast_entries lower
               (fun _ d => Weather.suitable_for_outdoor d = true ->
                           (Weather.precipitation_probability d <= 50)%Z)
               _ w latitude longitude days tool_context _ _ _)).
  - intros forecast_date _. cbn. lia.
  - intros forecast_date day_data d Hd. unfold Weather.google_day in Hd. bind_inv Hd.
    injection Hd as <-. cbn [Weather.suitable_for_outdoor Weather.precipitation_probability].
    intros ->.
    match goal with
    | E : (if _ then _ else Ok false) = Ok true |- _ =>
        destruct (negb _ && negb _); [|discriminate E];
        apply bind_Ok in E as (p & Ep & E)
    end.
    destruct (Qlt_le_dec p 50) as [Hp|]; [|discriminate].
    match goal with
    | E : Py.round_value _ = Ok ?prob |- (?prob <= _)%Z =>
        unfold Py.round_value in E; rewrite Ep in E; injection E as <-
    end.
    apply round_le_Z. change (inject_Z 50) with 50%Q. lra.
  - intros forecast_date bucket d Hd. unfold Weather.openweather_day in Hd. bind_inv Hd.
    injection Hd as <-. cbn [Weather.suitable_for_outdoor Weather.precipitation_probability].
    intros Hs. apply andb_true_iff in Hs as [_ Hs].
    match type of Hs with
    | (if Qlt_le_dec ?t 1 then _ else _) = _ => destruct (Qlt_le_dec t 1) as [Ht|]; [|discriminate];
        destruct (Qlt_le_dec 0 t); [|lia];
        assert (Py.round (Py.mul t 20) <= 20)%Z
          by (apply round_le_Z, fl_le_Z; [vm_compute; discriminate|];
              change (inject_Z 20) with 20%Q; lra)
    end.
    lia.
  - intros today i Hi. unfold Weather.mock_day.
    cbn [Weather.suitable_for_outdoor Weather.precipitation_probability].
    intros ->. cbn. lia.
Qed.

Lemma dry_label (label : string) :
  In label WeatherSpec.vocabulary ->
  negb (Py.str_in "雨" label) && negb (Py.str_in "雪" label) = true ->
  In label TierSpec.dry_labels.
Proof.
  intros Hin. vm_compute in Hin.
  repeat (destruct Hin as [<- | Hin]; [vm_compute; first [discriminate | tauto]|]).
  destruct Hin.
Qed.

(** X7.  When [str.lower] lowers "Clear" and "Clouds", whichever tier
    answers, an entry flagged suitable for outdoor training carries one
    of the four labels without rain and without snow. *)
Theorem outdoor_days_have_dry_labels (lower : string -> string) (w : Weather.world)
    (latitude longitude : Q) (days : Z) (tool_context : option Adk.ToolContext) :
  lower "Clear" = "clear" -> lower "Clouds" = "clouds" ->
  Forall (fun d => Weather.suitable_for_outdoor d = true ->
                   In (Weather.condition d) TierSpec.dry_labels /\
                   Py.str_in "雨" (Weather.condition d) = false /\
                   Py.str_in "雪" (Weather.condition d) = false)
    (Weather.forecast
       (Weather.get_weather_forecast lower w latitude longitude days tool_context)).
Proof.
  intros Hclear Hclouds.
  assert (Hdry : forall label, In label TierSpec.dry_labels ->
            In label TierSpec.dry_labels /\
            Py.str_in "雨" label = false /\ Py.str_in "雪" label = false).
  { intros label Hin. split; [exact Hin|]. vm_compute in Hin.
    repeat (destruct Hin as [<- | Hin]; [split; reflexivity|]). destruct Hin. }
  refine (Forall2_holds_right _ _ _ _ (fun _ _ H => H)
            (forecast_entries lower
               (fun _ d => Weather.suitable_for_outdoor d = true ->
                           In (Weather.condition d) TierSpec.dry_labels /\
                           Py.str_in "雨" (Weather.condition d) = false /\
                           Py.str_in "雪" (Weather.condition d) = false)
               _ w latitude longitude days tool_context _ _ _)).
  - intros forecast_date _. apply Hdry. vm_compute. tauto.
  - intros forecast_date day_data d Hd.
    pose proof (google_day_condition _ _ _ _ Hd) as [Hvoc _].
    unfold Weather.google_day in Hd. bind_inv Hd.
    injection Hd as <-. cbn [Weather.suitable_for_outdoor Weather.condition] in *.
    intros ->. apply Hdry.
    match goal with
    | E : (if ?c then _ else Ok false) = Ok true |- _ =>
        destruct c eqn:Ec; [|discriminate E]
    end.
    now apply dry_label.
  - intros forecast_date bucket d Hd. unfold Weather.openweather_day in Hd. bind_inv Hd.
    injection Hd as <-. cbn [Weather.suitable_for_outdoor Weather.condition].
    intros Hs. apply andb_true_iff in Hs as [Hs _]. apply Hdry.
    apply orb_true_iff in Hs as [Hs | Hs]; apply key_eqb_JStr in Hs; subst;
      match goal with
      | E : Weather.map_condition_value _ _ = Ok _ |- _ =>
          cbn in E; injection E as <-
      end;
      unfold Weather._map_condition_to_chinese; rewrite ?Hclear, ?Hclouds;
      vm_compute; tauto.
  - intros today i Hi. unfold Weather.mock_day.
    cbn [Weather.suitable_for_outdoor Weather.condition].
    pose proof (mock_condition_In i Hi) as Hin. revert Hin.
    generalize (nth (Z.to_nat (i mod Z.of_nat (List.length Weather.mock_conditions)))
                    Weather.mock_conditions "").
    intros label Hin Hs. apply Hdry. vm_compute in Hin.
    repeat (destruct Hin as [<- | Hin]; [revert Hs; vm_compute; first [discriminate | tauto]|]).
    destruct Hin.
Qed.

Lemma outdoor_days_have_dry_labels_witness :
  Forall (fun d => Weather.suitable_for_outdoor d = true ->
                   In (Weather.condition d) TierSpec.dry_labels /\
                   Py.str_in "雨" (Weather.condition d) = false /\
                   Py.str_in "雪" (Weather.condition d) = false)
    (Weather.forecast
       (Weather.get_weather_forecast Py.str_lower OpenWeatherSpec.half_world 40 (-73) 1 None)).
Proof.
  apply (outdoor_days_have_dry_labels Py.str_lower OpenWeatherSpec.half_world 40 (-73) 1 None);
    reflexivity.
Defined.

(** ** What the tool reads *)

Lemma add_item_clock (w w' : Weather.world) (daily : gmap Z Weather.day_bucket)
    (item : Py.json) :
  (forall t, Weather.fromtimestamp_date w' t = Weather.fromtimestamp_date w t) ->
  Weather.add_item w' daily item = Weather.add_item w daily item.
Proof.
  intros Hclock. unfold Weather.add_item.
  destruct (Py.getitem item "dt") as [dt|]; [|reflexivity]. cbn [Py.bind].
  destruct (Py.as_number dt) as [timestamp|]; [|reflexivity]. cbn [Py.bind].
  now rewrite Hclock.
Qed.

Lemma add_items_clock (w w' : Weather.world) (items : list Py.json)
    (daily : gmap Z Weather.day_bucket) :
  (forall t, Weather.fromtimestamp_date w' t = Weather.fromtimestamp_date w t) ->
  Weather.add_items w' daily items = Weather.add_items w daily items.
Proof.
  intros Hclock. revert daily. induction items as [|item items IH]; intros daily; [reflexivity|].
  cbn [Weather.add_items]. rewrite (add_item_clock w w' daily item Hclock).
  destruct (Weather.add_item w daily item); [cbn [Py.bind]; apply IH | reflexivity].
Qed.

(** X8.  The forecast depends on the outside world through the
    environment, the clock and two responses only: that of the primary
    provider to the request for the clamped number of days, and that of
    the secondary provider to the request for eight samples per clamped
    day, both for the coordinates given and under the first credential
    configured for the provider. *)
Theorem forecast_reads_two_responses (lower : string -> string) (w w' : Weather.world)
    (latitude longitude : Q) (days : Z) (tool_context : option Adk.ToolContext) :
  Weather.environ w' = Weather.environ w ->
  Weather.today w' = Weather.today w ->
  (forall t, Weather.fromtimestamp_date w' t = Weather.fromtimestamp_date w t) ->
  (forall key, WeatherSpec.primary_credential w tool_context = Some key ->
     Weather.requests_get w'
       (Weather.GoogleForecast key latitude longitude (Z.min (Z.max days 1) 7))
     = Weather.requests_get w
         (Weather.GoogleForecast key latitude longitude (Z.min (Z.max days 1) 7))) ->
  (forall key, WeatherSpec.secondary_credential w = Some key ->
     Weather.requests_get w'
       (Weather.OpenWeatherForecast latitude longitude key (Z.min (Z.max days 1) 7 * 8))
     = Weather.requests_get w
         (Weather.OpenWeatherForecast latitude longitude key (Z.min (Z.max days 1) 7 * 8))) ->
  Weather.get_weather_forecast lower w' latitude longitude days tool_context
  = Weather.get_weather_forecast lower w latitude longitude days tool_context.
Proof.
  intros Henv Htoday Hclock Hprimary Hsecondary.
  rewrite !get_weather_forecast_resolve. unfold WeatherSpec.resolve_forecast.
  change (Z.min (Z.max days 1) 7) with (WeatherSpec.clamp days) in *.
  assert (Hp : WeatherSpec.primary_credential w' tool_context
               = WeatherSpec.primary_credential w tool_context).
  { unfold WeatherSpec.primary_credential. now rewrite Henv. }
  assert (Hs : WeatherSpec.secondary_credential w' = WeatherSpec.secondary_credential w).
  { unfold WeatherSpec.secondary_credential. now rewrite Henv. }
  rewrite Hp, Hs.
  assert (Hg : forall key, WeatherSpec.primary_credential w tool_context = Some key ->
            Weather._get_weather_from_google lower w' latitude longitude
              (WeatherSpec.clamp days) key
            = Weather._get_weather_from_google lower w latitude longitude
                (WeatherSpec.clamp days) key).
  { intros key Hk. unfold Weather._get_weather_from_google.
    now rewrite (Hprimary key Hk), Htoday. }
  assert (Ho : forall key, WeatherSpec.secondary_credential w = Some key ->
            Weather._get_weather_from_openweathermap lower w' latitude longitude
              (WeatherSpec.clamp days) key
            = Weather._get_weather_from_openweathermap lower w latitude longitude
                (WeatherSpec.clamp days) key).
  { intros key Hk. unfold Weather._get_weather_from_openweathermap.
    rewrite (Hsecondary key Hk), Htoday.
    destruct (Weather.requests_get w _) as [response|]; [|reflexivity]. cbn [Py.bind].
    destruct (Weather.raise_for_status response); [|reflexivity]. cbn [Py.bind].
    destruct (Weather.response_json response) as [data|]; [|reflexivity]. cbn [Py.bind].
    destruct (Py.get data "list" (Py.JArr [])) as [list_|]; [|reflexivity]. cbn [Py.bind].
    destruct (Py.iter list_) as [items|]; [|reflexivity]. cbn [Py.bind].
    now rewrite (add_items_clock w w' items ∅ Hclock). }
  assert (Hm : Weather._get_mock_weather_forecast w' latitude longitude (WeatherSpec.clamp days)
               = Weather._get_mock_weather_forecast w latitude longitude (WeatherSpec.clamp days)).
  { unfold Weather._get_mock_weather_forecast. now rewrite Htoday. }
  destruct (WeatherSpec.primary_credential w tool_context) as [pk|];
    destruct (WeatherSpec.secondary_credential w) as [sk|];
    cbn [WeatherSpec.tier];
    rewrite ?(Hg pk eq_refl), ?(Ho sk eq_refl), Hm; reflexivity.
Qed.

Lemma forecast_reads_two_responses_witness :
  Weather.get_weather_forecast Py.str_lower
    (SecondarySpec.secondary_world 739252 8 (payload "(body)" [half_sample])) 40 (-73) 1 None
  = Weather.get_weather_forecast Py.str_lower half_world 40 (-73) 1 None.
Proof.
  apply (forecast_reads_two_responses Py.str_lower half_world
           (SecondarySpec.secondary_world 739252 8 (payload "(body)" [half_sample]))
           40 (-73) 1 None).
  - reflexivity.
  - reflexivity.
  - reflexivity.
  - intros key Hk. discriminate Hk.
  - intros key Hk. vm_compute in Hk. injection Hk as <-. reflexivity.
Defined.

(** ** Synthetic data *)

(** X9.  The synthetic forecast, for any number of days: entry [i] is
    dated [today + i] and carries condition [i mod 7] of the cycle; it
    is unsuitable for outdoor training, with probability 70, exactly
    when [i mod 7 = 3], and suitable with probability 20 otherwise; its
    high is its low plus 5, its low lies in 18..22, its humidity in
    60..70, its wind in 8..12, and its icon is never the generic one. *)
Theorem mock_forecast_pattern (w : Weather.world) (latitude longitude : Q) (days : Z) :
  Forall2
    (fun i d =>
       Weather.date d = (Weather.today w + i)%Z /\
       Weather.condition d = nth (Z.to_nat (i mod 7)) Weather.mock_conditions "" /\
       (Weather.suitable_for_outdoor d = false <-> (i mod 7 = 3)%Z) /\
       (Weather.precipitation_probability d = 70%Z <-> (i mod 7 = 3)%Z) /\
       (Weather.precipitation_probability d = 20%Z <-> (i mod 7 <> 3)%Z) /\
       Weather.temperature_high d = (Weather.temperature_low d + 5)%Z /\
       (18 <= Weather.temperature_low d <= 22)%Z /\
       (60 <= Weather.humidity d <= 70)%Z /\
       (8 <= Weather.wind_speed d <= 12)%Z /\
       Weather.condition_icon d <> WeatherSpec.default_icon)
    (Weather.range days)
    (Weather.forecast (Weather._get_mock_weather_forecast w latitude longitude days)).
Proof.
  cbn [Weather._get_mock_weather_forecast Weather.forecast].
  apply Forall2_map_r_In. intros i Hi. apply range_In in Hi.
  unfold Weather.mock_day.
  cbn [Weather.date Weather.condition Weather.suitable_for_outdoor
       Weather.precipitation_probability Weather.temperature_high Weather.temperature_low
       Weather.humidity Weather.wind_speed Weather.condition_icon].
  change (Z.of_nat (List.length Weather.mock_conditions)) with 7%Z.
  assert (H3 : (0 <= i mod 3 < 3)%Z) by (apply Z.mod_pos_bound; lia).
  assert (H7 : (i mod 7 = 0 \/ i mod 7 = 1 \/ i mod 7 = 2 \/ i mod 7 = 3 \/
                i mod 7 = 4 \/ i mod 7 = 5 \/ i mod 7 = 6)%Z).
  { pose proof (Z.mod_pos_bound i 7). lia. }
  split; [reflexivity|]. split; [reflexivity|].
  assert (Hrest :
    let condition := nth (Z.to_nat (i mod 7)) Weather.mock_conditions "" in
    (negb (Py.str_in "雨" condition) = false <-> (i mod 7 = 3)%Z) /\
    ((if negb (Py.str_in "雨" condition) then 20%Z else 70%Z) = 70%Z <-> (i mod 7 = 3)%Z) /\
    ((if negb (Py.str_in "雨" condition) then 20%Z else 70%Z) = 20%Z <-> (i mod 7 <> 3)%Z) /\
    Weather._get_weather_icon condition <> WeatherSpec.default_icon).
  { repeat (destruct H7 as [-> | H7]); try rewrite H7;
      vm_compute; repeat split; intros; try discriminate; try congruence. }
  destruct Hrest as (Hs & Hp & Hq & Hicon).
  split; [exact Hs|]. split; [exact Hp|]. split; [exact Hq|].
  split; [lia|]. split; [lia|]. split; [lia|]. split; [lia|]. exact Hicon.
Qed.

(** ** Payloads of the primary provider *)

Lemma mapM_ext {A B : Type} (f g : A -> Py.result B) (l : list A) :
  (forall x, In x l -> f x = g x) -> Py.mapM f l = Py.mapM g l.
Proof.
  induction l as [|x l IH]; intros H; simpl; [reflexivity|].
  rewrite (H x (or_introl eq_refl)), IH; [reflexivity|].
  intros y Hy. apply H. now right.
Qed.





(** X11.  When [str.lower] leaves the default label as it is, a daily
    item of the primary provider that has none of the ten keys the tool
    reads gives the same entry as a day without data. *)
Theorem primary_item_without_fields_is_default_day (lower : string -> string)
    (forecast_date : Z) (fields : list (string * Py.json)) :
  lower "多云" = "多云" ->
  (forall key, In key PrimarySpec.day_keys -> Py.dict_get fields key = None) ->
  Weather.google_day lower forecast_date (Py.JObj fields)
  = Ok (Weather.default_day forecast_date).
Proof.
  intros Hlower Hnone. unfold Weather.google_day. cbn [Py.get].
  rewrite !Hnone by (vm_compute; tauto).
  cbn [Py.bind Py.truthy Py.get Py.dict_get Weather.map_condition_value].
  rewrite (normalizer_on_label lower "多云" default_label_in_vocabulary Hlower).
  reflexivity.
Qed.

Lemma primary_item_without_fields_is_default_day_witness :
  Weather.google_day Py.str_lower 739252 (Py.JObj [("uvIndex", Py.JNum 3)])
  = Ok (Weather.default_day 739252).
Proof.
  apply (primary_item_without_fields_is_default_day Py.str_lower 739252
           [("uvIndex", Py.JNum 3)]).
  - reflexivity.
  - intros key Hin. vm_compute in Hin.
    repeat (destruct Hin as [<- | Hin]; [reflexivity|]). destruct Hin.
Defined.

(** ** Bounds *)

Lemma Q_list_min_le_max (x : Q) (l : list Q) : (Weather.Qmin_list x l <= Weather.Qmax_list x l)%Q.
Proof.
  destruct (Qmax_list_is_max x l) as [_ Hmax].
  destruct (Qmin_list_is_min x l) as [_ Hmin].
  apply Qle_trans with x; [apply Hmin | apply Hmax]; now left.
Qed.

(** X12.  Whatever the secondary provider returned, every entry of a
    forecast the secondary tier produces has a low not above its high
    and a precipitation probability between 0 and 100, and at most 20
    when the entry is flagged suitable for outdoor training. *)
Theorem secondary_forecast_is_bounded (lower : string -> string) (w : Weather.world)
    (latitude longitude : Q) (days : Z) (api_key : string) (r : Weather.weather_result) :
  Weather._get_weather_from_openweathermap lower w latitude longitude days api_key = Ok r ->
  Forall (fun d =>
            (Weather.temperature_low d <= Weather.temperature_high d)%Z /\
            (0 <= Weather.precipitation_probability d <= 100)%Z /\
            (Weather.suitable_for_outdoor d = true ->
             (Weather.precipitation_probability d <= 20)%Z))
    (Weather.forecast r).
Proof.
  intros H.
  refine (Forall2_holds_right _ _ _ _ (fun _ _ H => H)
            (openweathermap_forecast_entries lower
               (fun _ d =>
                  (Weather.temperature_low d <= Weather.temperature_high d)%Z /\
                  (0 <= Weather.precipitation_probability d <= 100)%Z /\
                  (Weather.suitable_for_outdoor d = true ->
                   (Weather.precipitation_probability d <= 20)%Z))
               _ w latitude longitude days api_key r _ H)).
  - intros forecast_date. cbn. lia.
  - intros forecast_date bucket d Hd. unfold Weather.openweather_day in Hd. bind_inv Hd.
    injection Hd as <-.
    cbn [Weather.temperature_low Weather.temperature_high Weather.precipitation_probability
         Weather.suitable_for_outdoor].
    split; [|split].
    + repeat match goal with
             | E : match ?l with [] => Raise _ | _ :: _ => _ end = Ok _ |- _ =>
                 destruct l; [discriminate E | injection E as <-]
             | E : Ok _ = Ok _ |- _ => injection E as <-
             end.
      apply round_monotone, Q_list_min_le_max.
    + match goal with
      | |- context [Qlt_le_dec 0 ?t] =>
          destruct (Qlt_le_dec 0 t) as [Ht|]; [|lia];
          assert (0 <= Py.round (Py.mul t 20))%Z
            by (apply round_ge_Z, fl_ge_Z; [vm_compute; discriminate|];
                change (inject_Z 0) with 0%Q; lra)
      end.
      lia.
    + intros Hs. apply andb_true_iff in Hs as [_ Hs].
      match type of Hs with
      | (if Qlt_le_dec ?t 1 then _ else _) = _ =>
          destruct (Qlt_le_dec t 1) as [Ht|]; [|discriminate];
          destruct (Qlt_le_dec 0 t); [|lia];
          assert (Py.round (Py.mul t 20) <= 20)%Z
            by (apply round_le_Z, fl_le_Z; [vm_compute; discriminate|];
                change (inject_Z 20) with 20%Q; lra)
      end.
      lia.
Qed.

Lemma secondary_forecast_is_bounded_witness :
  Forall (fun d =>
            (Weather.temperature_low d <= Weather.temperature_high d)%Z /\
            (0 <= Weather.precipitation_probability d <= 100)%Z /\
            (Weather.suitable_for_outdoor d = true ->
             (Weather.precipitation_probability d <= 20)%Z))
    [SecondarySpec.half_day].
Proof.
  apply (secondary_forecast_is_bounded Py.str_lower OpenWeatherSpec.half_world 40 (-73) 1
           "secondary-key"
           {| Weather.status := "success"; Weather.forecast := [SecondarySpec.half_day] |}).
  vm_compute. reflexivity.
Defined.

(** X13.  The primary tier multiplies a wind speed above 50 by 3.6, so
    no entry of a forecast it produces has a wind speed from 51 to 179. *)
Theorem primary_wind_speed_has_a_gap (lower : string -> string) (w : Weather.world)
    (latitude longitude : Q) (days : Z) (api_key : string) (r : Weather.weather_result) :
  Weather._get_weather_from_google lower w latitude longitude days api_key = Ok r ->
  Forall (fun d => (Weather.wind_speed d <= 50)%Z \/ (180 <= Weather.wind_speed d)%Z)
    (Weather.forecast r).
Proof.
  intros H.
  refine (Forall2_holds_right _ _ _ _ (fun _ _ H => H)
            (google_forecast_entries lower
               (fun _ d => (Weather.wind_speed d <= 50)%Z \/ (180 <= Weather.wind_speed d)%Z)
               _ w latitude longitude days api_key r _ H)).
  - intros forecast_date. cbn. lia.
  - intros forecast_date day_data d Hd. unfold Weather.google_day in Hd. bind_inv Hd.
    injection Hd as <-. cbn [Weather.wind_speed].
    match goal with
    | |- context [Qlt_le_dec 50 ?n] => destruct (Qlt_le_dec 50 n)
    end.
    + right. apply round_ge_Z, fl_ge_Z; [vm_compute; discriminate|].
      pose proof literal_3_6 as [Hc _]. change (inject_Z 180) with 180%Q.
      set (c := Py.fl 3.6) in *. nra.
    + left. apply round_le_Z. change (inject_Z 50) with 50%Q. lra.
Qed.

Lemma primary_wind_speed_has_a_gap_witness :
  Forall (fun d => (Weather.wind_speed d <= 50)%Z \/ (180 <= Weather.wind_speed d)%Z)
    [TierSpec.windy_day].
Proof.
  apply (primary_wind_speed_has_a_gap Py.str_lower
           (TierSpec.primary_world 739252
              (TierSpec.daily_payload [Py.JObj [("windSpeed", Py.JNum 60)]]))
           40 (-73) 1 "primary-key"
           {| Weather.status := "success"; Weather.forecast := [TierSpec.windy_day] |}).
  vm_compute. reflexivity.
Defined.

(** ** Samples of the secondary provider *)

Lemma openweathermap_by_dates (lower : string -> string) (w : Weather.world)
    (latitude longitude : Q) (days : Z) (api_key body : string) (samples : list sample) :
  Weather.requests_get w (Weather.OpenWeatherForecast latitude longitude api_key (days * 8))
    = Ok (payload body samples) ->
  (forall s, In s samples -> Weather.fromtimestamp_date w (sample_dt s) = Ok (sample_date s)) ->
  Weather._get_weather_from_openweathermap lower w latitude longitude days api_key
  = let! forecast_list :=
      Py.mapM (fun i =>
                 match on_date (Weather.today w + i) samples with
                 | [] => Ok (Weather.default_day (Weather.today w + i))
                 | _ :: _ =>
                     Weather.openweather_day lower (Weather.today w + i)
                       (bucket_of (on_date (Weather.today w + i) samples))
                 end)
              (Weather.range days) in
    Ok {| Weather.status := "success"; Weather.forecast := forecast_list |}.
Proof.
  intros Hreq Hdates.
  unfold Weather._get_weather_from_openweathermap. rewrite Hreq.
  cbn -[Weather.add_items Py.mapM Weather.range Weather.openweather_entry].
  destruct (add_items_samples w samples [] ∅ Hdates represents_empty) as (daily & Hadd & Hrep).
  rewrite Hadd. cbn [Py.bind]. cbn [app] in Hrep.
  f_equal. apply mapM_ext. intros i _.
  unfold Weather.openweather_entry. rewrite (Hrep (Weather.today w + i)%Z).
  now destruct (on_date (Weather.today w + i) samples).
Qed.

Lemma on_date_in_window (today days d : Z) (samples : list sample) :
  (today <= d < today + days)%Z ->
  on_date d (List.filter (SecondarySpec.in_window today days) samples) = on_date d samples.
Proof.
  intros Hd. unfold on_date. induction samples as [|s samples IH]; [reflexivity|].
  cbn [List.filter]. unfold SecondarySpec.in_window at 1.
  destruct (Z.leb_spec today (sample_date s)); destruct (Z.ltb_spec (sample_date s) (today + days));
    cbn [andb List.filter]; rewrite IH; try reflexivity;
    destruct (Z.eqb_spec (sample_date s) d); try reflexivity; lia.
Qed.

(** X14.  The secondary tier gives the same result for a list of samples
    and for that list without the samples dated before today or after
    the last requested day. *)
Theorem secondary_ignores_samples_outside_the_window (lower : string -> string)
    (w w' : Weather.world) (latitude longitude : Q) (days : Z) (api_key body body' : string)
    (samples : list sample) :
  Weather.today w' = Weather.today w ->
  (forall s, In s samples ->
     Weather.fromtimestamp_date w (sample_dt s) = Ok (sample_date s) /\
     Weather.fromtimestamp_date w' (sample_dt s) = Ok (sample_date s)) ->
  Weather.requests_get w (Weather.OpenWeatherForecast latitude longitude api_key (days * 8))
    = Ok (payload body samples) ->
  Weather.requests_get w' (Weather.OpenWeatherForecast latitude longitude api_key (days * 8))
    = Ok (payload body'
            (List.filter (SecondarySpec.in_window (Weather.today w) days) samples)) ->
  Weather._get_weather_from_openweathermap lower w' latitude longitude days api_key
  = Weather._get_weather_from_openweathermap lower w latitude longitude days api_key.
Proof.
  intros Htoday Hdates Hreq Hreq'.
  rewrite (openweathermap_by_dates lower w _ _ _ _ _ _ Hreq (fun s Hs => proj1 (Hdates s Hs))).
  rewrite (openweathermap_by_dates lower w' _ _ _ _ _ _ Hreq').
  2:{ intros s Hs. apply List.filter_In in Hs as [Hs _]. exact (proj2 (Hdates s Hs)). }
  rewrite Htoday. f_equal. apply mapM_ext. intros i Hi. apply range_In in Hi.
  rewrite on_date_in_window by lia. reflexivity.
Qed.

Lemma secondary_ignores_samples_outside_the_window_witness :
  Weather._get_weather_from_openweathermap Py.str_lower
    (SecondarySpec.secondary_world 739252 8 (payload "(body)" [half_sample]))
    40 (-73) 1 "secondary-key"
  = Weather._get_weather_from_openweathermap Py.str_lower
      (SecondarySpec.secondary_world 739252 8
         (payload "(body)" [half_sample; SecondarySpec.next_day_sample]))
      40 (-73) 1 "secondary-key".
Proof.
  apply (secondary_ignores_samples_outside_the_window Py.str_lower
           (SecondarySpec.secondary_world 739252 8
              (payload "(body)" [half_sample; SecondarySpec.next_day_sample]))
           (SecondarySpec.secondary_world 739252 8 (payload "(body)" [half_sample]))
           40 (-73) 1 "secondary-key" "(body)" "(body)"
           [half_sample; SecondarySpec.next_day_sample]).
  - reflexivity.
  - intros s [<- | [<- | []]]; split; reflexivity.
  - reflexivity.
  - reflexivity.
Defined.

(** ** Malformed samples *)

Lemma add_item_malformed (w : Weather.world) (daily : gmap Z Weather.day_bucket)
    (item : Py.json) :
  SecondarySpec.lacks_required_key item -> exists e, Weather.add_item w daily item = Raise e.
Proof.
  intros H. unfold Weather.add_item.
  destruct item as [|b|q|s|l|fields]; try (eexists; reflexivity).
  cbn [SecondarySpec.lacks_required_key] in H. cbn [Py.getitem].
  destruct H as [H | [H | H]]; rewrite H;
    repeat match goal with
           | |- exists e, Raise _ = Raise e => eexists; reflexivity
           | |- exists e, Py.bind (Raise _) _ = Raise e => eexists; reflexivity
           | |- exists e, Py.bind (Ok _) _ = Raise e => cbn [Py.bind]
           | |- exists e, Py.bind ?c _ = Raise e => destruct c
           end.
Qed.

Lemma add_items_malformed (w : Weather.world) (items : list Py.json) (item : Py.json)
    (daily : gmap Z Weather.day_bucket) :
  In item items -> SecondarySpec.lacks_required_key item ->
  exists e, Weather.add_items w daily items = Raise e.
Proof.
  intros Hin Hbad. revert daily. induction items as [|x items IH]; intros daily; [destruct Hin|].
  cbn [Weather.add_items].
  destruct (Weather.add_item w daily x) as [daily'|e] eqn:E; [|eexists; reflexivity].
  cbn [Py.bind]. destruct Hin as [-> | Hin].
  - destruct (add_item_malformed w daily item Hbad) as [e He]. congruence.
  - now apply IH.
Qed.

(** X15.  One item without [dt], [main] or [weather] anywhere in the
    list of the secondary provider makes the secondary tier raise,
    whatever the other items hold; when no primary credential is
    configured the tool then returns the synthetic forecast. *)
Theorem secondary_rejects_a_list_with_a_malformed_item (lower : string -> string)
    (w : Weather.world) (latitude longitude : Q) (days : Z) (api_key body : string)
    (items : list Py.json) (item : Py.json) (tool_context : option Adk.ToolContext) :
  Weather.requests_get w
    (Weather.OpenWeatherForecast latitude longitude api_key (WeatherSpec.clamp days * 8))
    = Ok (SecondarySpec.list_response body items) ->
  In item items ->
  SecondarySpec.lacks_required_key item ->
  (exists e, Weather._get_weather_from_openweathermap lower w latitude longitude
               (WeatherSpec.clamp days) api_key = Raise e) /\
  (WeatherSpec.primary_credential w tool_context = None ->
   WeatherSpec.secondary_credential w = Some api_key ->
   Weather.get_weather_forecast lower w latitude longitude days tool_context
   = Weather._get_mock_weather_forecast w latitude longitude (WeatherSpec.clamp days)).
Proof.
  intros Hreq Hin Hbad.
  assert (Hraise : exists e, Weather._get_weather_from_openweathermap lower w latitude longitude
                               (WeatherSpec.clamp days) api_key = Raise e).
  { unfold Weather._get_weather_from_openweathermap. rewrite Hreq.
    cbn -[Weather.add_items Py.mapM Weather.range Weather.openweather_entry].
    destruct (add_items_malformed w items item ∅ Hin Hbad) as [e He].
    rewrite He. eexists. reflexivity. }
  split; [exact Hraise|].
  intros Hp Hs. rewrite get_weather_forecast_resolve. unfold WeatherSpec.resolve_forecast.
  rewrite Hp, Hs. cbn [WeatherSpec.tier].
  destruct Hraise as [e ->]. reflexivity.
Qed.

Lemma secondary_rejects_a_list_with_a_malformed_item_witness :
  Weather.get_weather_forecast Py.str_lower
    (SecondarySpec.secondary_world 739252 8
       (SecondarySpec.list_response "(body)"
          [item_of_sample half_sample; SecondarySpec.bare_item]))
    40 (-73) 1 None
  = Weather._get_mock_weather_forecast
      (SecondarySpec.secondary_world 739252 8
         (SecondarySpec.list_response "(body)"
            [item_of_sample half_sample; SecondarySpec.bare_item]))
      40 (-73) (WeatherSpec.clamp 1).
Proof.
  apply (secondary_rejects_a_list_with_a_malformed_item Py.str_lower
           (SecondarySpec.secondary_world 739252 8
              (SecondarySpec.list_response "(body)"
                 [item_of_sample half_sample; SecondarySpec.bare_item]))
           40 (-73) 1 "secondary-key" "(body)"
           [item_of_sample half_sample; SecondarySpec.bare_item]
           SecondarySpec.bare_item None).
  - reflexivity.
  - right. left. reflexivity.
  - right. left. reflexivity.
  - reflexivity.
  - reflexivity.
Defined.

(** ** Ties between conditions *)

Lemma first_index_le (c : string) (l : list string) :
  (ModeSpec.first_index c l <= List.length l)%nat.
Proof.
  induction l as [|x l IH]; cbn; [lia|]. destruct (String.eqb c x); lia.
Qed.

Lemma first_index_In (c : string) (l : list string) :
  In c l <-> (ModeSpec.first_index c l < List.length l)%nat.
Proof.
  induction l as [|x l IH]; cbn; [split; [tauto | lia]|].
  destruct (String.eqb_spec c x) as [->|Hne].
  - split; [lia | now left].
  - rewrite <- Nat.succ_lt_mono, <- IH. split; [intros [E|H]; [congruence | exact H] | now right].
Qed.

Lemma first_index_app (c : string) (l l' : list string) :
  In c l -> ModeSpec.first_index c (l ++ l') = ModeSpec.first_index c l.
Proof.
  induction l as [|x l IH]; cbn; [tauto|].
  destruct (String.eqb_spec c x) as [->|Hne]; [reflexivity|].
  intros [E|H]; [congruence|]. now rewrite IH.
Qed.

Lemma first_index_app_new (c : string) (l l' : list string) :
  ~ In c l ->
  ModeSpec.first_index c (l ++ l') = (List.length l + ModeSpec.first_index c l')%nat.
Proof.
  induction l as [|x l IH]; cbn; [reflexivity|].
  destruct (String.eqb_spec c x) as [->|Hne]; [tauto|].
  intros H. rewrite IH; tauto.
Qed.

Lemma StronglySorted_snoc {A : Type} (R : A -> A -> Prop) (l : list A) (x : A) :
  StronglySorted R l -> (forall y, In y l -> R y x) -> StronglySorted R (l ++ [x]).
Proof.
  induction 1 as [|a l Hl IH Ha]; intros Hx; cbn.
  - repeat constructor.
  - constructor.
    + apply IH. intros y Hy. apply Hx. now right.
    + apply Forall_app. split; [exact Ha|]. repeat constructor. apply Hx. now left.
Qed.

Lemma StronglySorted_impl_In {A : Type} (R R' : A -> A -> Prop) (l : list A) :
  (forall a b, In a l -> In b l -> R a b -> R' a b) ->
  StronglySorted R l -> StronglySorted R' l.
Proof.
  intros H HS. induction HS as [|a l Hl IH Ha]; constructor.
  - apply IH. intros x y Hx Hy. apply H; now right.
  - rewrite List.Forall_forall in *. intros y Hy. apply H; [now left | now right | now apply Ha].
Qed.

Lemma StronglySorted_middle {A : Type} (R : A -> A -> Prop) (l1 l2 : list A) (x y : A) :
  StronglySorted R (l1 ++ x :: l2) -> In y l2 -> R x y.
Proof.
  induction l1 as [|a l1 IH]; cbn; intros HS Hy.
  - apply StronglySorted_inv in HS as [_ Hx]. rewrite List.Forall_forall in Hx. now apply Hx.
  - apply StronglySorted_inv in HS as [HS _]. now apply IH.
Qed.

(** The keys of [condition_counts] are the conditions met, each inside
    the list, in the order of their first occurrence. *)
Lemma count_keys_by_first_occurrence (cs : list string) :
  let keys := map fst (fold_left count_string cs []) in
  (forall k, In k keys -> In k cs) /\
  StronglySorted (ModeSpec.appears_before cs) keys.
Proof.
  induction cs as [|c cs IH] using rev_ind; [cbn; split; [tauto | constructor]|].
  cbv zeta in *. rewrite fold_left_app. cbn [fold_left].
  destruct IH as [Hin Hsorted]. rewrite count_string_keys.
  set (counts := fold_left count_string cs []) in *.
  assert (Hold : StronglySorted (ModeSpec.appears_before (cs ++ [c])) (map fst counts)).
  { refine (StronglySorted_impl_In _ _ _ _ Hsorted). intros a b Ha Hb.
    unfold ModeSpec.appears_before. now rewrite !first_index_app by auto. }
  destruct (Py.dict_get counts c) eqn:E.
  - split; [|exact Hold]. intros k Hk. apply in_or_app. left. now apply Hin.
  - assert (Hnew : ~ In c cs).
    { intros Hc. apply dict_get_not_In in E. apply E.
      assert (Hpos : (0 < count_of counts c)%nat).
      { unfold counts. rewrite count_of_fold. cbn. unfold occurrences.
        now apply count_occ_In. }
      apply In_count_of in Hpos.
      change c with (fst (c, count_of counts c)). now apply in_map. }
    split.
    + intros k Hk. apply in_app_or in Hk as [Hk | [<- | []]]; apply in_or_app;
        [left; now apply Hin | right; now left].
    + apply StronglySorted_snoc; [exact Hold|]. intros y Hy.
      unfold ModeSpec.appears_before.
      rewrite (first_index_app y) by auto. rewrite (first_index_app_new c) by exact Hnew.
      apply Hin, first_index_In in Hy. lia.
Qed.

(** The fold of [max] with a key keeps the first of the greatest. *)
Lemma fold_max_first {A : Type} (key : A -> nat) (rest : list A) (first : A) :
  let best := fold_left (fun best x => if Nat.ltb (key best) (key x) then x else best)
                rest first in
  exists pre post,
    first :: rest = (pre ++ best :: post)%list /\
    (forall x, In x pre -> (key x < key best)%nat) /\
    (forall x, In x post -> (key x <= key best)%nat).
Proof.
  revert first. induction rest as [|y rest IH]; intros first; cbn [fold_left].
  - exists [], []. split; [reflexivity|]. split; intros x [].
  - destruct (Nat.ltb_spec (key first) (key y)) as [Hlt|Hge].
    + destruct (IH y) as (pre & post & E & Hpre & Hpost). cbv zeta in *.
      set (best := fold_left _ rest y) in *.
      exists (first :: pre), post. split; [cbn; now rewrite E|]. split; [|exact Hpost].
      intros x [<-|Hx]; [|now apply Hpre].
      assert (key y <= key best)%nat.
      { destruct pre as [|p pre]; cbn in E; injection E as E1 E2.
        - rewrite <- E1. lia.
        - subst p. apply Nat.lt_le_incl, Hpre. now left. }
      lia.
    + destruct (IH first) as (pre & post & E & Hpre & Hpost). cbv zeta in *.
      set (best := fold_left _ rest first) in *.
      destruct pre as [|p pre]; cbn in E; injection E as E1 E2.
      * exists [], (y :: post). split; [cbn; now rewrite <- E1, E2|].
        split; [intros x []|]. intros x [<-|Hx]; [rewrite <- E1; exact Hge | now apply Hpost].
      * subst p. exists (first :: y :: pre), post. split; [cbn; now rewrite E2|].
        split; [|exact Hpost].
        assert (key first < key best)%nat by (apply Hpre; now left).
        intros x [<-|[<-|Hx]]; [assumption | lia | apply Hpre; now right].
Qed.

Lemma most_common_lift_fold (rest : list (string * nat)) (first : string * nat) :
  Weather.most_common (lift_counts (first :: rest))
  = Ok (Py.JStr (fst (fold_left (fun best x => if Nat.ltb (snd best) (snd x) then x else best)
                        rest first))).
Proof.
  cbn [lift_counts map Weather.most_common]. f_equal.
  revert first. induction rest as [|y rest IH]; intros first; [reflexivity|].
  cbn [map fold_left fst snd]. destruct (Nat.ltb (snd first) (snd y)); apply IH.
Qed.

(** The most common condition of a non-empty list of strings is the mode
    that occurs first. *)
Lemma most_common_first_mode (cs : list string) :
  cs <> [] ->
  exists counts m,
    Weather.count_conditions (map Py.JStr cs) = Ok counts /\
    Weather.most_common counts = Ok (Py.JStr m) /\
    is_mode m cs /\
    forall c, is_mode c cs -> c <> m -> ModeSpec.appears_before cs m c.
Proof.
  intros Hne.
  destruct (most_common_is_mode cs Hne) as (counts0 & m0 & Hcounts0 & Hm0 & Hmode0).
  unfold Weather.count_conditions in *.
  assert (Hhash : forallb Py.hashable (map Py.JStr cs) = true)
    by (apply forallb_forall; intros x Hx; apply in_map_iff in Hx as (c & <- & _); reflexivity).
  rewrite Hhash in *.
  change (@nil (Py.json * nat)) with (lift_counts []) in *.
  rewrite count_conditions_lift in *. injection Hcounts0 as <-.
  pose proof (count_keys_by_first_occurrence cs) as [Hkeys Hsorted]. cbv zeta in *.
  set (counts := fold_left count_string cs []) in *.
  assert (Hnd : List.NoDup (map fst counts)) by (apply count_fold_NoDup; constructor).
  assert (Hcount : forall c, count_of counts c = occurrences c cs)
    by (intros c; unfold counts; now rewrite count_of_fold).
  destruct counts as [|first rest] eqn:Ecounts; [discriminate Hm0|].
  pose proof Hm0 as Hcommon.
  rewrite most_common_lift_fold in Hm0. injection Hm0 as Hm0.
  destruct (fold_max_first snd rest first) as (pre & post & E & Hpre & Hpost). cbv zeta in *.
  set (best := fold_left _ rest first) in *.
  exists (lift_counts (first :: rest)), m0.
  split; [reflexivity|]. split; [exact Hcommon|].
  split; [exact Hmode0|].
  intros c [Hc Hcmax] Hcm.
  assert (Hbest : snd best = occurrences m0 cs).
  { rewrite <- Hcount. symmetry. apply count_of_In; [exact Hnd|].
    rewrite E, <- Hm0. apply in_or_app. right. left. now destruct best. }
  assert (Hcin : In (c, occurrences c cs) (first :: rest)).
  { rewrite <- Hcount. apply In_count_of. rewrite Hcount. unfold occurrences.
    now apply count_occ_In. }
  assert (Heq : occurrences c cs = occurrences m0 cs).
  { destruct Hmode0 as [_ Hmax0]. apply Nat.le_antisymm; [apply Hmax0 | apply Hcmax]. }
  rewrite E in Hcin, Hsorted. apply in_app_or in Hcin as [Hcin | [Hcin | Hcin]].
  - specialize (Hpre _ Hcin). cbn [snd] in Hpre. lia.
  - exfalso. apply Hcm. rewrite <- Hm0, Hcin. reflexivity.
  - rewrite List.map_app in Hsorted. cbn [map] in Hsorted. rewrite Hm0 in Hsorted.
    refine (StronglySorted_middle _ _ _ _ _ Hsorted _).
    change c with (fst (c, occurrences c cs)). now apply in_map.
Qed.

(** X16.  For a day with samples the label of the secondary tier is that
    of a most frequent condition, and among several most frequent
    conditions that of the one whose first sample comes first. *)
Theorem secondary_condition_ties_go_to_the_earliest (lower : string -> string)
    (forecast_date : Z) (b : list sample) :
  b <> [] ->
  exists d m,
    Weather.openweather_day lower forecast_date (bucket_of b) = Ok d /\
    Weather.condition d = Weather._map_condition_to_chinese lower m /\
    is_mode m (map sample_condition b) /\
    forall c, is_mode c (map sample_condition b) -> c <> m ->
      ModeSpec.appears_before (map sample_condition b) m c.
Proof.
  intros Hne.
  destruct (most_common_first_mode (map sample_condition b))
    as (counts & m & Hcounts & Hm & Hmode & Hfirst).
  { destruct b; [congruence | discriminate]. }
  unfold Weather.openweather_day.
  cbn [bucket_of Weather.temps Weather.conditions Weather.humidities Weather.wind_speeds
       Weather.precipitation].
  rewrite !as_numbers_JNum. rewrite <- (List.map_map sample_condition Py.JStr), Hcounts.
  cbn [Py.bind]. rewrite Hm.
  destruct b as [|s0 b']; [congruence|].
  cbn [map Py.bind Weather.map_condition_value].
  eexists. exists m. split; [reflexivity|]. split; [reflexivity|]. split; assumption.
Qed.

Lemma secondary_condition_ties_go_to_the_earliest_witness :
  exists d m,
    Weather.openweather_day Py.str_lower 739252 (bucket_of ModeSpec.tied_day) = Ok d /\
    Weather.condition d = Weather._map_condition_to_chinese Py.str_lower m /\
    is_mode m (map sample_condition ModeSpec.tied_day) /\
    forall c, is_mode c (map sample_condition ModeSpec.tied_day) -> c <> m ->
      ModeSpec.appears_before (map sample_condition ModeSpec.tied_day) m c.
Proof.
  apply (secondary_condition_ties_go_to_the_earliest Py.str_lower 739252 ModeSpec.tied_day).
  discriminate.
Defined.


(* ================================================================== *)
(** * Further properties: the venue search                             *)
(* ================================================================== *)

(** X17.  With a credential configured: when building the client raises,
    the search returns the error result with the text of the exception;
    when the client is built and every nearby search raises, it returns
    a successful result with no venue. *)
Theorem venue_search_outages
    (lower : string -> string)
    (_calculate_distance : Q -> Q -> Q -> Q -> Py.result Q)
    (_format_distance : Q -> string)
    (gmaps_lib : Venues.googlemaps)
    (environ : gmap string string)
    (latitude longitude : Q) (sport_type : string) (radius max_results : Z)
    (tool_context : option Adk.ToolContext) (key : string) :
  SearchSpec.credential environ tool_context = Some key ->
  (forall e, Venues.Client gmaps_lib key = Raise e ->
     Venues.search_nearby_venues lower _calculate_distance _format_distance gmaps_lib
       environ latitude longitude sport_type radius max_results tool_context
     = {| Venues.status := "error"; Venues.venues := [];
          Venues.error_message := Some (Venues.StrOf e);
          Venues.sport_type := None; Venues.search_location := None |}) /\
  (Venues.Client gmaps_lib key = Ok tt ->
   (forall place_type, In place_type (Venues._map_sport_to_place_types lower sport_type) ->
      exists e, Venues.places_nearby gmaps_lib key (latitude, longitude) radius place_type
                = Raise e) ->
   Venues.search_nearby_venues lower _calculate_distance _format_distance gmaps_lib
     environ latitude longitude sport_type radius max_results tool_context
   = {| Venues.status := "success"; Venues.venues := []; Venues.error_message := None;
        Venues.sport_type := Some sport_type;
        Venues.search_location := Some (latitude, longitude) |}).
Proof.
  intros Hkey. rewrite search_by_credential, Hkey. split.
  - intros e ->. reflexivity.
  - intros -> Hdown. cbn [Py.bind].
    assert (Hfold : forall ts st,
      (forall t, In t ts ->
         exists e, Venues.places_nearby gmaps_lib key (latitude, longitude) radius t = Raise e) ->
      fold_left (Venues.search_type _calculate_distance _format_distance gmaps_lib
                   key latitude longitude radius) ts st = st).
    { induction ts as [|t ts IH]; intros st Hts; [reflexivity|]. cbn [fold_left].
      unfold Venues.search_type at 2.
      destruct (Hts t (or_introl eq_refl)) as [e ->].
      apply IH. intros t' Ht'. apply Hts. now right. }
    rewrite (Hfold _ _ Hdown). cbn [Venues.all_venues].
    assert (Hslice : Venues.slice_to (@nil Venues.venue_info) max_results = []).
    { unfold Venues.slice_to. destruct (Z.leb 0 max_results); now rewrite firstn_nil. }
    cbn. now rewrite Hslice.
Qed.

Lemma venue_search_outages_witness :
  Venues.search_nearby_venues Py.str_lower VenuesSpec.scenario_distance
    VenuesSpec.scenario_format SearchScenario.outage_lib VenuesSpec.scenario_environ
    40 (-73) "gym" 2000 5 None
  = {| Venues.status := "success"; Venues.venues := []; Venues.error_message := None;
       Venues.sport_type := Some "gym";
       Venues.search_location := Some (40, -73)%Q |}.
Proof.
  apply (venue_search_outages Py.str_lower VenuesSpec.scenario_distance
           VenuesSpec.scenario_format SearchScenario.outage_lib VenuesSpec.scenario_environ
           40 (-73) "gym" 2000 5 None "scenario-key").
  - reflexivity.
  - reflexivity.
  - intros place_type _. eexists. reflexivity.
Defined.

(** X18.  The search depends on the places provider only through the
    client built for the first configured credential and the nearby
    searches under that credential, at the centre and radius given, for
    the place types of the sport. *)
Theorem venue_search_reads
    (lower : string -> string)
    (_calculate_distance : Q -> Q -> Q -> Q -> Py.result Q)
    (_format_distance : Q -> string)
    (gmaps_lib gmaps_lib' : Venues.googlemaps)
    (environ : gmap string string)
    (latitude longitude : Q) (sport_type : string) (radius max_results : Z)
    (tool_context : option Adk.ToolContext) :
  (forall key, SearchSpec.credential environ tool_context = Some key ->
     Venues.Client gmaps_lib' key = Venues.Client gmaps_lib key /\
     forall place_type, In place_type (Venues._map_sport_to_place_types lower sport_type) ->
       Venues.places_nearby gmaps_lib' key (latitude, longitude) radius place_type
       = Venues.places_nearby gmaps_lib key (latitude, longitude) radius place_type) ->
  Venues.search_nearby_venues lower _calculate_distance _format_distance gmaps_lib'
    environ latitude longitude sport_type radius max_results tool_context
  = Venues.search_nearby_venues lower _calculate_distance _format_distance gmaps_lib
      environ latitude longitude sport_type radius max_results tool_context.
Proof.
  intros Hsame. rewrite !search_by_credential.
  destruct (SearchSpec.credential environ tool_context) as [key|]; [|reflexivity].
  destruct (Hsame key eq_refl) as [-> Hplaces].
  assert (Hfold : forall ts st,
    (forall t, In t ts ->
       Venues.places_nearby gmaps_lib' key (latitude, longitude) radius t
       = Venues.places_nearby gmaps_lib key (latitude, longitude) radius t) ->
    fold_left (Venues.search_type _calculate_distance _format_distance gmaps_lib'
                 key latitude longitude radius) ts st
    = fold_left (Venues.search_type _calculate_distance _format_distance gmaps_lib
                   key latitude longitude radius) ts st).
  { induction ts as [|t ts IH]; intros st Hts; [reflexivity|]. cbn [fold_left].
    rewrite IH by (intros t' Ht'; apply Hts; now right).
    f_equal. unfold Venues.search_type. now rewrite (Hts t (or_introl eq_refl)). }
  now rewrite (Hfold _ _ Hplaces).
Qed.

Lemma venue_search_reads_witness :
  Venues.search_nearby_venues Py.str_lower VenuesSpec.scenario_distance
    VenuesSpec.scenario_format SearchScenario.strict_lib VenuesSpec.scenario_environ
    40 (-73) "gym" 2000 5 None
  = Venues.search_nearby_venues Py.str_lower VenuesSpec.scenario_distance
      VenuesSpec.scenario_format VenuesSpec.scenario_lib VenuesSpec.scenario_environ
      40 (-73) "gym" 2000 5 None.
Proof.
  apply (venue_search_reads Py.str_lower VenuesSpec.scenario_distance
           VenuesSpec.scenario_format VenuesSpec.scenario_lib SearchScenario.strict_lib
           VenuesSpec.scenario_environ 40 (-73) "gym" 2000 5 None).
  intros key Hkey. vm_compute in Hkey. injection Hkey as <-. split; [reflexivity|].
  intros place_type _. reflexivity.
Defined.

(** ** Where a venue comes from *)

Section Provenance.
Variable _calculate_distance : Q -> Q -> Q -> Q -> Py.result Q.
Variable _format_distance : Q -> string.
Variable gmaps_lib : Venues.googlemaps.

Lemma visit_place_made_from (latitude longitude : Q) (st : Venues.search_state)
    (place : Py.json) (v : Venues.venue_info) :
  In v (Venues.all_venues (fst (Venues.visit_place _calculate_distance _format_distance
                                  latitude longitude st place))) ->
  In v (Venues.all_venues st) \/
  SearchSpec.made_from _calculate_distance _format_distance latitude longitude place v.
Proof.
  unfold Venues.visit_place.
  destruct (Py.get place "place_id" Py.JNull) as [pid|e] eqn:Eid; [|now left].
  destruct (Py.truthy pid) eqn:Et; cbn [negb]; [|now left].
  destruct (Venues.seen pid (Venues.seen_place_ids st)) as [[|]|e]; try (now left).
  destruct (Venues.make_venue _ _ latitude longitude place pid) as [v'|e] eqn:Ev;
    cbn [fst Venues.all_venues]; [|now left].
  intros Hin. apply in_app_or in Hin as [Hin | [<- | []]]; [now left|]. right.
  pose proof (make_venue_place_id _ _ _ _ _ _ _ Ev) as Hpid.
  unfold SearchSpec.made_from. rewrite Hpid. auto.
Qed.

Lemma visit_places_made_from (latitude longitude : Q) (places : list Py.json)
    (st : Venues.search_state) (v : Venues.venue_info) :
  In v (Venues.all_venues (fst (Venues.visit_places _calculate_distance _format_distance
                                  latitude longitude st places))) ->
  In v (Venues.all_venues st) \/
  exists place, In place places /\
    SearchSpec.made_from _calculate_distance _format_distance latitude longitude place v.
Proof.
  revert st. induction places as [|place places IH]; intros st; cbn [Venues.visit_places];
    [now left|].
  pose proof (visit_place_made_from latitude longitude st place v) as Hone.
  destruct (Venues.visit_place _ _ latitude longitude st place) as [st' [u|e]];
    cbn [fst] in Hone |- *.
  - intros Hin. apply IH in Hin as [Hin | (p & Hp & Hmade)].
    + apply Hone in Hin as [Hin | Hmade]; [now left|]. right. exists place. split; [now left|auto].
    + right. exists p. split; [now right | exact Hmade].
  - intros Hin. apply Hone in Hin as [Hin | Hmade]; [now left|].
    right. exists place. split; [now left | exact Hmade].
Qed.

Lemma search_type_made_from (key : string) (latitude longitude : Q) (radius : Z)
    (st : Venues.search_state) (place_type : string) (v : Venues.venue_info) :
  In v (Venues.all_venues (Venues.search_type _calculate_distance _format_distance gmaps_lib
                             key latitude longitude radius st place_type)) ->
  In v (Venues.all_venues st) \/
  exists places place,
    SearchSpec.places_of gmaps_lib key latitude longitude radius place_type = Ok places /\
    In place places /\
    SearchSpec.made_from _calculate_distance _format_distance latitude longitude place v.
Proof.
  unfold Venues.search_type, SearchSpec.places_of.
  destruct (Venues.places_nearby gmaps_lib key (latitude, longitude) radius place_type)
    as [places_result|e]; [|now left].
  cbn [Py.bind].
  destruct (Py.bind _ _) as [places|e]; [|now left].
  intros Hin. apply visit_places_made_from in Hin as [Hin | (place & Hp & Hmade)]; [now left|].
  right. exists places, place. auto.
Qed.

Lemma search_types_made_from (key : string) (latitude longitude : Q) (radius : Z)
    (place_types : list string) (st : Venues.search_state) (v : Venues.venue_info) :
  In v (Venues.all_venues
          (fold_left (Venues.search_type _calculate_distance _format_distance gmaps_lib
                        key latitude longitude radius) place_types st)) ->
  In v (Venues.all_venues st) \/
  exists place_type places place,
    In place_type place_types /\
    SearchSpec.places_of gmaps_lib key latitude longitude radius place_type = Ok places /\
    In place places /\
    SearchSpec.made_from _calculate_distance _format_distance latitude longitude place v.
Proof.
  revert st. induction place_types as [|t ts IH]; intros st; cbn [fold_left]; [now left|].
  intros Hin. apply IH in Hin as [Hin | (t' & places & place & Ht' & Hrest)].
  - apply search_type_made_from in Hin as [Hin | (places & place & Hrest)]; [now left|].
    right. exists t, places, place. split; [now left | exact Hrest].
  - right. exists t', places, place. split; [now right | exact Hrest].
Qed.

End Provenance.

Lemma slice_to_In {A : Type} (l : list A) (n : Z) (x : A) : In x (Venues.slice_to l n) -> In x l.
Proof.
  destruct (slice_to_prefix l n) as [k ->]. intros H.
  rewrite <- (firstn_skipn k l). apply in_or_app. now left.
Qed.

(** X19.  Every venue returned was made from an item that carries its
    identifier, not empty, in the provider's answer to the nearby search
    for one of the place types of the sport. *)
Theorem venues_come_from_the_provider
    (lower : string -> string)
    (_calculate_distance : Q -> Q -> Q -> Q -> Py.result Q)
    (_format_distance : Q -> string)
    (gmaps_lib : Venues.googlemaps)
    (environ : gmap string string)
    (latitude longitude : Q) (sport_type : string) (radius max_results : Z)
    (tool_context : option Adk.ToolContext) :
  Forall
    (fun v =>
       exists key place_type places place,
         SearchSpec.credential environ tool_context = Some key /\
         In place_type (Venues._map_sport_to_place_types lower sport_type) /\
         SearchSpec.places_of gmaps_lib key latitude longitude radius place_type = Ok places /\
         In place places /\
         SearchSpec.made_from _calculate_distance _format_distance latitude longitude place v)
    (Venues.venues
       (Venues.search_nearby_venues lower _calculate_distance _format_distance gmaps_lib
          environ latitude longitude sport_type radius max_results tool_context)).
Proof.
  rewrite search_by_credential.
  destruct (SearchSpec.credential environ tool_context) as [key|]; [|constructor].
  destruct (Py.bind _ _) as [vs|e] eqn:Hattempt; [|constructor].
  cbn [Venues.venues].
  apply bind_Ok in Hattempt as (u & _ & Hattempt).
  apply bind_Ok in Hattempt as (sorted & Hsort & Hattempt).
  injection Hattempt as <-.
  apply sort_venues_spec in Hsort as [Hperm _].
  apply List.Forall_forall. intros v Hv. apply slice_to_In in Hv.
  apply (Permutation_in _ (Permutation_sym Hperm)) in Hv.
  apply search_types_made_from in Hv as [[] | (t & places & place & Hrest)].
  exists key, t, places, place. split; [reflexivity | exact Hrest].
Qed.

(** ** Nothing is lost *)

Section Complete.
Variable _calculate_distance : Q -> Q -> Q -> Q -> Py.result Q.
Variable _format_distance : Q -> string.
Variable gmaps_lib : Venues.googlemaps.

Lemma seen_string (id : string) (ids : list Py.json) :
  Venues.seen (Py.JStr id) ids = Ok true -> In (Py.JStr id) ids.
Proof.
  unfold Venues.seen. cbn [Py.hashable]. intros [= H].
  apply existsb_exists in H as (x & Hx & Hid).
  destruct x; cbn in Hid; try discriminate. apply String.eqb_eq in Hid. now subst.
Qed.

Lemma visit_place_usable (latitude longitude : Q) (st : Venues.search_state)
    (place : Py.json) (id : string) :
  SearchSpec.usable _calculate_distance _format_distance latitude longitude place id ->
  SearchSpec.recorded st ->
  exists st',
    Venues.visit_place _calculate_distance _format_distance latitude longitude st place
      = (st', Ok tt) /\
    SearchSpec.recorded st' /\
    In (Py.JStr id) (Venues.seen_place_ids st') /\
    (forall pid, In pid (Venues.seen_place_ids st) -> In pid (Venues.seen_place_ids st')).
Proof.
  intros (Hid & Hne & v & Hv) Hrec. unfold Venues.visit_place. rewrite Hid.
  assert (Ht : Py.truthy (Py.JStr id) = true).
  { cbn. apply negb_true_iff. now apply String.eqb_neq. }
  rewrite Ht. cbn [negb].
  destruct (Venues.seen (Py.JStr id) (Venues.seen_place_ids st)) as [[|]|e] eqn:Es.
  - exists st. split; [reflexivity|]. split; [exact Hrec|]. split; [|auto].
    now apply seen_string.
  - rewrite Hv. eexists. split; [reflexivity|].
    cbn [Venues.all_venues Venues.seen_place_ids]. split; [|split; [now left | intros; now right]].
    unfold SearchSpec.recorded. cbn [Venues.all_venues Venues.seen_place_ids].
    intros pid [<- | Hpid]; rewrite List.map_app; apply in_or_app.
    + right. left. exact (make_venue_place_id _ _ _ _ _ _ _ Hv).
    + left. now apply Hrec.
  - discriminate Es.
Qed.

Lemma visit_places_usable (latitude longitude : Q) (places : list Py.json)
    (st : Venues.search_state) :
  (forall place, In place places ->
     exists id, SearchSpec.usable _calculate_distance _format_distance latitude longitude
                  place id) ->
  SearchSpec.recorded st ->
  exists st',
    Venues.visit_places _calculate_distance _format_distance latitude longitude st places
      = (st', Ok tt) /\
    SearchSpec.recorded st' /\
    (forall place id, In place places ->
       Py.get place "place_id" Py.JNull = Ok (Py.JStr id) ->
       In (Py.JStr id) (Venues.seen_place_ids st')) /\
    (forall pid, In pid (Venues.seen_place_ids st) -> In pid (Venues.seen_place_ids st')).
Proof.
  revert st. induction places as [|place places IH]; intros st Hall Hrec.
  - exists st. split; [reflexivity|]. split; [exact Hrec|]. split; [intros ? ? []|auto].
  - destruct (Hall place (or_introl eq_refl)) as [id Hid].
    destruct (visit_place_usable latitude longitude st place id Hid Hrec)
      as (st1 & H1 & Hrec1 & Hin1 & Hmono1).
    destruct (IH st1 (fun p Hp => Hall p (or_intror Hp)) Hrec1)
      as (st2 & H2 & Hrec2 & Hin2 & Hmono2).
    exists st2. cbn [Venues.visit_places]. rewrite H1. split; [exact H2|].
    split; [exact Hrec2|]. split; [|auto].
    intros p id' [<- | Hp] Hget.
    + destruct Hid as (Hget' & _). rewrite Hget' in Hget. injection Hget as <-.
      now apply Hmono2.
    + now apply (Hin2 p).
Qed.

Lemma search_types_usable (key : string) (latitude longitude : Q) (radius : Z)
    (place_types : list string) (st : Venues.search_state) :
  (forall place_type places place,
     In place_type place_types ->
     SearchSpec.places_of gmaps_lib key latitude longitude radius place_type = Ok places ->
     In place places ->
     exists id, SearchSpec.usable _calculate_distance _format_distance latitude longitude
                  place id) ->
  SearchSpec.recorded st ->
  let st' := fold_left (Venues.search_type _calculate_distance _format_distance gmaps_lib
                          key latitude longitude radius) place_types st in
  SearchSpec.recorded st' /\
  (forall place_type places place id,
     In place_type place_types ->
     SearchSpec.places_of gmaps_lib key latitude longitude radius place_type = Ok places ->
     In place places ->
     Py.get place "place_id" Py.JNull = Ok (Py.JStr id) ->
     In (Py.JStr id) (Venues.seen_place_ids st')) /\
  (forall pid, In pid (Venues.seen_place_ids st) -> In pid (Venues.seen_place_ids st')).
Proof.
  revert st. induction place_types as [|t ts IH]; intros st Hall Hrec; cbv zeta.
  - cbn [fold_left]. split; [exact Hrec|]. split; [intros ? ? ? ? []|auto].
  - cbn [fold_left].
    set (st1 := Venues.search_type _calculate_distance _format_distance gmaps_lib
                  key latitude longitude radius st t).
    assert (H1 : SearchSpec.recorded st1 /\
                 (forall places place id,
                    SearchSpec.places_of gmaps_lib key latitude longitude radius t = Ok places ->
                    In place places ->
                    Py.get place "place_id" Py.JNull = Ok (Py.JStr id) ->
                    In (Py.JStr id) (Venues.seen_place_ids st1)) /\
                 (forall pid, In pid (Venues.seen_place_ids st) ->
                              In pid (Venues.seen_place_ids st1))).
    { subst st1. unfold Venues.search_type.
      pose proof (Hall t) as Ht. unfold SearchSpec.places_of in *.
      destruct (Venues.places_nearby gmaps_lib key (latitude, longitude) radius t)
        as [places_result|e]; cbn [Py.bind] in *.
      2:{ split; [exact Hrec|]. split; [discriminate|auto]. }
      destruct (Py.bind _ _) as [places|e].
      2:{ split; [exact Hrec|]. split; [discriminate|auto]. }
      destruct (visit_places_usable latitude longitude places st
                  (fun p Hp => Ht places p (or_introl eq_refl) eq_refl Hp) Hrec)
        as (st' & Hrun & Hrec' & Hin' & Hmono').
      rewrite Hrun. cbn [fst]. split; [exact Hrec'|]. split; [|exact Hmono'].
      intros places' place id [= <-]. apply Hin'. }
    destruct H1 as (Hrec1 & Hin1 & Hmono1).
    destruct (IH st1 (fun t' ps p Ht' => Hall t' ps p (or_intror Ht')) Hrec1)
      as (Hrec2 & Hin2 & Hmono2).
    split; [exact Hrec2|]. split; [|auto].
    intros t' places place id [<- | Ht'] Hplaces Hplace Hget.
    + apply Hmono2. now apply (Hin1 places place).
    + now apply (Hin2 t' places place).
Qed.

End Complete.

(** X20.  When every item the provider returns carries a non-empty
    string identifier and can be made into a venue, a successful search
    with a non-negative [max_results] returns a venue with the
    identifier of each item, or else returns exactly [max_results]
    venues. *)
Theorem no_place_is_lost
    (lower : string -> string)
    (_calculate_distance : Q -> Q -> Q -> Q -> Py.result Q)
    (_format_distance : Q -> string)
    (gmaps_lib : Venues.googlemaps)
    (environ : gmap string string)
    (latitude longitude : Q) (sport_type : string) (radius max_results : Z)
    (tool_context : option Adk.ToolContext) (key : string) :
  SearchSpec.credential environ tool_context = Some key ->
  (0 <= max_results)%Z ->
  (forall place_type places place,
     In place_type (Venues._map_sport_to_place_types lower sport_type) ->
     SearchSpec.places_of gmaps_lib key latitude longitude radius place_type = Ok places ->
     In place places ->
     exists id, SearchSpec.usable _calculate_distance _format_distance latitude longitude
                  place id) ->
  Venues.status
    (Venues.search_nearby_venues lower _calculate_distance _format_distance gmaps_lib
       environ latitude longitude sport_type radius max_results tool_context) = "success" ->
  forall place_type places place id,
    In place_type (Venues._map_sport_to_place_types lower sport_type) ->
    SearchSpec.places_of gmaps_lib key latitude longitude radius place_type = Ok places ->
    In place places ->
    Py.get place "place_id" Py.JNull = Ok (Py.JStr id) ->
    In (Py.JStr id)
       (map Venues.place_id
          (Venues.venues
             (Venues.search_nearby_venues lower _calculate_distance _format_distance gmaps_lib
                environ latitude longitude sport_type radius max_results tool_context))) \/
    Z.of_nat
      (List.length
         (Venues.venues
            (Venues.search_nearby_venues lower _calculate_distance _format_distance gmaps_lib
               environ latitude longitude sport_type radius max_results tool_context)))
    = max_results.
Proof.
  intros Hkey Hmax Husable. rewrite search_by_credential, Hkey.
  destruct (Py.bind _ _) as [vs|e] eqn:Hattempt; [|discriminate].
  intros _ place_type places place id Ht Hplaces Hplace Hget. cbn [Venues.venues].
  apply bind_Ok in Hattempt as (u & _ & Hattempt).
  apply bind_Ok in Hattempt as (sorted & Hsort & Hattempt).
  injection Hattempt as <-.
  apply sort_venues_spec in Hsort as [Hperm _].
  destruct (search_types_usable _calculate_distance _format_distance gmaps_lib
              key latitude longitude radius
              (Venues._map_sport_to_place_types lower sport_type)
              {| Venues.all_venues := []; Venues.seen_place_ids := [] |} Husable)
    as (Hrec & Hin & _); [intros pid []|].
  specialize (Hin place_type places place id Ht Hplaces Hplace Hget).
  apply Hrec in Hin. rewrite (slice_to_firstn _ _ Hmax).
  destruct (Nat.le_gt_cases (List.length sorted) (Z.to_nat max_results)) as [Hle | Hgt].
  - left. rewrite firstn_all2 by exact Hle.
    exact (Permutation_in _ (Permutation_map _ Hperm) Hin).
  - right. rewrite length_firstn. lia.
Qed.

Lemma no_place_is_lost_witness :
  In (Py.JStr "C")
     (map Venues.place_id
        (Venues.venues
           (Venues.search_nearby_venues Py.str_lower VenuesSpec.scenario_distance
              VenuesSpec.scenario_format VenuesSpec.scenario_lib VenuesSpec.scenario_environ
              40 (-73) "gym" 2000 5 None))) \/
  Z.of_nat
    (List.length
       (Venues.venues
          (Venues.search_nearby_venues Py.str_lower VenuesSpec.scenario_distance
             VenuesSpec.scenario_format VenuesSpec.scenario_lib VenuesSpec.scenario_environ
             40 (-73) "gym" 2000 5 None)))
  = 5%Z.
Proof.
  apply (no_place_is_lost Py.str_lower VenuesSpec.scenario_distance
           VenuesSpec.scenario_format VenuesSpec.scenario_lib VenuesSpec.scenario_environ
           40 (-73) "gym" 2000 5 None "scenario-key" eq_refl)
    with (place_type := "gym")
         (places := [VenuesSpec.place_A; VenuesSpec.place_B; VenuesSpec.place_C])
         (place := VenuesSpec.place_C).
  - lia.
  - intros place_type places place Ht Hplaces Hplace.
    vm_compute in Ht. destruct Ht as [<- | [<- | []]];
      vm_compute in Hplaces; injection Hplaces as <-;
      repeat (destruct Hplace as [<- | Hplace];
              [eexists; split; [reflexivity|]; split; [discriminate|];
               eexists; vm_compute; reflexivity|]);
      destruct Hplace.
  - reflexivity.
  - vm_compute. tauto.
  - reflexivity.
  - right. right. now left.
  - reflexivity.
Defined.

(** ** Ties of the ranking *)

Lemma insert_by_key_filter (P : (Z * Q) * Venues.venue_info -> bool)
    (x : (Z * Q) * Venues.venue_info) (l : list ((Z * Q) * Venues.venue_info)) :
  (forall y, Venues.key_ltb (fst y) (fst x) = true -> P x = true -> P y = false) ->
  List.filter P (Venues.insert_by_key x l)
  = if P x then x :: List.filter P l else List.filter P l.
Proof.
  intros Hlt. induction l as [|y l IH]; cbn [Venues.insert_by_key List.filter].
  - reflexivity.
  - destruct (Venues.key_ltb (fst y) (fst x)) eqn:E; cbn [List.filter].
    + rewrite IH. destruct (P x) eqn:Ex.
      * now rewrite (Hlt y E eq_refl).
      * reflexivity.
    + reflexivity.
Qed.

Lemma sort_keyed_filter (P : (Z * Q) * Venues.venue_info -> bool)
    (l : list ((Z * Q) * Venues.venue_info)) :
  (forall x y, Venues.key_ltb (fst y) (fst x) = true -> P x = true -> P y = false) ->
  List.filter P (Venues.sort_keyed l) = List.filter P l.
Proof.
  intros Hlt. unfold Venues.sort_keyed. induction l as [|x l IH]; [reflexivity|].
  cbn [fold_right List.filter]. rewrite insert_by_key_filter by (apply Hlt). now rewrite IH.
Qed.

Lemma filter_map_snd {A B : Type} (P : B -> bool) (l : list (A * B)) :
  List.filter P (map snd l) = map snd (List.filter (fun kx => P (snd kx)) l).
Proof.
  induction l as [|[k x] l IH]; [reflexivity|]. cbn [map List.filter snd].
  destruct (P x); cbn [map snd]; now rewrite IH.
Qed.

(** X21.  The sort keeps the venues of equal distance and rating in the
    order in which they were found. *)
Theorem equally_ranked_venues_keep_their_order (l l' : list Venues.venue_info) :
  Venues.sort_venues l = Ok l' ->
  forall x : Venues.venue_info,
    List.filter (SearchSpec.same_rank x) l' = List.filter (SearchSpec.same_rank x) l.
Proof.
  unfold Venues.sort_venues. intros H x.
  apply bind_Ok in H as (keyed & Hkeyed & H). injection H as <-.
  assert (Hkeys : Forall (fun kx => Venues.sort_key (snd kx) = Ok (fst kx)) keyed).
  { refine (mapM_Forall _ _ _ _ _ Hkeyed). intros v kx _ Hv.
    apply bind_Ok in Hv as (k & Hk & Hv). now injection Hv as <-. }
  assert (Hl : l = map snd keyed).
  { clear Hkeys. revert keyed Hkeyed. induction l as [|v l IH]; intros keyed Hkeyed.
    - now injection Hkeyed as <-.
    - cbn [Py.mapM] in Hkeyed. apply bind_Ok in Hkeyed as (kx & Hkx & Hkeyed).
      apply bind_Ok in Hkeyed as (rest & Hrest & Hkeyed). injection Hkeyed as <-.
      apply bind_Ok in Hkx as (k & _ & Hkx). injection Hkx as <-.
      cbn [map snd]. f_equal. now apply IH. }
  rewrite Hl, !filter_map_snd. f_equal.
  destruct (Venues.sort_key x) as [kx|e] eqn:Ex.
  - set (P := fun ky : (Z * Q) * Venues.venue_info =>
                Z.eqb (fst kx) (fst (fst ky)) && Qeq_bool (snd kx) (snd (fst ky))).
    assert (Hext : forall L, Forall (fun kx => Venues.sort_key (snd kx) = Ok (fst kx)) L ->
              List.filter (fun ky => SearchSpec.same_rank x (snd ky)) L = List.filter P L).
    { intros L HL. apply List.filter_ext_in. intros ky Hky.
      rewrite List.Forall_forall in HL. specialize (HL ky Hky).
      unfold SearchSpec.same_rank. now rewrite Ex, HL. }
    rewrite (Hext keyed Hkeys), (Hext (Venues.sort_keyed keyed)).
    + apply sort_keyed_filter. intros a b Hlt Ha. unfold P in *.
      apply andb_true_iff in Ha as [Ha1 Ha2]. apply Z.eqb_eq in Ha1.
      apply Qeq_bool_iff in Ha2. unfold Venues.key_ltb in Hlt.
      destruct (Z.eqb_spec (fst (fst b)) (fst (fst a))) as [E|E].
      * destruct (Qcompare_spec (snd (fst b)) (snd (fst a))) as [Hc|Hc|Hc]; try discriminate.
        apply andb_false_iff. right. apply not_true_iff_false. intros Hb.
        apply Qeq_bool_iff in Hb. rewrite <- Hb, Ha2 in Hc. exact (Qlt_irrefl _ Hc).
      * apply andb_false_iff. left. apply Z.eqb_neq. congruence.
    + rewrite List.Forall_forall in *. intros ky Hky. apply Hkeys.
      exact (Permutation_in _ (Permutation_sym (sort_keyed_perm keyed)) Hky).
  - transitivity (@nil ((Z * Q) * Venues.venue_info)); [|symmetry];
      (match goal with |- List.filter ?f ?L = [] =>
         assert (Hnone : forall L', List.filter f L' = [])
           by (induction L' as [|ky L' IH]; [reflexivity|];
               cbn [List.filter]; unfold SearchSpec.same_rank at 1; now rewrite Ex);
         apply Hnone
       end).
Qed.

Lemma equally_ranked_venues_keep_their_order_witness :
  List.filter (SearchSpec.same_rank (SearchScenario.venue "other" 500 4))
    [ SearchScenario.venue "near" 100 3;
      SearchScenario.venue "first" 500 4;
      SearchScenario.venue "second" 500 4 ]
  = [ SearchScenario.venue "first" 500 4; SearchScenario.venue "second" 500 4 ].
Proof.
  rewrite (equally_ranked_venues_keep_their_order
             [ SearchScenario.venue "first" 500 4;
               SearchScenario.venue "second" 500 4;
               SearchScenario.venue "near" 100 3 ]).
  - reflexivity.
  - reflexivity.
Defined.

(** ** A place without coordinates *)

Section Hidden.
Variable _calculate_distance : Q -> Q -> Q -> Q -> Py.result Q.
Variable _format_distance : Q -> string.

Lemma visit_places_app (latitude longitude : Q) (before after : list Py.json)
    (st : Venues.search_state) :
  Venues.visit_places _calculate_distance _format_distance latitude longitude st
    (before ++ after)
  = match Venues.visit_places _calculate_distance _format_distance latitude longitude st
            before with
    | (st', Ok _) =>
        Venues.visit_places _calculate_distance _format_distance latitude longitude st' after
    | (st', Raise e) => (st', Raise e)
    end.
Proof.
  revert st. induction before as [|place before IH]; intros st; cbn [app Venues.visit_places].
  - reflexivity.
  - destruct (Venues.visit_place _ _ latitude longitude st place) as [st' [u|e]];
      [apply IH | reflexivity].
Qed.

End Hidden.

(** X22.  An item that has a new identifier and no [geometry] ends the
    loop over the items of its place type: the venues found before it
    stay, the items after it are not read, and its identifier stays
    recorded, so that an item with this identifier is skipped wherever
    it comes again. *)
Theorem place_without_geometry_hides_the_rest
    (_calculate_distance : Q -> Q -> Q -> Q -> Py.result Q)
    (_format_distance : Q -> string)
    (gmaps_lib : Venues.googlemaps)
    (key : string) (latitude longitude : Q) (radius : Z) (place_type : string)
    (st st' : Venues.search_state) (before after : list Py.json) (bad pid : Py.json) :
  Venues.places_nearby gmaps_lib key (latitude, longitude) radius place_type
    = Ok (Py.JObj [("results", Py.JArr (before ++ bad :: after))]) ->
  Venues.visit_places _calculate_distance _format_distance latitude longitude st before
    = (st', Ok tt) ->
  Py.get bad "place_id" Py.JNull = Ok pid ->
  Py.truthy pid = true ->
  Venues.seen pid (Venues.seen_place_ids st') = Ok false ->
  (exists e, Py.getitem bad "geometry" = Raise e) ->
  Venues.search_type _calculate_distance _format_distance gmaps_lib
    key latitude longitude radius st place_type
  = {| Venues.all_venues := Venues.all_venues st';
       Venues.seen_place_ids := pid :: Venues.seen_place_ids st' |} /\
  forall (lat lng : Q) (again : Py.json),
    Py.get again "place_id" Py.JNull = Ok pid ->
    Venues.visit_place _calculate_distance _format_distance lat lng
      {| Venues.all_venues := Venues.all_venues st';
         Venues.seen_place_ids := pid :: Venues.seen_place_ids st' |} again
    = ({| Venues.all_venues := Venues.all_venues st';
          Venues.seen_place_ids := pid :: Venues.seen_place_ids st' |}, Ok tt).
Proof.
  intros Hsearch Hbefore Hid Htruthy Hnew [e Hgeometry]. split.
  - unfold Venues.search_type. rewrite Hsearch.
    cbn [Py.get Py.dict_get String.eqb Ascii.eqb Bool.eqb Py.bind Py.iter].
    rewrite visit_places_app, Hbefore. cbn [Venues.visit_places].
    unfold Venues.visit_place. rewrite Hid, Htruthy. cbn [negb]. rewrite Hnew.
    unfold Venues.make_venue. rewrite Hgeometry. reflexivity.
  - intros lat lng again Hagain. unfold Venues.visit_place. rewrite Hagain, Htruthy.
    cbn [negb]. unfold Venues.seen in *.
    destruct (Py.hashable pid) eqn:Eh; [|discriminate Hnew].
    cbn [Venues.seen_place_ids existsb]. now rewrite (key_eqb_refl pid Eh).
Qed.

Lemma place_without_geometry_hides_the_rest_witness :
  map Venues.place_id
    (Venues.all_venues
       (Venues.search_type VenuesSpec.scenario_distance VenuesSpec.scenario_format
          SearchScenario.broken_lib "scenario-key" 40 (-73) 2000
          SearchScenario.nothing_found "gym"))
  = [Py.JStr "A"] /\
  map Venues.place_id
    (Venues.venues
       (Venues.search_nearby_venues Py.str_lower VenuesSpec.scenario_distance
          VenuesSpec.scenario_format SearchScenario.broken_lib VenuesSpec.scenario_environ
          40 (-73) "gym" 2000 5 None))
  = [Py.JStr "A"].
Proof.
  destruct (place_without_geometry_hides_the_rest VenuesSpec.scenario_distance
              VenuesSpec.scenario_format SearchScenario.broken_lib "scenario-key" 40 (-73) 2000
              "gym" SearchScenario.nothing_found
              (fst (Venues.visit_places VenuesSpec.scenario_distance VenuesSpec.scenario_format
                      40 (-73) SearchScenario.nothing_found [VenuesSpec.place_A]))
              [VenuesSpec.place_A] [VenuesSpec.place_C]
              SearchScenario.place_without_geometry (Py.JStr "B")) as [H _].
  - reflexivity.
  - reflexivity.
  - reflexivity.
  - reflexivity.
  - reflexivity.
  - eexists. reflexivity.
  - split; [rewrite H; reflexivity | reflexivity].
Defined.

(** ** The two distances of a venue *)






(* ================================================================== *)
(** * The reverse geocoding endpoint                                    *)
(* ================================================================== *)

Lemma first_of_two (a b : option string) :
  match WeatherSpec.first_configured [a; b] with
  | Some key =>
      (if Py.str_truthy a then a else b) = Some key /\ String.eqb key "" = false
  | None => Py.str_truthy (if Py.str_truthy a then a else b) = false
  end.
Proof.
  destruct a as [a|]; destruct b as [b|]; cbn;
    repeat match goal with
           | |- context [String.eqb ?s ""] => destruct (String.eqb s "") eqn:?; cbn
           end; auto.
Qed.

Lemma geocode_by_credential (gmaps_lib : App.googlemaps) (environ : gmap string string)
    (lat lng : Q) :
  App.geocode gmaps_lib environ lat lng
  = match AppSpec.credential environ with
    | None => App.Raised (App.HTTPException 500 (App.Text "Google Maps API key not configured"))
    | Some key =>
        match App.lookup gmaps_lib key lat lng with
        | App.Return response => App.Return response
        | App.Raised e => App.Raised (App.HTTPException 500 (App.GeocodingFailed e))
        end
    end.
Proof.
  unfold App.geocode, AppSpec.credential. cbv zeta.
  pose proof (first_of_two (environ !! "GOOGLE_MAPS_API_KEY") (environ !! "MAPS_API_KEY")) as H.
  destruct (WeatherSpec.first_configured _) as [key|].
  - destruct H as [-> Hkey]. cbn [Py.str_truthy]. rewrite Hkey. reflexivity.
  - rewrite H. reflexivity.
Qed.

(** X24.  Every exception the reverse geocoding endpoint raises is an
    HTTP error of status 500; in particular the 404 it raises for
    coordinates without address is caught by its own handler and
    replaced by a 500. *)
Theorem geocode_failures_have_status_500 (gmaps_lib : App.googlemaps)
    (environ : gmap string string) (lat lng : Q) :
  match App.geocode gmaps_lib environ lat lng with
  | App.Return _ => True
  | App.Raised e => exists d, e = App.HTTPException 500 d
  end /\
  (forall key reverse_geocode_result,
     AppSpec.credential environ = Some key ->
     App.Client gmaps_lib key = Ok tt ->
     App.reverse_geocode gmaps_lib key (lat, lng) = Ok reverse_geocode_result ->
     Py.truthy reverse_geocode_result = false ->
     App.geocode gmaps_lib environ lat lng
     = App.Raised
         (App.HTTPException 500
            (App.GeocodingFailed
               (App.HTTPException 404
                  (App.Text "No address found for the given coordinates"))))).
Proof.
  rewrite geocode_by_credential. split.
  - destruct (AppSpec.credential environ) as [key|]; [|eexists; reflexivity].
    destruct (App.lookup gmaps_lib key lat lng); [exact I | eexists; reflexivity].
  - intros key r -> Hclient Hreverse Hempty. unfold App.lookup.
    rewrite Hclient, Hreverse. cbn [App.lift App.bind]. now rewrite Hempty.
Qed.

Lemma geocode_failures_have_status_500_witness :
  App.geocode AppSpec.empty_geocoder {[ "MAPS_API_KEY" := "k" ]} 40 (-73)
  = App.Raised
      (App.HTTPException 500
         (App.GeocodingFailed
            (App.HTTPException 404
               (App.Text "No address found for the given coordinates")))).
Proof.
  apply (proj2 (geocode_failures_have_status_500 AppSpec.empty_geocoder
                  {[ "MAPS_API_KEY" := "k" ]} 40 (-73)) "k" (Py.JArr [])); reflexivity.
Defined.

(** ** The address components *)

Lemma dict_set_keys {V : Type} (d : list (string * V)) (k : string) (v : V) :
  map fst (Py.dict_set d k v)
  = if Py.dict_mem d k then map fst d else (map fst d ++ [k])%list.
Proof.
  unfold Py.dict_mem. induction d as [|[k' v'] d IH]; cbn [Py.dict_set Py.dict_get map fst app].
  - reflexivity.
  - destruct (String.eqb_spec k k') as [->|Hne]; cbn [map fst]; [reflexivity|].
    rewrite IH. now destruct (Py.dict_get d k).
Qed.

Lemma dict_set_keys_NoDup {V : Type} (d : list (string * V)) (k : string) (v : V) :
  List.NoDup (map fst d) -> List.NoDup (map fst (Py.dict_set d k v)).
Proof.
  intros Hnd. rewrite dict_set_keys. unfold Py.dict_mem.
  destruct (Py.dict_get d k) eqn:E; [exact Hnd|].
  apply List.NoDup_app; [exact Hnd | repeat constructor; intros [] |].
  intros x Hx [<-|[]]. now apply dict_get_not_In in E.
Qed.

Lemma dict_set_keys_In {V : Type} (d : list (string * V)) (k k' : string) (v : V) :
  In k' (map fst (Py.dict_set d k v)) -> k' = k \/ In k' (map fst d).
Proof.
  rewrite dict_set_keys. destruct (Py.dict_mem d k); [now right|].
  intros H. apply in_app_or in H as [H | [<- | []]]; [now right | now left].
Qed.

Lemma classify_keys (address_components address_components' : list (string * Py.json))
    (item : Py.json) :
  App.classify address_components item = Ok address_components' ->
  List.NoDup (map fst address_components) ->
  (forall k, In k (map fst address_components) -> In k AppSpec.component_keys) ->
  List.NoDup (map fst address_components') /\
  (forall k, In k (map fst address_components') -> In k AppSpec.component_keys).
Proof.
  unfold App.classify. intros H Hnd Hkeys.
  repeat (apply bind_Ok in H as (? & _ & H);
          try match type of H with
              | (if ?b then _ else _) = _ => destruct b
              end);
    injection H as <-;
    try (split; [now apply dict_set_keys_NoDup|];
         intros k Hk; apply dict_set_keys_In in Hk as [-> | Hk];
         [vm_compute; tauto | now apply Hkeys]).
  now split.
Qed.

Lemma classify_all_keys (items : list Py.json)
    (address_components address_components' : list (string * Py.json)) :
  App.classify_all address_components items = Ok address_components' ->
  List.NoDup (map fst address_components) ->
  (forall k, In k (map fst address_components) -> In k AppSpec.component_keys) ->
  List.NoDup (map fst address_components') /\
  (forall k, In k (map fst address_components') -> In k AppSpec.component_keys).
Proof.
  revert address_components. induction items as [|item items IH];
    intros address_components H Hnd Hkeys; cbn [App.classify_all] in H.
  - injection H as <-. now split.
  - apply bind_Ok in H as (mid & Hmid & H).
    destruct (classify_keys _ _ _ Hmid Hnd Hkeys) as [Hnd' Hkeys'].
    exact (IH _ H Hnd' Hkeys').
Qed.

Lemma or_else_truthy (a b : Py.json) : Py.truthy b = true -> Py.truthy (App.or_else a b) = true.
Proof. unfold App.or_else. now destruct (Py.truthy a) eqn:E. Qed.

(** X25.  A successful answer of the reverse geocoding endpoint echoes
    the coordinates and names a city that is never empty: the locality,
    else the district, else the province when each is set and not empty,
    else a placeholder; the address components it lists are among five
    keys, each at most once. *)
Theorem geocode_names_a_city (gmaps_lib : App.googlemaps) (environ : gmap string string)
    (lat lng : Q) (response : App.geocode_response) :
  App.geocode gmaps_lib environ lat lng = App.Return response ->
  Py.truthy (App.city response) = true /\
  (App.city response = App.component (App.address response) "city" \/
   (Py.truthy (App.component (App.address response) "city") = false /\
    (App.city response = App.component (App.address response) "district" \/
     (Py.truthy (App.component (App.address response) "district") = false /\
      (App.city response = App.component (App.address response) "province" \/
       (Py.truthy (App.component (App.address response) "province") = false /\
        App.city response = Py.JStr "未知城市")))))) /\
  App.latitude response = lat /\
  App.longitude response = lng /\
  List.NoDup (map fst (App.address response)) /\
  (forall k, In k (map fst (App.address response)) -> In k AppSpec.component_keys).
Proof.
  rewrite geocode_by_credential.
  destruct (AppSpec.credential environ) as [key|]; [|discriminate].
  destruct (App.lookup gmaps_lib key lat lng) as [r|e] eqn:Hlookup; [|discriminate].
  intros [= ->]. unfold App.lookup in Hlookup.
  destruct (App.Client gmaps_lib key) as [u|e]; [|discriminate]. cbn [App.lift App.bind] in Hlookup.
  destruct (App.reverse_geocode gmaps_lib key (lat, lng)) as [rr|e]; [|discriminate].
  cbn [App.lift App.bind] in Hlookup.
  destruct (negb (Py.truthy rr)); [discriminate|].
  match type of Hlookup with
  | App.lift ?c = _ => destruct c as [r|e] eqn:Hbody; [|discriminate]
  end.
  injection Hlookup as <-.
  apply bind_Ok in Hbody as (result & _ & Hbody).
  apply bind_Ok in Hbody as (formatted & _ & Hbody).
  apply bind_Ok in Hbody as (components & _ & Hbody).
  apply bind_Ok in Hbody as (items & _ & Hbody).
  apply bind_Ok in Hbody as (address_components & Hclassify & Hbody).
  injection Hbody as <-.
  cbn [App.city App.address App.latitude App.longitude].
  destruct (classify_all_keys _ _ _ Hclassify) as [Hnd Hkeys]; [constructor | intros k [] |].
  split; [|split; [|split; [reflexivity|split; [reflexivity|split; assumption]]]].
  - repeat apply or_else_truthy. reflexivity.
  - unfold App.or_else.
    destruct (Py.truthy (App.component address_components "city")); [now left|].
    right. split; [reflexivity|].
    destruct (Py.truthy (App.component address_components "district")); [now left|].
    right. split; [reflexivity|].
    destruct (Py.truthy (App.component address_components "province")); [now left|].
    right. split; reflexivity.
Qed.

Lemma geocode_names_a_city_witness :
  App.geocode AppSpec.district_geocoder {[ "GOOGLE_MAPS_API_KEY" := "k" ]} 40 (-73)
    = App.Return AppSpec.district_response /\
  Py.truthy (App.city AppSpec.district_response) = true.
Proof.
  split; [reflexivity|].
  refine (proj1 (geocode_names_a_city AppSpec.district_geocoder
                   {[ "GOOGLE_MAPS_API_KEY" := "k" ]} 40 (-73) AppSpec.district_response _)).
  reflexivity.
Defined.
(* ================================================================== *)
(** * Further properties: the example conversation                      *)
(* ================================================================== *)

Lemma reply_is_reply (response : string) :
  ConversationSpec.is_reply (CollectionOrder.user_line response) = true.
Proof. reflexivity. Qed.

Lemma reply_is_no_followup (response : string) :
  ConversationSpec.is_followup (CollectionOrder.user_line response) = false.
Proof. reflexivity. Qed.

Lemma followup_is_followup (question : string) :
  ConversationSpec.is_followup (CollectionOrder.followup_line question) = true.
Proof. reflexivity. Qed.

Lemma followup_is_no_reply (question : string) :
  ConversationSpec.is_reply (CollectionOrder.followup_line question) = false.
Proof. reflexivity. Qed.

Lemma example_response_at (i : nat) :
  (1 <= i < 16)%nat ->
  skipn (i - 1) (firstn 15 CollectionOrder.example_responses)
  = nth (i - 1) CollectionOrder.example_responses ""
    :: skipn i (firstn 15 CollectionOrder.example_responses).
Proof.
  intros H. do 16 (destruct i as [|i]; [first [lia | reflexivity]|]). lia.
Qed.

(** The loop over the follow-up questions, seen through a filter. *)
Lemma example_turns (questions : list string) (k : nat) (lines : list string) :
  (1 <= k)%nat ->
  let lines' :=
    fold_left CollectionOrder.example_turn
      (combine (seq k (List.length questions)) questions) lines in
  List.filter ConversationSpec.is_reply lines'
  = (List.filter ConversationSpec.is_reply lines
     ++ map CollectionOrder.user_line
          (firstn (List.length questions)
             (skipn (k - 1) (firstn 15 CollectionOrder.example_responses))))%list /\
  List.filter ConversationSpec.is_followup lines'
  = (List.filter ConversationSpec.is_followup lines
     ++ map CollectionOrder.followup_line (firstn (16 - k) questions))%list.
Proof.
  revert k lines. induction questions as [|q questions IH]; intros k lines Hk; cbv zeta.
  - cbn [List.length seq combine fold_left firstn map]. rewrite firstn_nil, !app_nil_r. auto.
  - cbn [List.length seq combine fold_left].
    destruct (IH (S k) (CollectionOrder.example_turn lines (k, q))) as [Hr Hf]; [lia|].
    cbv zeta in Hr, Hf. rewrite Hr, Hf. clear Hr Hf IH.
    unfold CollectionOrder.example_turn.
    change (List.length CollectionOrder.example_responses) with 16%nat.
    destruct (Nat.ltb_spec k 16) as [Hlt | Hge].
    + rewrite !List.filter_app. cbn [List.filter].
      rewrite reply_is_reply, reply_is_no_followup, followup_is_followup, followup_is_no_reply.
      rewrite (example_response_at k) by lia.
      replace (S k - 1)%nat with k by lia.
      replace (16 - k)%nat with (S (16 - S k)) by lia.
      cbn [firstn map]. rewrite <- !app_assoc. split; reflexivity.
    + replace (16 - k)%nat with 0%nat by lia. replace (16 - S k)%nat with 0%nat by lia.
      rewrite !skipn_all2 by (rewrite length_firstn; cbn; lia).
      rewrite !firstn_nil. cbn [firstn map]. split; reflexivity.
Qed.

(** X26.  For every table of questions, the example conversation opens
    with the first question; its follow-up questions are the next
    questions of the table in order, fifteen at most; its replies are
    the example replies in order, as many as there are follow-up
    questions, followed by the last example reply when the table has at
    most sixteen questions. *)
Theorem example_conversation_turns (order : list CollectionOrder.entry) :
  hd "" (CollectionOrder.example_conversation_lines order)
  = CollectionOrder.opening_line
      (hd "" (CollectionOrder.get_example_conversation_questions order)) /\
  List.filter ConversationSpec.is_followup (CollectionOrder.example_conversation_lines order)
  = map CollectionOrder.followup_line
      (firstn 15 (tl (CollectionOrder.get_example_conversation_questions order))) /\
  List.filter ConversationSpec.is_reply (CollectionOrder.example_conversation_lines order)
  = map CollectionOrder.user_line
      (firstn (List.length order - 1) (firstn 15 CollectionOrder.example_responses)
       ++ (if Nat.leb (List.length order) 16 then ["New York"] else []))%list.
Proof.
  unfold CollectionOrder.example_conversation_lines. cbv zeta.
  set (questions := CollectionOrder.get_example_conversation_questions order).
  assert (Hlen : List.length questions = List.length order)
    by (unfold questions, CollectionOrder.get_example_conversation_questions; apply length_map).
  assert (Htl : List.length (tl questions) = (List.length order - 1)%nat).
  { rewrite <- Hlen. destruct questions; cbn; lia. }
  set (opening := CollectionOrder.opening_line
                    match questions with first :: _ => first | [] => "" end).
  destruct (example_turns (tl questions) 1 [opening]) as [Hr Hf]; [lia|]. cbv zeta in Hr, Hf.
  change (List.length CollectionOrder.example_responses) with 16%nat. rewrite Hlen.
  split; [|split].
  - assert (Hhd : forall l l' : list string, hd "" ((opening :: l) ++ l') = opening)
      by reflexivity.
    assert (Hfold : forall turns lines,
      exists rest, fold_left CollectionOrder.example_turn turns (opening :: lines)
                   = opening :: rest).
    { induction turns as [|[i q] turns IH]; intros lines; cbn [fold_left]; [eauto|].
      unfold CollectionOrder.example_turn at 2.
      destruct (Nat.ltb i _); [rewrite <- app_comm_cons|]; apply IH. }
    destruct (Hfold (combine (seq 1 (List.length (tl questions))) (tl questions)) [])
      as [rest ->].
    replace (hd "" questions) with match questions with first :: _ => first | [] => "" end
      by (now destruct questions).
    now destruct (Nat.leb _ _).
  - assert (Hnone : forall l, List.filter ConversationSpec.is_followup
                                (l ++ CollectionOrder.closing_lines)
                              = List.filter ConversationSpec.is_followup l)
      by (intros l; rewrite List.filter_app; cbn; apply app_nil_r).
    rewrite Hnone.
    destruct (Nat.leb _ _); [rewrite List.filter_app; cbn [List.filter];
                             rewrite reply_is_no_followup, app_nil_r|];
      rewrite Hf; reflexivity.
  - assert (Hnone : forall l, List.filter ConversationSpec.is_reply
                                (l ++ CollectionOrder.closing_lines)
                              = List.filter ConversationSpec.is_reply l)
      by (intros l; rewrite List.filter_app; cbn; apply app_nil_r).
    rewrite Hnone, List.map_app.
    destruct (Nat.leb _ _); [rewrite List.filter_app; cbn [List.filter];
                             rewrite reply_is_reply|];
      rewrite Hr, Htl; cbn [List.filter skipn Nat.sub app map]; rewrite ?app_nil_r; reflexivity.
Qed.

Lemma example_conversation_turns_witness :
  List.filter ConversationSpec.is_reply
    (CollectionOrder.example_conversation_lines CollectionOrder.shipped_order)
  = map CollectionOrder.user_line CollectionOrder.example_responses /\
  List.filter ConversationSpec.is_followup
    (CollectionOrder.example_conversation_lines CollectionOrder.shipped_order)
  = map CollectionOrder.followup_line
      (tl (CollectionOrder.get_example_conversation_questions CollectionOrder.shipped_order)).
Proof.
  destruct (example_conversation_turns CollectionOrder.shipped_order) as (_ & Hf & Hr).
  rewrite Hf, Hr. split; reflexivity.
Defined.
